(** * The host-communication bridge of the wheel picker

    A shallow embedding of the bridge layer (event emitter, platform
    detector, the three transport strategies with their shared base class,
    and the coordinating service) together with the properties established
    about it.  JavaScript objects that are mutated in place are modelled by
    explicit state passing; the host objects a strategy talks to are values
    of the embedding ([WindowWithBridge]). *)

From Stdlib Require Import ZArith.
From stdpp Require Import base option list strings pretty gmap.

Local Open Scope string_scope.
Local Set Warnings "-clear-no-such-hyp".

(** ** JavaScript values as the bridge sees them *)

Module Js.

(** An [Error] object; only its [message] is ever inspected. *)
Record Error := mkError { message : string }.

(** Untyped payloads ([any]).  Numbers are the integer-valued doubles and
    [NaN]; every other double is non-zero and not [NaN], and so behaves as
    a non-zero integer under [typeof], truthiness and [!== 0], the only
    tests the bridge applies to a number.  [JThenable] is an object with a
    [then] method (or [_then] for a WebView2 proxy) that settles as
    recorded. *)
#[warnings="-register-all"]
Inductive JsVal :=
| JUndefined
| JNull
| JBool (b : bool)
| JNum (z : Z)
| JNaN
| JStr (s : string)
| JArr (items : list JsVal)
| JObj (fields : list (string * JsVal))
| JThenable (proxy : bool) (settles : Error + JsVal).

(** [ToBoolean]. *)
Definition truthy (v : JsVal) : bool :=
  match v with
  | JUndefined | JNull | JNaN => false
  | JBool b => b
  | JNum z => negb (z =? 0)%Z
  | JStr s => negb (String.eqb s "")
  | JArr _ | JObj _ | JThenable _ _ => true
  end.

(** [typeof v === 'object'] ([null] included, as in JavaScript). *)
Definition typeof_object (v : JsVal) : bool :=
  match v with
  | JNull | JArr _ | JObj _ | JThenable _ _ => true
  | _ => false
  end.

Fixpoint assoc (k : string) (fields : list (string * JsVal)) : JsVal :=
  match fields with
  | [] => JUndefined
  | (k', v) :: rest => if String.eqb k k' then v else assoc k rest
  end.

(** Property read [v.k] on a value that is not [null] or [undefined]. *)
Definition get (k : string) (v : JsVal) : JsVal :=
  match v with
  | JObj fields => assoc k fields
  | _ => JUndefined
  end.

(** [a || b] *)
Definition or_else (a b : JsVal) : JsVal := if truthy a then a else b.

(** [a === true] *)
Definition is_true (v : JsVal) : bool :=
  match v with JBool true => true | _ => false end.

Definition lower_ascii (c : Ascii.ascii) : Ascii.ascii :=
  let n := Ascii.nat_of_ascii c in
  if (65 <=? n)%nat && (n <=? 90)%nat then Ascii.ascii_of_nat (n + 32) else c.

(** [String.prototype.toLowerCase], on the bytes of the string.  Only the
    ASCII letters are mapped; no other character lower-cases to a letter
    of the words the bridge compares with. *)
Fixpoint toLowerCase (s : string) : string :=
  match s with
  | EmptyString => EmptyString
  | String c rest => String (lower_ascii c) (toLowerCase rest)
  end.

(** [s.endsWith(suffix)] *)
Definition endsWith (s suffix : string) : bool :=
  let n := String.length s in
  let m := String.length suffix in
  (m <=? n)%nat && String.eqb (String.substring (n - m) m s) suffix.

(** What [await v] and [resolve(v)] make of [v]: a thenable is adopted,
    any other value (a proxy with only [_then] too) is the result. *)
Fixpoint adopt (v : JsVal) : Error + JsVal :=
  match v with
  | JThenable false (inl e) => inl e
  | JThenable false (inr v') => adopt v'
  | _ => inr v
  end.

(** An optional member is there ([!!member]). *)
Definition present {A} (o : option A) : bool :=
  match o with Some _ => true | None => false end.

(** [s.includes(needle)] *)
Fixpoint includes (needle s : string) : bool :=
  String.prefix needle s ||
  match s with
  | EmptyString => false
  | String _ rest => includes needle rest
  end.

End Js.

Import Js.

(** ** Platform types (types/platform.types.ts) *)

Inductive PlatformType := windows | android | electron | web.

Inductive Confidence := high | medium | low.

Record PlatformDetectionResult := {
  platform : PlatformType;
  confidence : Confidence;
  detectionMethod : string
}.

(** ** Bridge types (types/bridge.types.ts) *)

Record Student := {
  studentId : string;
  name : string;
  seatNumber : option string
}.

(** [StudentPickedEvent] and [StudentRemovedEvent] both are
    [{ studentId: string }]. *)
Record StudentEvent := { eventStudentId : string }.

Inductive ConnectionStatus := connected | disconnected | connecting | error.

Global Instance ConnectionStatus_eq_dec : EqDecision ConnectionStatus.
Proof. solve_decision. Defined.

Record BridgeMessage := {
  msgEvent : string;
  msgData : JsVal;
  msgTimestamp : N;
  msgMessageId : option string
}.

(** How a call ends: with a value, or with an exception (for an [async]
    method: its promise fulfils or rejects). *)
Inductive Outcome (A : Type) :=
| Done (v : A)
| Failed (e : Error).
Arguments Done {A} v.
Arguments Failed {A} e.

(** What a call into a host function does: it throws or it returns. *)
Inductive HostReply :=
| Throws (e : Error)
| Returns (v : JsVal).

(** The host objects of [WindowWithBridge].  A member that is present is a
    function, as its declared type says.  A message handed to the host is
    kept as the [BridgeMessage] it serialises, a student event likewise. *)
Record WindowsApi := {
  Windows_receiveMessage : BridgeMessage -> HostReply
}.

Record WebViewApi := {
  webview_postMessage : BridgeMessage -> HostReply;
  webview_addEventListener : option HostReply
}.

Record ChromeApi := { webview : option WebViewApi }.

Record AndroidApi := {
  Android_receiveMessage : option (BridgeMessage -> HostReply);
  Android_getStudentList : option HostReply;
  Android_studentPicked : option (StudentEvent -> HostReply);
  Android_studentRemoved : option (StudentEvent -> HostReply)
}.

Record AsyncBridgeApi := {
  async_getStudentList : option HostReply;
  async_studentPicked : option (option StudentEvent -> HostReply);
  async_studentRemoved : option (option StudentEvent -> HostReply)
}.

Record ElectronApi := {
  electron_send : bool;
  electron_on : bool
}.

Record WindowWithBridge := {
  Windows : option WindowsApi;
  chrome : option ChromeApi;
  Android : option AndroidApi;
  asyncBridge : option AsyncBridgeApi;
  electronAPI : option ElectronApi;
  userAgent : string
}.

(** ** PlatformDetector *)

Module PlatformDetector.

Definition hasWindowsReceiveMessage (win : WindowWithBridge) : bool :=
  present (Windows win).

Definition hasAndroidObject (win : WindowWithBridge) : bool :=
  match Android win with
  | Some a =>
      present (Android_receiveMessage a)
      || present (Android_getStudentList a)
      || present (Android_studentPicked a)
      || present (Android_studentRemoved a)
  | None => false
  end.

Definition hasAsyncBridge (win : WindowWithBridge) : bool :=
  match asyncBridge win with
  | Some b =>
      present (async_getStudentList b)
      || present (async_studentPicked b)
      || present (async_studentRemoved b)
  | None => false
  end.

Definition hasChromeWebView (win : WindowWithBridge) : bool :=
  match chrome win with
  | Some c => present (webview c)
  | None => false
  end.

Definition hasElectronAPI (win : WindowWithBridge) : bool :=
  match electronAPI win with
  | Some e => electron_send e && electron_on e
  | None => false
  end.

(** [/Android/i.test(navigator.userAgent)] *)
Definition isAndroidUserAgent (win : WindowWithBridge) : bool :=
  includes "android" (toLowerCase (userAgent win)).

Definition detect (win : WindowWithBridge) : PlatformDetectionResult :=
  if hasWindowsReceiveMessage win then
    {| platform := windows; confidence := high;
       detectionMethod := "Windows.receiveMessage" |}
  else if hasAndroidObject win then
    {| platform := android; confidence := high;
       detectionMethod := "Android object methods" |}
  else if hasAsyncBridge win && isAndroidUserAgent win then
    {| platform := android; confidence := high;
       detectionMethod := "asyncBridge + Android UserAgent" |}
  else if hasAsyncBridge win && negb (hasChromeWebView win) then
    {| platform := android; confidence := medium;
       detectionMethod := "asyncBridge without chrome.webview" |}
  else if hasAsyncBridge win && hasChromeWebView win then
    {| platform := windows; confidence := high;
       detectionMethod := "asyncBridge + chrome.webview" |}
  else if hasChromeWebView win then
    {| platform := windows; confidence := medium;
       detectionMethod := "chrome.webview only" |}
  else if hasElectronAPI win then
    {| platform := electron; confidence := high;
       detectionMethod := "electronAPI" |}
  else
    {| platform := web; confidence := low; detectionMethod := "fallback" |}.

Definition getPlatform (win : WindowWithBridge) : PlatformType :=
  platform (detect win).

End PlatformDetector.

(** ** EventEmitter (utils/EventEmitter.ts) *)

Module EventEmitter.

(** A callback is a function object; the emitter only ever compares
    callbacks by identity. *)
Definition EventCallback := nat.

(** [Set<EventCallback>]: insertion ordered, without duplicates. *)
Definition Set_add (cb : EventCallback) (s : list EventCallback)
  : list EventCallback :=
  if bool_decide (cb ∈ s) then s else s ++ [cb].

Definition Set_delete (cb : EventCallback) (s : list EventCallback)
  : list EventCallback :=
  filter (λ c, c ≠ cb) s.

(** [listeners : Map<string, Set<EventCallback>>].  The map holds
    references to [Set] objects, which the unsubscribe closures capture
    too, so the sets live in a store of their own. *)
Record t := {
  sets : gmap nat (list EventCallback);
  nextSet : nat;
  listeners : gmap string nat
}.

Definition new : t := {| sets := ∅; nextSet := 0; listeners := ∅ |}.

(** The closure returned by [on], as what it captured: the set, the
    callback and the event name, on which alone its call depends.  Every
    call of [on] makes a function object of its own; that identity is not
    kept, so equal records stand for closures that act alike, not for one
    function object. *)
Record Unsubscriber := {
  captured_callbacks : nat;
  captured_callback : EventCallback;
  captured_event : string
}.

Definition deref (ref : nat) (em : t) : list EventCallback :=
  default [] (sets em !! ref).

Definition store (ref : nat) (s : list EventCallback) (em : t) : t :=
  {| sets := <[ref := s]> (sets em);
     nextSet := nextSet em;
     listeners := listeners em |}.

Definition listeners_delete (event : string) (em : t) : t :=
  {| sets := sets em;
     nextSet := nextSet em;
     listeners := delete event (listeners em) |}.

Definition on (event : string) (callback : EventCallback) (em : t)
  : t * Unsubscriber :=
  let em1 :=
    match listeners em !! event with
    | Some _ => em
    | None =>
        {| sets := <[nextSet em := []]> (sets em);
           nextSet := S (nextSet em);
           listeners := <[event := nextSet em]> (listeners em) |}
    end in
  let callbacks := default (nextSet em) (listeners em1 !! event) in
  (store callbacks (Set_add callback (deref callbacks em1)) em1,
   {| captured_callbacks := callbacks;
      captured_callback := callback;
      captured_event := event |}).

(** Calling the function [on] returned. *)
Definition unsubscribe (u : Unsubscriber) (em : t) : t :=
  let callbacks := captured_callbacks u in
  let em1 := store callbacks
               (Set_delete (captured_callback u) (deref callbacks em)) em in
  if (length (deref callbacks em1) =? 0)%nat
  then listeners_delete (captured_event u) em1
  else em1.

(** [emit(event, data)]: the callbacks of the event's set as [emit] finds
    it, in the order [forEach] goes through them, each with [data]; an
    exception of one is caught and logged, the next still runs.  The
    handlers are opaque here and are not run: what a handler does to the
    emitter while [forEach] is still going (taking a callback off the set,
    adding one) is not followed. *)
Definition emit (event : string) (data : JsVal) (em : t)
  : list (EventCallback * JsVal) :=
  match listeners em !! event with
  | Some callbacks => (λ cb, (cb, data)) <$> deref callbacks em
  | None => []
  end.

Definition off (event : string) (callback : option EventCallback) (em : t)
  : t :=
  match callback with
  | None => listeners_delete event em
  | Some cb =>
      match listeners em !! event with
      | Some callbacks =>
          let em1 := store callbacks (Set_delete cb (deref callbacks em)) em in
          if (length (deref callbacks em1) =? 0)%nat
          then listeners_delete event em1
          else em1
      | None => em
      end
  end.

Definition clear (em : t) : t :=
  {| sets := sets em; nextSet := nextSet em; listeners := ∅ |}.

(** [listenerCount(event?)]; an empty name is falsy and counts all. *)
Definition listenerCount (event : option string) (em : t) : nat :=
  match event with
  | Some e =>
      if String.eqb e "" then
        map_fold (λ _ ref total, total + length (deref ref em)) 0 (listeners em)
      else
        match listeners em !! e with
        | Some callbacks => length (deref callbacks em)
        | None => 0
        end
  | None =>
      map_fold (λ _ ref total, total + length (deref ref em)) 0 (listeners em)
  end.

End EventEmitter.

(** ** The runtime a strategy lives in: clock, promises, timers, and the
       calls made on the shared event emitter *)

Inductive Settlement :=
| Unsettled
| Fulfilled (v : JsVal)
| Rejected (e : Error).

(** The callbacks the bridge hands to [setTimeout]. *)
Inductive TimerAction :=
| RequestTimeout (messageId : string) (promise : nat) (ms : N)
| EmitLater (event : string) (data : JsVal)
| RetryConnect.

Record Timer := { due : N; action : TimerAction }.

Record Runtime := {
  now : N;                         (* Date.now(), in ms *)
  promises : list Settlement;      (* promises created so far, by handle *)
  timers : list (option Timer);    (* by timer id; None once fired or cleared *)
  emitted : list (string * JsVal); (* eventEmitter.emit calls, oldest first *)
  posted : list BridgeMessage      (* messages handed to the host, oldest first *)
}.

Module Runtime.

(** A page that has set no timer yet.  Timer ids are positive, as in
    browsers: slot 0 is never used. *)
Definition start : Runtime :=
  {| now := 0%N; promises := []; timers := [None]; emitted := [];
     posted := [] |}.

Definition setTimeout (a : TimerAction) (ms : N) (rt : Runtime)
  : nat * Runtime :=
  (length (timers rt),
   {| now := now rt;
      promises := promises rt;
      timers := timers rt ++ [Some {| due := (now rt + ms)%N; action := a |}];
      emitted := emitted rt;
      posted := posted rt |}).

Definition clearTimeout (tid : nat) (rt : Runtime) : Runtime :=
  {| now := now rt;
     promises := promises rt;
     timers := <[tid := None]> (timers rt);
     emitted := emitted rt;
     posted := posted rt |}.

Definition newPromise (rt : Runtime) : nat * Runtime :=
  (length (promises rt),
   {| now := now rt;
      promises := promises rt ++ [Unsettled];
      timers := timers rt;
      emitted := emitted rt;
      posted := posted rt |}).

(** Calling [resolve] or [reject] of a promise: only the first call
    settles it. *)
Definition settle (p : nat) (o : Settlement) (rt : Runtime) : Runtime :=
  match promises rt !! p with
  | Some Unsettled =>
      {| now := now rt;
         promises := <[p := o]> (promises rt);
         timers := timers rt;
         emitted := emitted rt;
         posted := posted rt |}
  | _ => rt
  end.

Definition emit (event : string) (data : JsVal) (rt : Runtime) : Runtime :=
  {| now := now rt;
     promises := promises rt;
     timers := timers rt;
     emitted := emitted rt ++ [(event, data)];
     posted := posted rt |}.

(** A message is handed to a host function. *)
Definition post (m : BridgeMessage) (rt : Runtime) : Runtime :=
  {| now := now rt;
     promises := promises rt;
     timers := timers rt;
     emitted := emitted rt;
     posted := posted rt ++ [m] |}.

(** The clock reaches [t]. *)
Definition advance (t : N) (rt : Runtime) : Runtime :=
  {| now := N.max (now rt) t;
     promises := promises rt;
     timers := timers rt;
     emitted := emitted rt;
     posted := posted rt |}.

End Runtime.

Definition status_name (s : ConnectionStatus) : string :=
  match s with
  | connected => "connected"
  | disconnected => "disconnected"
  | connecting => "connecting"
  | error => "error"
  end.

(** ** BridgeStrategy, the abstract base class *)

Record PendingRequest := {
  pending_promise : nat;   (* the promise [resolve] and [reject] belong to *)
  pending_timeout : nat    (* timer id *)
}.

Record BridgeStrategy := {
  connectionStatus : ConnectionStatus;
  lastActivity : option N;
  messageIdCounter : nat;
  pendingRequests : gmap string PendingRequest
}.

Module BridgeStrategy.

Definition new : BridgeStrategy :=
  {| connectionStatus := disconnected;
     lastActivity := None;
     messageIdCounter := 0;
     pendingRequests := ∅ |}.

Definition set_pendingRequests (m : gmap string PendingRequest)
    (s : BridgeStrategy) : BridgeStrategy :=
  {| connectionStatus := connectionStatus s;
     lastActivity := lastActivity s;
     messageIdCounter := messageIdCounter s;
     pendingRequests := m |}.

(** [`msg_${time}_${counter}`] *)
Definition message_id (time : N) (counter : nat) : string :=
  "msg_" +:+ pretty time +:+ "_" +:+ pretty counter.
Arguments message_id : simpl never.

(** [`msg_${Date.now()}_${++this.messageIdCounter}`] *)
Definition generateMessageId (st : Runtime * BridgeStrategy)
  : string * (Runtime * BridgeStrategy) :=
  let '(rt, s) := st in
  let counter := S (messageIdCounter s) in
  (message_id (now rt) counter,
   (rt, {| connectionStatus := connectionStatus s;
           lastActivity := lastActivity s;
           messageIdCounter := counter;
           pendingRequests := pendingRequests s |})).

Definition createMessage (event : string) (data : JsVal)
    (st : Runtime * BridgeStrategy)
  : BridgeMessage * (Runtime * BridgeStrategy) :=
  let '(id, st1) := generateMessageId st in
  ({| msgEvent := event;
      msgData := data;
      msgTimestamp := now (fst st);
      msgMessageId := Some id |}, st1).

Definition timeout_error (ms : N) : Error :=
  mkError ("Request timeout after " +:+ pretty ms +:+ "ms").
Arguments timeout_error : simpl never.

(** [createPendingRequest(messageId, timeout = 5000)]: the promise
    returned, by handle. *)
Definition createPendingRequest (messageId : string) (timeout : option N)
    (st : Runtime * BridgeStrategy) : nat * (Runtime * BridgeStrategy) :=
  let '(rt, s) := st in
  let ms := default 5000%N timeout in
  let '(p, rt1) := Runtime.newPromise rt in
  let '(timeoutId, rt2) :=
    Runtime.setTimeout (RequestTimeout messageId p ms) ms rt1 in
  (p, (rt2,
       set_pendingRequests
         (<[messageId := {| pending_promise := p;
                            pending_timeout := timeoutId |}]>
            (pendingRequests s)) s)).

Definition resolvePendingRequest (messageId : string) (data : JsVal)
    (st : Runtime * BridgeStrategy) : Runtime * BridgeStrategy :=
  let '(rt, s) := st in
  match pendingRequests s !! messageId with
  | Some pending =>
      let rt1 := Runtime.clearTimeout (pending_timeout pending) rt in
      let rt2 := Runtime.settle (pending_promise pending) (Fulfilled data) rt1 in
      (rt2, set_pendingRequests (delete messageId (pendingRequests s)) s)
  | None => st
  end.

Definition rejectPendingRequest (messageId : string) (err : Error)
    (st : Runtime * BridgeStrategy) : Runtime * BridgeStrategy :=
  let '(rt, s) := st in
  match pendingRequests s !! messageId with
  | Some pending =>
      let rt1 := Runtime.clearTimeout (pending_timeout pending) rt in
      let rt2 := Runtime.settle (pending_promise pending) (Rejected err) rt1 in
      (rt2, set_pendingRequests (delete messageId (pendingRequests s)) s)
  | None => st
  end.

Definition updateConnectionStatus (status : ConnectionStatus)
    (st : Runtime * BridgeStrategy) : Runtime * BridgeStrategy :=
  let '(rt, s) := st in
  (Runtime.emit "connectionStatusChanged" (JStr (status_name status)) rt,
   {| connectionStatus := status;
      lastActivity := lastActivity s;
      messageIdCounter := messageIdCounter s;
      pendingRequests := pendingRequests s |}).

Definition updateLastActivity (st : Runtime * BridgeStrategy)
  : Runtime * BridgeStrategy :=
  let '(rt, s) := st in
  (rt, {| connectionStatus := connectionStatus s;
          lastActivity := Some (now rt);
          messageIdCounter := messageIdCounter s;
          pendingRequests := pendingRequests s |}).

Definition closed_error : Error := mkError "Connection closed".

(** The body of the [forEach] in [cleanup], for one entry. *)
Definition cleanup_entry (entry : string * PendingRequest) (rt : Runtime)
  : Runtime :=
  Runtime.settle (pending_promise entry.2) (Rejected closed_error)
    (Runtime.clearTimeout (pending_timeout entry.2) rt).

Definition cleanup (st : Runtime * BridgeStrategy)
  : Runtime * BridgeStrategy :=
  let '(rt, s) := st in
  (foldr cleanup_entry rt (map_to_list (pendingRequests s)),
   set_pendingRequests ∅ s).

Arguments cleanup : simpl never.

(** The timer [tid] expires: its callback runs, once. *)
Definition timer_fires (tid : nat) (st : Runtime * BridgeStrategy)
  : Runtime * BridgeStrategy :=
  let '(rt, s) := st in
  match timers rt !! tid with
  | Some (Some t) =>
      let rt1 := Runtime.clearTimeout tid (Runtime.advance (due t) rt) in
      match action t with
      | RequestTimeout messageId p ms =>
          (Runtime.settle p (Rejected (timeout_error ms)) rt1,
           set_pendingRequests (delete messageId (pendingRequests s)) s)
      | EmitLater event data => (Runtime.emit event data rt1, s)
      | RetryConnect => (rt1, s)
      end
  | _ => st
  end.

End BridgeStrategy.

(** ** What the strategies share beyond the base class *)

(** An [async] method either settles without waiting for the host, or is
    suspended at [await promise] of a round trip. *)
Inductive Call :=
| Completed (r : Outcome JsVal)
| Awaiting (promise : nat).

Definition reply_error (r : HostReply) : option Error :=
  match r with Throws e => Some e | Returns _ => None end.

Definition chrome_webview (win : WindowWithBridge) : option WebViewApi :=
  chrome win ≫= webview.

(** [asyncBridge[method]] *)
Definition async_member (method : string) (b : AsyncBridgeApi)
  : option (option StudentEvent -> HostReply) :=
  if String.eqb method "getStudentList" then
    (λ r _, r) <$> async_getStudentList b
  else if String.eqb method "studentPicked" then async_studentPicked b
  else if String.eqb method "studentRemoved" then async_studentRemoved b
  else None.

(** The object literal of a student event, and of a student. *)
Definition event_js (event : StudentEvent) : JsVal :=
  JObj [("studentId", JStr (eventStudentId event))].

Definition student_js (s : Student) : JsVal :=
  JObj ([("studentId", JStr (studentId s)); ("name", JStr (name s))]
        ++ match seatNumber s with
           | Some n => [("seatNumber", JStr n)]
           | None => []
           end).

(** The rest of a method after [await promise]: [None] while the promise is
    not settled. *)
Definition await_roundtrip (promise : nat) (st : Runtime * BridgeStrategy)
  : (Runtime * BridgeStrategy) * option (Outcome JsVal) :=
  match promises st.1 !! promise with
  | Some (Fulfilled v) => (BridgeStrategy.updateLastActivity st, Some (Done v))
  | Some (Rejected e) => (st, Some (Failed e))
  | _ => (st, None)
  end.

(** [handleMessage], the same text in WindowsBridge and AndroidBridge.  A
    [TypeError] raised inside ([data] is [null], or [data.event] is truthy
    and has no [endsWith]) is caught and logged. *)
Definition handleMessage (data : JsVal) (st : Runtime * BridgeStrategy)
  : Runtime * BridgeStrategy :=
  match data with
  | JUndefined | JNull => st
  | _ =>
      match get "event" data with
      | JStr event =>
          if String.eqb event "" then st
          else
            let st1 :=
              if endsWith event "Response" then
                match get "messageId" data with
                | JStr messageId =>
                    if negb (String.eqb messageId "")
                       && bool_decide (is_Some (pendingRequests st.2 !! messageId))
                    then BridgeStrategy.resolvePendingRequest messageId
                           (get "data" data) st
                    else st
                | _ => st
                end
              else st in
            (Runtime.emit event (get "data" data) st1.1, st1.2)
      | _ => st
      end
  end.

Arguments handleMessage : simpl never.

(** ** WindowsBridge *)

Record WindowsBridge := {
  windows_base : BridgeStrategy;
  messageHandler : bool   (* the window listener is registered *)
}.

Module WindowsBridge.

Definition new : WindowsBridge :=
  {| windows_base := BridgeStrategy.new; messageHandler := false |}.

Definition getPlatform : PlatformType := windows.

Definition lift (f : Runtime * BridgeStrategy -> Runtime * BridgeStrategy)
    (st : Runtime * WindowsBridge) : Runtime * WindowsBridge :=
  let st1 := f (st.1, windows_base st.2) in
  (st1.1, {| windows_base := st1.2; messageHandler := messageHandler st.2 |}).

Definition lift_with {A}
    (f : Runtime * BridgeStrategy -> A * (Runtime * BridgeStrategy))
    (st : Runtime * WindowsBridge) : A * (Runtime * WindowsBridge) :=
  let r := f (st.1, windows_base st.2) in
  (r.1, (r.2.1, {| windows_base := r.2.2;
                   messageHandler := messageHandler st.2 |})).

Definition setupListeners (win : WindowWithBridge)
    (st : Runtime * WindowsBridge) : (Runtime * WindowsBridge) * option Error :=
  let st1 := (st.1, {| windows_base := windows_base st.2;
                       messageHandler := true |}) in
  match chrome_webview win ≫= webview_addEventListener with
  | Some r => (st1, reply_error r)
  | None => (st1, None)
  end.

Definition connect (win : WindowWithBridge) (st : Runtime * WindowsBridge)
  : (Runtime * WindowsBridge) * Outcome unit :=
  let caught (e : Error) (st : Runtime * WindowsBridge) :=
    (lift (BridgeStrategy.updateConnectionStatus error) st, Failed e) in
  let st1 := lift (BridgeStrategy.updateConnectionStatus connecting) st in
  match setupListeners win st1 with
  | (st2, Some e) => caught e st2
  | (st2, None) =>
      let '(testMessage, st3) :=
        lift_with (BridgeStrategy.createMessage "ping" (JObj [])) st2 in
      let '(st4, thrown) :=
        match Windows win with
        | Some w =>
            ((Runtime.post testMessage st3.1, st3.2),
             reply_error (Windows_receiveMessage w testMessage))
        | None =>
            match chrome_webview win with
            | Some wv =>
                ((Runtime.post testMessage st3.1, st3.2),
                 reply_error (webview_postMessage wv testMessage))
            | None =>
                if present (asyncBridge win) then (st3, None)
                else (st3, Some (mkError "No Windows bridge API available"))
            end
        end in
      match thrown with
      | Some e => caught e st4
      | None =>
          (lift BridgeStrategy.updateLastActivity
             (lift (BridgeStrategy.updateConnectionStatus connected) st4),
           Done ())
      end
  end.

Definition disconnect (st : Runtime * WindowsBridge)
  : Runtime * WindowsBridge :=
  let st1 := lift (BridgeStrategy.updateConnectionStatus disconnected) st in
  let st2 := (st1.1, {| windows_base := windows_base st1.2;
                        messageHandler := false |}) in
  lift BridgeStrategy.cleanup st2.

Definition callAsyncBridge (win : WindowWithBridge) (method : string)
    (data : option StudentEvent) : Outcome JsVal :=
  match asyncBridge win ≫= async_member method with
  | None => Failed (mkError ("AsyncBridge method " +:+ method +:+ " not found"))
  | Some fn =>
      match fn data with
      | Throws e => Failed e
      | Returns result =>
          let settled :=
            if truthy result && typeof_object result then
              match result with
              | JThenable true (inl e) => inl e
              | JThenable true (inr v) => adopt v
              | _ => adopt result
              end
            else inr result in
          match settled with
          | inl e => Failed e
          | inr v => Done v
          end
      end
  end.

Definition sendMessage (win : WindowWithBridge) (m : BridgeMessage)
    (st : Runtime * WindowsBridge) : (Runtime * WindowsBridge) * option Error :=
  match Windows win with
  | Some w =>
      ((Runtime.post m st.1, st.2), reply_error (Windows_receiveMessage w m))
  | None =>
      match chrome_webview win with
      | Some wv =>
          ((Runtime.post m st.1, st.2), reply_error (webview_postMessage wv m))
      | None => (st, Some (mkError "Cannot send message to Windows host"))
      end
  end.

Definition handleMessage (data : JsVal) (st : Runtime * WindowsBridge)
  : Runtime * WindowsBridge :=
  lift (handleMessage data) st.

Definition parseBooleanResponse (result : JsVal) : JsVal :=
  match result with
  | JBool b => JBool b
  | JStr s => JBool (String.eqb (toLowerCase s) "true" || String.eqb s "1")
  | _ =>
      if truthy result && typeof_object result
      then or_else (get "success" result) (JBool false)
      else JBool false
  end.

Section JSON.

(** [JSON.parse]; [None] when it throws a [SyntaxError]. *)
Variable JSON_parse : string -> option JsVal.


Definition parseStudentListResponse (result : JsVal) : JsVal :=
  match result with
  | JStr text =>
      match JSON_parse text with
      | Some JNull | None => JArr []
      | Some parsed =>
          or_else (get "data" parsed) (or_else parsed (JArr []))
      end
  | JArr items => JArr items
  | _ =>
      if truthy result && typeof_object result
      then or_else (get "data" result) (JArr [])
      else JArr []
  end.

(** The round trip every method falls back to. *)
Definition roundtrip (win : WindowWithBridge) (messageId : string)
    (event : string) (data : JsVal) (st : Runtime * WindowsBridge)
  : (Runtime * WindowsBridge) * Call :=
  let '(message, st1) :=
    lift_with (BridgeStrategy.createMessage event data) st in
  let '(promise, st2) :=
    lift_with (BridgeStrategy.createPendingRequest messageId (Some 5000%N)) st1 in
  match sendMessage win message st2 with
  | (st3, Some e) => (st3, Completed (Failed e))
  | (st3, None) => (st3, Awaiting promise)
  end.

Definition getStudentList (win : WindowWithBridge)
    (st : Runtime * WindowsBridge) : (Runtime * WindowsBridge) * Call :=
  let '(messageId, st1) := lift_with BridgeStrategy.generateMessageId st in
  let viaAsyncBridge :=
    if present (asyncBridge win ≫= async_getStudentList)
    then Some (callAsyncBridge win "getStudentList" None)
    else None in
  match viaAsyncBridge with
  | Some (Done result) =>
      (lift BridgeStrategy.updateLastActivity st1,
       Completed (Done (parseStudentListResponse result)))
  | _ => roundtrip win messageId "getStudentList" (JObj []) st1
  end.

Definition studentPicked (win : WindowWithBridge) (event : StudentEvent)
    (st : Runtime * WindowsBridge) : (Runtime * WindowsBridge) * Call :=
  let '(messageId, st1) := lift_with BridgeStrategy.generateMessageId st in
  let viaAsyncBridge :=
    if present (asyncBridge win ≫= async_studentPicked)
    then Some (callAsyncBridge win "studentPicked" (Some event))
    else None in
  match viaAsyncBridge with
  | Some (Done result) =>
      (lift BridgeStrategy.updateLastActivity st1,
       Completed (Done (parseBooleanResponse result)))
  | _ => roundtrip win messageId "studentPicked" (event_js event) st1
  end.

Definition studentRemoved (win : WindowWithBridge) (event : StudentEvent)
    (st : Runtime * WindowsBridge) : (Runtime * WindowsBridge) * Call :=
  let '(messageId, st1) := lift_with BridgeStrategy.generateMessageId st in
  let viaAsyncBridge :=
    if present (asyncBridge win ≫= async_studentRemoved)
    then Some (callAsyncBridge win "studentRemoved" (Some event))
    else None in
  match viaAsyncBridge with
  | Some (Done result) =>
      (lift BridgeStrategy.updateLastActivity st1,
       Completed (Done (parseBooleanResponse result)))
  | _ => roundtrip win messageId "studentRemoved" (event_js event) st1
  end.

End JSON.

(** The method resumes after [await promise]. *)
Definition resume (promise : nat) (st : Runtime * WindowsBridge)
  : (Runtime * WindowsBridge) * option (Outcome JsVal) :=
  let r := await_roundtrip promise (st.1, windows_base st.2) in
  ((r.1.1, {| windows_base := r.1.2; messageHandler := messageHandler st.2 |}),
   r.2).

Definition timer_fires (tid : nat) (st : Runtime * WindowsBridge)
  : Runtime * WindowsBridge :=
  lift (BridgeStrategy.timer_fires tid) st.

End WindowsBridge.

(** ** AndroidBridge *)

Record AndroidBridge := {
  android_base : BridgeStrategy;
  onAndroidMessage : bool   (* the global callback is installed *)
}.

Module AndroidBridge.

Definition new : AndroidBridge :=
  {| android_base := BridgeStrategy.new; onAndroidMessage := false |}.

Definition getPlatform : PlatformType := android.

Definition lift (f : Runtime * BridgeStrategy -> Runtime * BridgeStrategy)
    (st : Runtime * AndroidBridge) : Runtime * AndroidBridge :=
  let st1 := f (st.1, android_base st.2) in
  (st1.1, {| android_base := st1.2; onAndroidMessage := onAndroidMessage st.2 |}).

Definition lift_with {A}
    (f : Runtime * BridgeStrategy -> A * (Runtime * BridgeStrategy))
    (st : Runtime * AndroidBridge) : A * (Runtime * AndroidBridge) :=
  let r := f (st.1, android_base st.2) in
  (r.1, (r.2.1, {| android_base := r.2.2;
                   onAndroidMessage := onAndroidMessage st.2 |})).

Definition setupListeners (st : Runtime * AndroidBridge)
  : Runtime * AndroidBridge :=
  (st.1, {| android_base := android_base st.2; onAndroidMessage := true |}).

Definition connect (win : WindowWithBridge) (st : Runtime * AndroidBridge)
  : (Runtime * AndroidBridge) * Outcome unit :=
  let st1 := lift (BridgeStrategy.updateConnectionStatus connecting) st in
  let st2 := setupListeners st1 in
  if present (Android win) || present (asyncBridge win) then
    (lift BridgeStrategy.updateLastActivity
       (lift (BridgeStrategy.updateConnectionStatus connected) st2),
     Done ())
  else
    (lift (BridgeStrategy.updateConnectionStatus error) st2,
     Failed (mkError "No Android bridge API available")).

Definition disconnect (st : Runtime * AndroidBridge)
  : Runtime * AndroidBridge :=
  lift BridgeStrategy.cleanup
    (lift (BridgeStrategy.updateConnectionStatus disconnected) st).

Definition callAsyncBridge (win : WindowWithBridge) (method : string)
    (data : option StudentEvent) : Outcome JsVal :=
  match asyncBridge win ≫= async_member method with
  | None => Failed (mkError ("AsyncBridge method " +:+ method +:+ " not found"))
  | Some fn =>
      match fn (if String.eqb method "getStudentList" then None else data) with
      | Throws e => Failed e
      | Returns result =>
          match adopt result with
          | inl e => Failed e
          | inr v => Done v
          end
      end
  end.

Definition handleMessage (data : JsVal) (st : Runtime * AndroidBridge)
  : Runtime * AndroidBridge :=
  lift (handleMessage data) st.

Definition parseBooleanResponse (result : JsVal) : bool :=
  match result with
  | JBool b => b
  | JStr s =>
      let lower := toLowerCase s in
      String.eqb lower "true" || String.eqb lower "1"
      || String.eqb lower "success"
  | JNum z => negb (z =? 0)%Z
  | JNaN => true
  | _ =>
      if truthy result && typeof_object result
      then is_true (get "success" result) || is_true (get "result" result)
      else false
  end.

(** The round trip over [Android.receiveMessage]. *)
Definition roundtrip (receiveMessage : BridgeMessage -> HostReply)
    (event : string) (data : JsVal) (st : Runtime * AndroidBridge)
  : (Runtime * AndroidBridge) * Call :=
  let '(message, st1) :=
    lift_with (BridgeStrategy.createMessage event data) st in
  let '(promise, st2) :=
    lift_with (BridgeStrategy.createPendingRequest
                 (default "" (msgMessageId message)) (Some 5000%N)) st1 in
  let st3 := (Runtime.post message st2.1, st2.2) in
  match receiveMessage message with
  | Throws e => (st3, Completed (Failed e))
  | Returns _ => (st3, Awaiting promise)
  end.

Section JSON.

(** [JSON.parse]; [None] when it throws a [SyntaxError]. *)
Variable JSON_parse : string -> option JsVal.

(** [window.onAndroidMessage(messageStr)] *)
Definition onAndroidMessage_call (messageStr : string)
    (st : Runtime * AndroidBridge) : Runtime * AndroidBridge :=
  match JSON_parse messageStr with
  | Some data => handleMessage data st
  | None => st
  end.

Definition parseStudentListResponse (result : JsVal) : JsVal :=
  match result with
  | JStr text =>
      match JSON_parse text with
      | Some (JArr items) => JArr items
      | Some parsed =>
          match (if truthy parsed then get "data" parsed else JUndefined) with
          | JArr items => JArr items
          | _ => JArr []
          end
      | None => JArr []
      end
  | JArr items => JArr items
  | _ =>
      if truthy result && typeof_object result
         && truthy (get "data" result)
      then get "data" result
      else JArr []
  end.

Definition getStudentList (win : WindowWithBridge)
    (st : Runtime * AndroidBridge) : (Runtime * AndroidBridge) * Call :=
  let direct :=
    match Android win ≫= Android_getStudentList with
    | Some (Returns result) => Some result
    | _ => None
    end in
  match direct with
  | Some result =>
      (lift BridgeStrategy.updateLastActivity st,
       Completed (Done (parseStudentListResponse result)))
  | None =>
      let viaAsyncBridge :=
        if present (asyncBridge win ≫= async_getStudentList)
        then Some (callAsyncBridge win "getStudentList" None)
        else None in
      match viaAsyncBridge with
      | Some (Done result) =>
          (lift BridgeStrategy.updateLastActivity st,
           Completed (Done (parseStudentListResponse result)))
      | _ =>
          match Android win ≫= Android_receiveMessage with
          | Some receiveMessage =>
              roundtrip receiveMessage "getStudentList" (JObj []) st
          | None =>
              (st, Completed (Failed
                     (mkError "No method available to get student list")))
          end
      end
  end.

End JSON.

Definition studentPicked (win : WindowWithBridge) (event : StudentEvent)
    (st : Runtime * AndroidBridge) : (Runtime * AndroidBridge) * Call :=
  let direct :=
    match Android win ≫= Android_studentPicked with
    | Some fn =>
        match fn event with Returns result => Some result | Throws _ => None end
    | None => None
    end in
  match direct with
  | Some result =>
      (lift BridgeStrategy.updateLastActivity st,
       Completed (Done (JBool (parseBooleanResponse result))))
  | None =>
      let viaAsyncBridge :=
        if present (asyncBridge win ≫= async_studentPicked)
        then Some (callAsyncBridge win "studentPicked" (Some event))
        else None in
      match viaAsyncBridge with
      | Some (Done result) =>
          (lift BridgeStrategy.updateLastActivity st,
           Completed (Done (JBool (parseBooleanResponse result))))
      | _ =>
          match Android win ≫= Android_receiveMessage with
          | Some receiveMessage =>
              roundtrip receiveMessage "studentPicked" (event_js event) st
          | None =>
              (st, Completed (Failed
                     (mkError "No method available to notify student picked")))
          end
      end
  end.

Definition studentRemoved (win : WindowWithBridge) (event : StudentEvent)
    (st : Runtime * AndroidBridge) : (Runtime * AndroidBridge) * Call :=
  let direct :=
    match Android win ≫= Android_studentRemoved with
    | Some fn =>
        match fn event with Returns result => Some result | Throws _ => None end
    | None => None
    end in
  match direct with
  | Some result =>
      (lift BridgeStrategy.updateLastActivity st,
       Completed (Done (JBool (parseBooleanResponse result))))
  | None =>
      let viaAsyncBridge :=
        if present (asyncBridge win ≫= async_studentRemoved)
        then Some (callAsyncBridge win "studentRemoved" (Some event))
        else None in
      match viaAsyncBridge with
      | Some (Done result) =>
          (lift BridgeStrategy.updateLastActivity st,
           Completed (Done (JBool (parseBooleanResponse result))))
      | _ =>
          match Android win ≫= Android_receiveMessage with
          | Some receiveMessage =>
              roundtrip receiveMessage "studentRemoved" (event_js event) st
          | None =>
              (st, Completed (Failed
                     (mkError "No method available to notify student removed")))
          end
      end
  end.

(** The method resumes after [await promise]. *)
Definition resume (promise : nat) (st : Runtime * AndroidBridge)
  : (Runtime * AndroidBridge) * option (Outcome JsVal) :=
  let r := await_roundtrip promise (st.1, android_base st.2) in
  ((r.1.1, {| android_base := r.1.2;
              onAndroidMessage := onAndroidMessage st.2 |}),
   r.2).

Definition timer_fires (tid : nat) (st : Runtime * AndroidBridge)
  : Runtime * AndroidBridge :=
  lift (BridgeStrategy.timer_fires tid) st.

End AndroidBridge.

(** ** WebBridge, the simulation used when no host is present *)

Definition MOCK_STUDENTS : list Student :=
  [ {| studentId := "1"; name := "漩渦鳴人"; seatNumber := Some "1" |};
    {| studentId := "2"; name := "宇智波佐助"; seatNumber := Some "2" |};
    {| studentId := "3"; name := "春野櫻"; seatNumber := Some "3" |};
    {| studentId := "4"; name := "旗木卡卡西"; seatNumber := Some "4" |};
    {| studentId := "5"; name := "路飛"; seatNumber := Some "5" |};
    {| studentId := "6"; name := "索隆"; seatNumber := Some "6" |};
    {| studentId := "7"; name := "娜美"; seatNumber := Some "7" |};
    {| studentId := "8"; name := "香吉士"; seatNumber := Some "8" |};
    {| studentId := "9"; name := "蒙其·D·魯夫"; seatNumber := Some "9" |};
    {| studentId := "10"; name := "喬巴"; seatNumber := Some "10" |};
    {| studentId := "11"; name := "艾斯"; seatNumber := Some "11" |};
    {| studentId := "12"; name := "黑崎一護"; seatNumber := Some "12" |};
    {| studentId := "13"; name := "朽木露琪亞"; seatNumber := Some "13" |};
    {| studentId := "14"; name := "日番谷冬獅郎"; seatNumber := Some "14" |};
    {| studentId := "15"; name := "夜神月"; seatNumber := Some "15" |};
    {| studentId := "16"; name := "L"; seatNumber := Some "16" |};
    {| studentId := "17"; name := "愛德華·艾力克"; seatNumber := Some "17" |};
    {| studentId := "18"; name := "阿爾馮斯·艾力克"; seatNumber := Some "18" |};
    {| studentId := "19"; name := "桐人"; seatNumber := Some "19" |};
    {| studentId := "20"; name := "亞絲娜"; seatNumber := Some "20" |} ].

Record WebBridge := {
  web_base : BridgeStrategy;
  mockStudents : list Student;
  removedStudents : gset string;
  selectedStudents : gset string
}.

(** What [getMockStatus] reports. *)
Record MockStatus := {
  mock_totalStudents : nat;
  mock_activeStudents : nat;
  mock_removedStudents : nat;
  mock_selectedStudents : nat
}.

Module WebBridge.

Definition new : WebBridge :=
  {| web_base := BridgeStrategy.new;
     mockStudents := MOCK_STUDENTS;
     removedStudents := ∅;
     selectedStudents := ∅ |}.

Definition getPlatform : PlatformType := web.

Definition lift (f : Runtime * BridgeStrategy -> Runtime * BridgeStrategy)
    (st : Runtime * WebBridge) : Runtime * WebBridge :=
  let st1 := f (st.1, web_base st.2) in
  (st1.1, {| web_base := st1.2;
             mockStudents := mockStudents st.2;
             removedStudents := removedStudents st.2;
             selectedStudents := selectedStudents st.2 |}).

(** [await this.simulateDelay(ms)]: the method goes on once the clock has
    passed [ms] more milliseconds.  The timer behind the delay has fired
    by then; it takes no slot in the table of timers here, and no other
    call runs between the two halves of the method. *)
Definition simulateDelay (ms : N) (st : Runtime * WebBridge)
  : Runtime * WebBridge :=
  (Runtime.advance (now st.1 + ms)%N st.1, st.2).

(** [setTimeout(() => this.eventEmitter.emit(event, data), 0)] *)
Definition emitLater (event : string) (data : JsVal)
    (st : Runtime * WebBridge) : Runtime * WebBridge :=
  ((Runtime.setTimeout (EmitLater event data) 0%N st.1).2, st.2).

(** [connect] up to its [await]. *)
Definition connect_begin (st : Runtime * WebBridge) : Runtime * WebBridge :=
  lift (BridgeStrategy.updateConnectionStatus connecting) st.

(** [connect] from its [await] on.  No statement of the [try] body raises
    an exception in this model of the runtime; [fault] is what the [catch]
    clause receives should one be raised there, [None] in every ordinary
    run. *)
Definition connect_finish (fault : option Error) (st : Runtime * WebBridge)
  : (Runtime * WebBridge) * Outcome unit :=
  let st1 := simulateDelay 500%N st in
  match fault with
  | None =>
      (lift BridgeStrategy.updateLastActivity
         (lift (BridgeStrategy.updateConnectionStatus connected) st1),
       Done ())
  | Some e =>
      (lift (BridgeStrategy.updateConnectionStatus error) st1, Failed e)
  end.

Definition connect (st : Runtime * WebBridge)
  : (Runtime * WebBridge) * Outcome unit :=
  connect_finish None (connect_begin st).

Definition disconnect (st : Runtime * WebBridge) : Runtime * WebBridge :=
  let st1 :=
    lift BridgeStrategy.cleanup
      (lift (BridgeStrategy.updateConnectionStatus disconnected) st) in
  (st1.1, {| web_base := web_base st1.2;
             mockStudents := MOCK_STUDENTS;
             removedStudents := ∅;
             selectedStudents := ∅ |}).

Definition active (w : WebBridge) : list Student :=
  filter (λ s, studentId s ∉ removedStudents w) (mockStudents w).

Definition find_student (id : string) (w : WebBridge) : option Student :=
  List.find (λ s, String.eqb (studentId s) id) (mockStudents w).

Definition getStudentList (st : Runtime * WebBridge)
  : (Runtime * WebBridge) * list Student :=
  let st1 := simulateDelay 300%N st in
  let activeStudents := active st1.2 in
  let st2 := lift BridgeStrategy.updateLastActivity st1 in
  (emitLater "getStudentListResponse"
     (JObj [("data", JArr (student_js <$> activeStudents))]) st2,
   activeStudents).

Definition studentPicked (event : StudentEvent) (st : Runtime * WebBridge)
  : (Runtime * WebBridge) * bool :=
  let st1 := simulateDelay 200%N st in
  let id := eventStudentId event in
  match find_student id st1.2 with
  | None => (st1, false)
  | Some student =>
      if bool_decide (id ∈ removedStudents st1.2) then (st1, false)
      else
        let st2 :=
          (st1.1, {| web_base := web_base st1.2;
                     mockStudents := mockStudents st1.2;
                     removedStudents := removedStudents st1.2;
                     selectedStudents := {[id]} ∪ selectedStudents st1.2 |}) in
        let st3 := lift BridgeStrategy.updateLastActivity st2 in
        (emitLater "studentPickedResponse"
           (JObj [("success", JBool true); ("studentId", JStr id);
                  ("student", student_js student)]) st3,
         true)
  end.

Definition min_students_error : JsVal :=
  JObj [("message", JStr "無法移除學生：至少需要保留 2 名學生");
        ("code", JStr "MIN_STUDENTS_REQUIRED")].

Definition studentRemoved (event : StudentEvent) (st : Runtime * WebBridge)
  : (Runtime * WebBridge) * bool :=
  let st1 := simulateDelay 200%N st in
  let id := eventStudentId event in
  match find_student id st1.2 with
  | None => (st1, false)
  | Some student =>
      if bool_decide (id ∈ removedStudents st1.2) then (st1, false)
      else
        let activeCount := length (active st1.2) in
        if (activeCount <=? 2)%nat then
          (emitLater "error" min_students_error st1, false)
        else
          let st2 :=
            (st1.1, {| web_base := web_base st1.2;
                       mockStudents := mockStudents st1.2;
                       removedStudents := {[id]} ∪ removedStudents st1.2;
                       selectedStudents := selectedStudents st1.2 ∖ {[id]} |}) in
          let st3 := lift BridgeStrategy.updateLastActivity st2 in
          (emitLater "studentRemovedResponse"
             (JObj [("success", JBool true); ("studentId", JStr id);
                    ("student", student_js student)]) st3,
           true)
  end.

Definition addMockStudent (student : Student) (st : Runtime * WebBridge)
  : Runtime * WebBridge :=
  match find_student (studentId student) st.2 with
  | Some _ => st
  | None =>
      (getStudentList
         (st.1, {| web_base := web_base st.2;
                   mockStudents := mockStudents st.2 ++ [student];
                   removedStudents := removedStudents st.2;
                   selectedStudents := selectedStudents st.2 |})).1
  end.

Definition timer_fires (tid : nat) (st : Runtime * WebBridge)
  : Runtime * WebBridge :=
  lift (BridgeStrategy.timer_fires tid) st.

Definition getMockStatus (w : WebBridge) : MockStatus :=
  {| mock_totalStudents := length (mockStudents w);
     mock_activeStudents := length (active w);
     mock_removedStudents := size (removedStudents w);
     mock_selectedStudents := size (selectedStudents w) |}.

(** [resetMockData]; the [getStudentList] call it ends with is run to its
    end, as in [addMockStudent]. *)
Definition resetMockData (st : Runtime * WebBridge) : Runtime * WebBridge :=
  (getStudentList
     (st.1, {| web_base := web_base st.2;
               mockStudents := MOCK_STUDENTS;
               removedStudents := ∅;
               selectedStudents := ∅ |})).1.

End WebBridge.

(** ** BridgeService, the coordinator *)

(** A strategy object, of one of the three concrete classes. *)
Inductive Strategy :=
| OfWindows (w : WindowsBridge)
| OfAndroid (a : AndroidBridge)
| OfWeb (w : WebBridge).

Definition strategy_base (s : Strategy) : BridgeStrategy :=
  match s with
  | OfWindows w => windows_base w
  | OfAndroid a => android_base a
  | OfWeb w => web_base w
  end.

Definition platform_name (p : PlatformType) : string :=
  match p with
  | windows => "windows"
  | android => "android"
  | electron => "electron"
  | web => "web"
  end.

(** The service and what it refers to.  Strategy objects are kept in
    [instances] under the reference they were constructed with; an object
    the service no longer refers to stays there, as it stays reachable from
    the listeners and timers it registered. *)
Record BridgeService := {
  runtime : Runtime;
  instances : list Strategy;
  strategy : option nat;
  service_platform : PlatformType;
  connectionRetryCount : nat;
  maxRetries : nat;
  retryTimeout : option nat
}.

(** A [connect] call suspended at its [await]: the strategy object whose
    [connect()] it awaits, and that promise's outcome when it has settled
    already. *)
Record InFlight := {
  awaited : nat;
  settled : option (Outcome unit)
}.

(** Where a [connect] call stands once the awaited promise has settled. *)
Inductive ConnectStep :=
| Finished (r : Outcome unit)
| AwaitFallback (a : InFlight).

(** The three remote calls of the service. *)
Inductive Operation :=
| OpGetStudentList
| OpStudentPicked (event : StudentEvent)
| OpStudentRemoved (event : StudentEvent).

(** Where a remote call of the service stands: settled, with the
    [connect()] call its error handling started, if any; or suspended at
    the [await] of a round trip of the strategy object [ref]. *)
Inductive RpcStep :=
| RpcSettled (r : Outcome JsVal) (reconnect : option InFlight)
| RpcAwaiting (ref : nat) (promise : nat).

Module BridgeService.

Definition new : BridgeService :=
  {| runtime := Runtime.start;
     instances := [];
     strategy := None;
     service_platform := web;
     connectionRetryCount := 0;
     maxRetries := 3;
     retryTimeout := None |}.

Definition createStrategy (p : PlatformType) : Strategy :=
  match p with
  | windows => OfWindows WindowsBridge.new
  | android => OfAndroid AndroidBridge.new
  | _ => OfWeb WebBridge.new
  end.

Definition set_runtime (rt : Runtime) (c : BridgeService) : BridgeService :=
  {| runtime := rt;
     instances := instances c;
     strategy := strategy c;
     service_platform := service_platform c;
     connectionRetryCount := connectionRetryCount c;
     maxRetries := maxRetries c;
     retryTimeout := retryTimeout c |}.

(** [this.strategy = s] for a newly constructed [s]. *)
Definition assign_strategy (s : Strategy) (c : BridgeService)
  : nat * BridgeService :=
  (length (instances c),
   {| runtime := runtime c;
      instances := instances c ++ [s];
      strategy := Some (length (instances c));
      service_platform := service_platform c;
      connectionRetryCount := connectionRetryCount c;
      maxRetries := maxRetries c;
      retryTimeout := retryTimeout c |}).

(** Run a method of the strategy object [ref]. *)
Definition on_instance {A} (ref : nat)
    (f : Runtime * Strategy -> (Runtime * Strategy) * A) (c : BridgeService)
  : option (BridgeService * A) :=
  match instances c !! ref with
  | Some s =>
      let r := f (runtime c, s) in
      Some ({| runtime := r.1.1;
               instances := <[ref := r.1.2]> (instances c);
               strategy := strategy c;
               service_platform := service_platform c;
               connectionRetryCount := connectionRetryCount c;
               maxRetries := maxRetries c;
               retryTimeout := retryTimeout c |}, r.2)
  | None => None
  end.

(** [strategy.connect()] as far as it runs within the call: to its end
    for the native strategies, to the delay for the simulation. *)
Definition strategy_connect_begin (win : WindowWithBridge)
    (st : Runtime * Strategy) : (Runtime * Strategy) * option (Outcome unit) :=
  match st.2 with
  | OfWindows w =>
      let r := WindowsBridge.connect win (st.1, w) in
      ((r.1.1, OfWindows r.1.2), Some r.2)
  | OfAndroid a =>
      let r := AndroidBridge.connect win (st.1, a) in
      ((r.1.1, OfAndroid r.1.2), Some r.2)
  | OfWeb w =>
      let st1 := WebBridge.connect_begin (st.1, w) in
      ((st1.1, OfWeb st1.2), None)
  end.

(** The awaited [strategy.connect()] settles. *)
Definition strategy_connect_finish (fault : option Error) (a : InFlight)
    (st : Runtime * Strategy) : (Runtime * Strategy) * Outcome unit :=
  match settled a, st.2 with
  | Some r, _ => (st, r)
  | None, OfWeb w =>
      let r := WebBridge.connect_finish fault (st.1, w) in
      ((r.1.1, OfWeb r.1.2), r.2)
  | None, _ => (st, Done ())
  end.

Definition strategy_disconnect (st : Runtime * Strategy)
  : (Runtime * Strategy) * unit :=
  match st.2 with
  | OfWindows w =>
      let st1 := WindowsBridge.disconnect (st.1, w) in
      ((st1.1, OfWindows st1.2), ())
  | OfAndroid a =>
      let st1 := AndroidBridge.disconnect (st.1, a) in
      ((st1.1, OfAndroid st1.2), ())
  | OfWeb w =>
      let st1 := WebBridge.disconnect (st.1, w) in
      ((st1.1, OfWeb st1.2), ())
  end.

(** The payload [{ platform, timestamp }]; the timestamp is kept as the
    instant it renders. *)
Definition stamp (c : BridgeService) : JsVal :=
  JObj [("platform", JStr (platform_name (service_platform c)));
        ("timestamp", JNum (Z.of_N (now (runtime c))))].

(** [connect()] from its entry to [await this.strategy.connect()]. *)
Definition connect_begin (win : WindowWithBridge) (c : BridgeService)
  : BridgeService * InFlight :=
  let detectionResult := PlatformDetector.detect win in
  let c1 :=
    {| runtime := runtime c;
       instances := instances c;
       strategy := strategy c;
       service_platform := platform detectionResult;
       connectionRetryCount := connectionRetryCount c;
       maxRetries := maxRetries c;
       retryTimeout := retryTimeout c |} in
  let '(ref, c2) := assign_strategy (createStrategy (platform detectionResult)) c1 in
  match on_instance ref (strategy_connect_begin win) c2 with
  | Some (c3, r) => (c3, {| awaited := ref; settled := r |})
  | None => (c2, {| awaited := ref; settled := None |})
  end.

(** The [catch] clause's fallback: a WebBridge is constructed and its
    [connect()] awaited. *)
Definition fallback_begin (c : BridgeService) : BridgeService * InFlight :=
  let c1 :=
    {| runtime := runtime c;
       instances := instances c;
       strategy := strategy c;
       service_platform := web;
       connectionRetryCount := connectionRetryCount c;
       maxRetries := maxRetries c;
       retryTimeout := retryTimeout c |} in
  let '(ref, c2) := assign_strategy (OfWeb WebBridge.new) c1 in
  match on_instance ref
          (λ st, match st.2 with
                 | OfWeb w =>
                     let st1 := WebBridge.connect_begin (st.1, w) in
                     ((st1.1, OfWeb st1.2), ())
                 | _ => (st, ())
                 end) c2 with
  | Some (c3, _) => (c3, {| awaited := ref; settled := None |})
  | None => (c2, {| awaited := ref; settled := None |})
  end.

(** [connect()] after [await this.strategy.connect()] has settled
    with [r]. *)
Definition connect_settled (r : Outcome unit) (c : BridgeService)
  : BridgeService * ConnectStep :=
  match r with
  | Done _ =>
      let c1 :=
        {| runtime := runtime c;
           instances := instances c;
           strategy := strategy c;
           service_platform := service_platform c;
           connectionRetryCount := 0;
           maxRetries := maxRetries c;
           retryTimeout := retryTimeout c |} in
      (set_runtime (Runtime.emit "connected" (stamp c1) (runtime c1)) c1,
       Finished (Done ()))
  | Failed _ =>
      if (connectionRetryCount c <? maxRetries c)%nat then
        let count := S (connectionRetryCount c) in
        let '(tid, rt1) :=
          Runtime.setTimeout RetryConnect (2000 * N.of_nat count)%N (runtime c) in
        ({| runtime := rt1;
            instances := instances c;
            strategy := strategy c;
            service_platform := service_platform c;
            connectionRetryCount := count;
            maxRetries := maxRetries c;
            retryTimeout := Some tid |},
         Finished (Done ()))
      else
        let '(c1, a) := fallback_begin c in (c1, AwaitFallback a)
  end.

(** The rest of the [catch] clause, after the fallback's [connect()] has
    settled with [r]. *)
Definition fallback_settled (r : Outcome unit) (c : BridgeService)
  : BridgeService * Outcome unit :=
  match r with
  | Done _ => (c, Done ())
  | Failed fallbackError => (c, Failed fallbackError)
  end.

(** The awaited promise of [a] settles and the suspended call goes on. *)
Definition await_strategy (fault : option Error) (a : InFlight)
    (c : BridgeService) : BridgeService * Outcome unit :=
  match on_instance (awaited a) (strategy_connect_finish fault a) c with
  | Some r => r
  | None => (c, default (Done ()) (settled a))
  end.

Definition connect_resume (fault : option Error) (a : InFlight)
    (c : BridgeService) : BridgeService * Outcome unit :=
  let '(c1, r) := await_strategy fault a c in
  match connect_settled r c1 with
  | (c2, Finished out) => (c2, out)
  | (c2, AwaitFallback b) =>
      let '(c3, r') := await_strategy fault b c2 in
      fallback_settled r' c3
  end.

(** A [connect()] call that nothing interleaves with. *)
Definition connect (win : WindowWithBridge) (fault : option Error)
    (c : BridgeService) : BridgeService * Outcome unit :=
  let '(c1, a) := connect_begin win c in
  connect_resume fault a c1.

Definition disconnect (c : BridgeService) : BridgeService :=
  let c1 :=
    match retryTimeout c with
    | Some (S _ as tid) =>
        {| runtime := Runtime.clearTimeout tid (runtime c);
           instances := instances c;
           strategy := strategy c;
           service_platform := service_platform c;
           connectionRetryCount := connectionRetryCount c;
           maxRetries := maxRetries c;
           retryTimeout := None |}
    | _ => c
    end in
  let c2 :=
    match strategy c1 with
    | Some ref =>
        match on_instance ref strategy_disconnect c1 with
        | Some (c', _) => c'
        | None => c1
        end
    | None => c1
    end in
  let c3 :=
    {| runtime := runtime c2;
       instances := instances c2;
       strategy := None;
       service_platform := service_platform c2;
       connectionRetryCount := connectionRetryCount c2;
       maxRetries := maxRetries c2;
       retryTimeout := retryTimeout c2 |} in
  set_runtime (Runtime.emit "disconnected" (stamp c3) (runtime c3)) c3.

(** The strategy object [this.strategy] refers to. *)
Definition current (c : BridgeService) : option Strategy :=
  strategy c ≫= λ ref, instances c !! ref.

Definition isConnected (c : BridgeService) : bool :=
  match current c with
  | Some s =>
      match connectionStatus (strategy_base s) with
      | connected => true
      | _ => false
      end
  | None => false
  end.

(** The strategy objects that were constructed and not torn down since:
    their status is not [disconnected]. *)
Definition live (c : BridgeService) : list Strategy :=
  filter (λ s, connectionStatus (strategy_base s) ≠ disconnected)
    (instances c).

Definition not_connected_error : Error :=
  mkError "Bridge not connected. Call connect() first.".

(** [ensureConnected()]: the error it throws, if any. *)
Definition ensureConnected (c : BridgeService) : option Error :=
  match current c with
  | None => Some not_connected_error
  | Some s =>
      match connectionStatus (strategy_base s) with
      | connected => None
      | status =>
          Some (mkError ("Bridge not ready. Current status: "
                         +:+ status_name status))
      end
  end.

(** The name [handleError] is given for a call. *)
Definition operation_name (op : Operation) : string :=
  match op with
  | OpGetStudentList => "getStudentList"
  | OpStudentPicked _ => "studentPicked"
  | OpStudentRemoved _ => "studentRemoved"
  end.

(** The event a call publishes once the strategy has answered, with its
    payload. *)
Definition completion (op : Operation) (result : JsVal) : string * JsVal :=
  match op with
  | OpGetStudentList => ("studentsLoaded", result)
  | OpStudentPicked event =>
      ("studentPickedComplete",
       JObj [("studentId", JStr (eventStudentId event)); ("success", result)])
  | OpStudentRemoved event =>
      ("studentRemovedComplete",
       JObj [("studentId", JStr (eventStudentId event)); ("success", result)])
  end.

(** [handleError(operation, error)]; the [connect()] it calls without
    awaiting runs to its first [await]. *)
Definition handleError (win : WindowWithBridge) (operation : string)
    (e : Error) (c : BridgeService) : BridgeService * option InFlight :=
  let errorInfo :=
    JObj [("operation", JStr operation);
          ("message",
           JStr (if String.eqb (message e) "" then "Unknown error"
                 else message e));
          ("timestamp", JNum (Z.of_N (now (runtime c))));
          ("platform", JStr (platform_name (service_platform c)))] in
  let c1 := set_runtime (Runtime.emit "error" errorInfo (runtime c)) c in
  if negb (String.eqb (message e) "")
     && includes "not connected" (message e)
  then let '(c2, a) := connect_begin win c1 in (c2, Some a)
  else (c1, None).

(** A remote call from the point where the strategy's promise has settled
    with [r]. *)
Definition rpc_settled (win : WindowWithBridge) (op : Operation)
    (r : Outcome JsVal) (c : BridgeService) : BridgeService * RpcStep :=
  match r with
  | Done v =>
      let ev := completion op v in
      (set_runtime (Runtime.emit ev.1 ev.2 (runtime c)) c,
       RpcSettled (Done v) None)
  | Failed e =>
      let '(c1, a) := handleError win (operation_name op) e c in
      (c1, RpcSettled (Failed e) a)
  end.

Section JSON.

(** [JSON.parse]; [None] when it throws a [SyntaxError]. *)
Variable JSON_parse : string -> option JsVal.

(** The strategy's method for a remote call, as far as it runs within the
    call; the simulation's methods are run to their end. *)
Definition strategy_call (win : WindowWithBridge) (op : Operation)
    (st : Runtime * Strategy) : (Runtime * Strategy) * Call :=
  match st.2 with
  | OfWindows w =>
      let r :=
        match op with
        | OpGetStudentList =>
            WindowsBridge.getStudentList JSON_parse win (st.1, w)
        | OpStudentPicked event => WindowsBridge.studentPicked win event (st.1, w)
        | OpStudentRemoved event =>
            WindowsBridge.studentRemoved win event (st.1, w)
        end in
      ((r.1.1, OfWindows r.1.2), r.2)
  | OfAndroid a =>
      let r :=
        match op with
        | OpGetStudentList =>
            AndroidBridge.getStudentList JSON_parse win (st.1, a)
        | OpStudentPicked event => AndroidBridge.studentPicked win event (st.1, a)
        | OpStudentRemoved event =>
            AndroidBridge.studentRemoved win event (st.1, a)
        end in
      ((r.1.1, OfAndroid r.1.2), r.2)
  | OfWeb w =>
      match op with
      | OpGetStudentList =>
          let r := WebBridge.getStudentList (st.1, w) in
          ((r.1.1, OfWeb r.1.2), Completed (Done (JArr (student_js <$> r.2))))
      | OpStudentPicked event =>
          let r := WebBridge.studentPicked event (st.1, w) in
          ((r.1.1, OfWeb r.1.2), Completed (Done (JBool r.2)))
      | OpStudentRemoved event =>
          let r := WebBridge.studentRemoved event (st.1, w) in
          ((r.1.1, OfWeb r.1.2), Completed (Done (JBool r.2)))
      end
  end.

(** [getStudentList()], [studentPicked(event)] and [studentRemoved(event)]
    of the service, from the entry to the [await] of a round trip or to the
    end. *)
Definition rpc_begin (win : WindowWithBridge) (op : Operation)
    (c : BridgeService) : BridgeService * RpcStep :=
  match ensureConnected c, strategy c with
  | None, Some ref =>
      match on_instance ref (strategy_call win op) c with
      | Some (c1, Completed r) => rpc_settled win op r c1
      | Some (c1, Awaiting promise) => (c1, RpcAwaiting ref promise)
      | None => (c, RpcSettled (Failed not_connected_error) None)
      end
  | Some e, _ => (c, RpcSettled (Failed e) None)
  | None, None => (c, RpcSettled (Failed not_connected_error) None)
  end.

End JSON.

(** The strategy's method resumes after the [await] of its round trip. *)
Definition strategy_resume (promise : nat) (st : Runtime * Strategy)
  : (Runtime * Strategy) * option (Outcome JsVal) :=
  match st.2 with
  | OfWindows w =>
      let r := WindowsBridge.resume promise (st.1, w) in
      ((r.1.1, OfWindows r.1.2), r.2)
  | OfAndroid a =>
      let r := AndroidBridge.resume promise (st.1, a) in
      ((r.1.1, OfAndroid r.1.2), r.2)
  | OfWeb _ => (st, None)
  end.

(** The suspended remote call goes on once the awaited promise has
    settled; [None] while it has not. *)
Definition rpc_resume (win : WindowWithBridge) (op : Operation)
    (ref promise : nat) (c : BridgeService)
  : option (BridgeService * RpcStep) :=
  match on_instance ref (strategy_resume promise) c with
  | Some (c1, Some r) => Some (rpc_settled win op r c1)
  | _ => None
  end.

(** [getMockService()] *)
Definition getMockService (c : BridgeService) : option WebBridge :=
  match service_platform c, current c with
  | web, Some (OfWeb w) => Some w
  | _, _ => None
  end.

End BridgeService.


(** ** The detection cascade as the specification words it *)

(** The six probes of the specification (section 4.2). *)
Record Probes := {
  desktopReceive : bool;   (* a desktop-specific native receive-function *)
  mobileObject : bool;     (* a mobile object exposing a known RPC method *)
  asyncObject : bool;      (* the shared generic native async-call object *)
  webviewChannel : bool;   (* a desktop-webview channel *)
  embeddedApi : bool;      (* an alternate embedded-app API *)
  mobileAgent : bool       (* the user agent matches a mobile signature *)
}.

Definition probes (win : WindowWithBridge) : Probes :=
  {| desktopReceive := PlatformDetector.hasWindowsReceiveMessage win;
     mobileObject := PlatformDetector.hasAndroidObject win;
     asyncObject := PlatformDetector.hasAsyncBridge win;
     webviewChannel := PlatformDetector.hasChromeWebView win;
     embeddedApi := PlatformDetector.hasElectronAPI win;
     mobileAgent := PlatformDetector.isAndroidUserAgent win |}.

(** What a rule yields: kind, confidence, and the signal where the
    specification names it. *)
Record Verdict := {
  kind : PlatformType;
  level : Confidence;
  signal : option string
}.

(** Rules 1 to 7 of section 4.2, in the order written there. *)
Definition cascade_rules : list ((Probes -> bool) * Verdict) :=
  [ (desktopReceive,
     {| kind := windows; level := high; signal := None |});
    (mobileObject,
     {| kind := android; level := high; signal := None |});
    (λ p, asyncObject p && mobileAgent p,
     {| kind := android; level := high; signal := None |});
    (λ p, asyncObject p && negb (webviewChannel p),
     {| kind := android; level := medium; signal := None |});
    (λ p, asyncObject p && webviewChannel p,
     {| kind := windows; level := high; signal := None |});
    (webviewChannel,
     {| kind := windows; level := medium; signal := None |});
    (embeddedApi,
     {| kind := electron; level := high; signal := None |}) ].

(** The first matching rule wins; rule 8 otherwise. *)
Definition cascade (p : Probes) : Verdict :=
  match List.find (λ rule, rule.1 p) cascade_rules with
  | Some rule => rule.2
  | None => {| kind := web; level := low; signal := Some "fallback" |}
  end.

Definition agrees (r : PlatformDetectionResult) (v : Verdict) : Prop :=
  platform r = kind v
  ∧ confidence r = level v
  ∧ match signal v with
    | Some s => detectionMethod r = s
    | None => True
    end.

(** A host that answers the probes as [p] says. *)
Definition quiet_reply : HostReply := Returns JUndefined.

Definition host_of (p : Probes) : WindowWithBridge :=
  {| Windows :=
       if desktopReceive p
       then Some {| Windows_receiveMessage := λ _, quiet_reply |}
       else None;
     chrome :=
       if webviewChannel p
       then Some {| webview :=
                      Some {| webview_postMessage := λ _, quiet_reply;
                              webview_addEventListener := None |} |}
       else None;
     Android :=
       if mobileObject p
       then Some {| Android_receiveMessage := Some (λ _, quiet_reply);
                    Android_getStudentList := None;
                    Android_studentPicked := None;
                    Android_studentRemoved := None |}
       else None;
     asyncBridge :=
       if asyncObject p
       then Some {| async_getStudentList := Some (Returns (JArr []));
                    async_studentPicked := None;
                    async_studentRemoved := None |}
       else None;
     electronAPI :=
       if embeddedApi p
       then Some {| electron_send := true; electron_on := true |}
       else None;
     userAgent :=
       if mobileAgent p
       then "Mozilla/5.0 (Linux; Android 13) AppleWebKit/537.36"
       else "Mozilla/5.0 (X11; Linux x86_64) AppleWebKit/537.36" |}.

(** The plain browser: no host object at all. *)
Definition browser : WindowWithBridge :=
  host_of {| desktopReceive := false; mobileObject := false;
             asyncObject := false; webviewChannel := false;
             embeddedApi := false; mobileAgent := false |}.

(** ** Boolean normalisation as the specification words it *)

(** Section 4.3: a boolean is itself; of the strings, "true" (in any case)
    and "1" are true, "false" and every other false; of the numbers, 1 is
    true, 0 and every other false; an object with a truthy [success] or
    [result] is true; every other shape is false. *)
Definition normalizeBoolean_spec (v : JsVal) : bool :=
  match v with
  | JBool b => b
  | JStr s => String.eqb (toLowerCase s) "true" || String.eqb s "1"
  | JNum z => (z =? 1)%Z
  | JObj fields => truthy (assoc "success" fields) || truthy (assoc "result" fields)
  | _ => false
  end.

(** Where AndroidBridge answers otherwise: the word "success" (in any
    case), a number other than 0 and 1, and an object whose [success] or
    [result] is truthy while neither is the boolean [true]. *)
Definition android_departs (v : JsVal) : bool :=
  match v with
  | JStr s => String.eqb (toLowerCase s) "success"
  | JNum z => negb (z =? 0)%Z && negb (z =? 1)%Z
  | JNaN => true
  | JObj fields =>
      (truthy (assoc "success" fields) || truthy (assoc "result" fields))
      && negb (is_true (assoc "success" fields) || is_true (assoc "result" fields))
  | _ => false
  end.

(** Where WindowsBridge answers otherwise: the number 1, and an object
    whose [result] is truthy while its [success] is not. *)
Definition windows_departs (v : JsVal) : bool :=
  match v with
  | JNum z => (z =? 1)%Z
  | JObj fields =>
      negb (truthy (assoc "success" fields)) && truthy (assoc "result" fields)
  | _ => false
  end.

(** What WindowsBridge returns instead of [true] for an object with a
    truthy [success]: the value of the field. *)
Definition windows_result (v : JsVal) : JsVal :=
  match v with
  | JObj fields =>
      if truthy (assoc "success" fields) then assoc "success" fields
      else JBool false
  | _ => JBool (normalizeBoolean_spec v && negb (windows_departs v))
  end.

(** ** Sample hosts and states *)

Definition two_students : list Student := take 2 MOCK_STUDENTS.

(** A mobile host that keeps the roster itself, hands it out, and
    acknowledges every removal it is told of. *)
Definition acknowledging_host (roster : list Student) : WindowWithBridge :=
  {| Windows := None;
     chrome := None;
     Android :=
       Some {| Android_receiveMessage := None;
               Android_getStudentList := None;
               Android_studentPicked := None;
               Android_studentRemoved := Some (λ _, Returns (JBool true)) |};
     asyncBridge :=
       Some {| async_getStudentList :=
                 Some (Returns (JArr (student_js <$> roster)));
               async_studentPicked := None;
               async_studentRemoved := None |};
     electronAPI := None;
     userAgent := "Mozilla/5.0 (Linux; Android 13) AppleWebKit/537.36" |}.

(** The simulation after the students named have been removed, one call
    after the other. *)
Definition web_after_removing (ids : list string) : Runtime * WebBridge :=
  foldl (λ st id, (WebBridge.studentRemoved {| eventStudentId := id |} st).1)
    (WebBridge.connect (Runtime.start, WebBridge.new)).1 ids.

Definition seed_ids_from (k : nat) : list string :=
  studentId <$> drop k MOCK_STUDENTS.

(** A desktop shell with the receive-function only, which accepts every
    message. *)
Definition desktop_host : WindowWithBridge :=
  host_of {| desktopReceive := true; mobileObject := false;
             asyncObject := false; webviewChannel := false;
             embeddedApi := false; mobileAgent := false |}.

(** A mobile shell with [Android.receiveMessage] only. *)
Definition mobile_host : WindowWithBridge :=
  host_of {| desktopReceive := false; mobileObject := true;
             asyncObject := false; webviewChannel := false;
             embeddedApi := false; mobileAgent := true |}.

(** The message a host sends back for the request [event] with the
    correlation id [messageId]. *)
Definition response_to (event messageId : string) (data : JsVal) : JsVal :=
  JObj [("event", JStr (event +:+ "Response"));
        ("data", data);
        ("messageId", JStr messageId)].

Arguments response_to : simpl never.

(** The id a posted message carries. *)
Definition wire_id (rt : Runtime) : option string :=
  last (posted rt) ≫= msgMessageId.

(** The events published between two moments of a runtime. *)
Definition published_since (before after : Runtime) : list (string * JsVal) :=
  drop (length (emitted before)) (emitted after).

(** A desktop shell whose receive-function throws. *)
Definition broken_host : WindowWithBridge :=
  {| Windows :=
       Some {| Windows_receiveMessage :=
                 λ _, Throws (mkError "host is shutting down") |};
     chrome := None;
     Android := None;
     asyncBridge := None;
     electronAPI := None;
     userAgent := "Mozilla/5.0 (Windows NT 10.0; Win64; x64)" |}.

(** The service after [n] failed attempts on a host. *)
Definition service_after_failures (win : WindowWithBridge) (n : nat)
  : BridgeService :=
  Nat.iter n (λ c, (BridgeService.connect win None c).1) BridgeService.new.

(** ** What happens to a strategy while a request is pending *)

Inductive Happening :=
| Receives (data : JsVal)                            (* a message comes in *)
| Expires (tid : nat)                                (* a timer runs out *)
| Requests (messageId : string) (timeout : option N) (* a round trip starts *)
| Elapses (t : N).                                   (* the clock reaches [t] *)

Definition happens (h : Happening) (st : Runtime * BridgeStrategy)
  : Runtime * BridgeStrategy :=
  match h with
  | Receives data => handleMessage data st
  | Expires tid => BridgeStrategy.timer_fires tid st
  | Requests messageId timeout =>
      (BridgeStrategy.createPendingRequest messageId timeout st).2
  | Elapses t => (Runtime.advance t st.1, st.2)
  end.

Definition history (hs : list Happening) (st : Runtime * BridgeStrategy)
  : Runtime * BridgeStrategy :=
  foldl (λ st h, happens h st) st hs.

(** The message is a response that carries the correlation id [id]. *)
Definition answers (id : string) (data : JsVal) : bool :=
  match get "event" data, get "messageId" data with
  | JStr event, JStr messageId =>
      endsWith event "Response" && String.eqb messageId id
  | _, _ => false
  end.

(** The happening is neither a response for [id] nor the expiry of the
    timer [tid]. *)
Definition leaves_alone (id : string) (tid : nat) (h : Happening) : bool :=
  match h with
  | Receives data => negb (answers id data)
  | Expires t => negb (t =? tid)%nat
  | _ => true
  end.

(** The strategy refers only to promises and timers that exist. *)
Definition in_bounds (st : Runtime * BridgeStrategy) : Prop :=
  (∀ id pd, pendingRequests st.2 !! id = Some pd →
     (pending_promise pd < length (promises st.1))%nat
     ∧ (pending_timeout pd < length (timers st.1))%nat)
  ∧ (∀ tid t id p ms, timers st.1 !! tid = Some (Some t) →
       action t = RequestTimeout id p ms →
       (p < length (promises st.1))%nat).

(** Every pending request waits on a promise that is not settled. *)
Definition pending_unsettled (rt : Runtime) (s : BridgeStrategy) : Prop :=
  ∀ id pd, pendingRequests s !! id = Some pd →
    promises rt !! pending_promise pd = Some Unsettled.

(** A connected mobile strategy with three round trips under way. *)
Definition three_pending : Runtime * AndroidBridge :=
  let st0 := (AndroidBridge.connect mobile_host
                (Runtime.start, AndroidBridge.new)).1 in
  let st1 := (AndroidBridge.getStudentList (λ _, None) mobile_host st0).1 in
  let st2 := (AndroidBridge.studentPicked mobile_host
                {| eventStudentId := "4" |} st1).1 in
  (AndroidBridge.studentRemoved mobile_host {| eventStudentId := "9" |} st2).1.

(** A round trip under way: its promise is not settled, its timer is set,
    no other pending request shares the promise or the timer, and no other
    timer rejects the promise. *)
Definition under_way (id : string) (p tid : nat) (T : Timer)
    (st : Runtime * BridgeStrategy) : Prop :=
  promises st.1 !! p = Some Unsettled
  ∧ timers st.1 !! tid = Some (Some T)
  ∧ (∀ id' pd, pendingRequests st.2 !! id' = Some pd →
       pending_promise pd = p ∨ pending_timeout pd = tid → id' = id)
  ∧ (∀ tid' t' id0 p0 ms0, timers st.1 !! tid' = Some (Some t') →
       action t' = RequestTimeout id0 p0 ms0 → tid' ≠ tid → p0 ≠ p).

(** The invariant of the Pending Request table: every pending request
    waits on an unsettled promise and has a timer slot; pending requests do
    not share promises; a timer that rejects a promise refers to one that
    exists, and a pending request waiting on that promise is registered
    under the timer's id. *)
Definition sound (st : Runtime * BridgeStrategy) : Prop :=
  (∀ id pd, pendingRequests st.2 !! id = Some pd →
     promises st.1 !! pending_promise pd = Some Unsettled
     ∧ (pending_timeout pd < length (timers st.1))%nat)
  ∧ (∀ id1 id2 pd1 pd2,
       pendingRequests st.2 !! id1 = Some pd1 →
       pendingRequests st.2 !! id2 = Some pd2 →
       pending_promise pd1 = pending_promise pd2 → id1 = id2)
  ∧ (∀ tid t id p ms, timers st.1 !! tid = Some (Some t) →
       action t = RequestTimeout id p ms →
       (p < length (promises st.1))%nat
       ∧ ∀ id' pd, pendingRequests st.2 !! id' = Some pd →
           pending_promise pd = p → id' = id).

(** ** Runs of the simulation *)

(** A call on the simulation, or the expiry of one of its timers. *)
Inductive WebCall :=
| CallConnect
| CallDisconnect
| CallGetStudentList
| CallStudentPicked (event : StudentEvent)
| CallStudentRemoved (event : StudentEvent)
| CallAddMockStudent (student : Student)
| CallResetMockData
| TimerExpires (tid : nat).

Definition web_call (c : WebCall) (st : Runtime * WebBridge)
  : Runtime * WebBridge :=
  match c with
  | CallConnect => (WebBridge.connect st).1
  | CallDisconnect => WebBridge.disconnect st
  | CallGetStudentList => (WebBridge.getStudentList st).1
  | CallStudentPicked event => (WebBridge.studentPicked event st).1
  | CallStudentRemoved event => (WebBridge.studentRemoved event st).1
  | CallAddMockStudent student => WebBridge.addMockStudent student st
  | CallResetMockData => WebBridge.resetMockData st
  | TimerExpires tid => WebBridge.timer_fires tid st
  end.

(** The calls made one after the other, each run to its end. *)
Definition web_run (cs : list WebCall) (st : Runtime * WebBridge)
  : Runtime * WebBridge :=
  foldl (λ st c, web_call c st) st cs.

(** The ids of the students [getStudentList] hands out. *)
Definition listed (w : WebBridge) : list string :=
  studentId <$> WebBridge.active w.

(** The roster is consistent: no id occurs twice, only students of the
    roster are removed or selected, and no removed student is selected. *)
Definition roster_consistent (w : WebBridge) : Prop :=
  NoDup (studentId <$> mockStudents w)
  ∧ (∀ id, id ∈ removedStudents w → id ∈ studentId <$> mockStudents w)
  ∧ (∀ id, id ∈ selectedStudents w → id ∈ listed w).

(** The call neither tears the simulation down nor resets its data. *)
Definition keeps_data (c : WebCall) : bool :=
  match c with
  | CallDisconnect | CallResetMockData => false
  | _ => true
  end.

(** Two states of the simulation with the same roster data. *)
Definition same_roster (w w' : WebBridge) : Prop :=
  mockStudents w' = mockStudents w
  ∧ removedStudents w' = removedStudents w
  ∧ selectedStudents w' = selectedStudents w.

(** ** Runs of the event emitter *)

(** A call on the emitter; [CallUnsubscribe k] calls the function the
    [k]-th [on] of the run returned. *)
Inductive EmitterCall :=
| CallOn (event : string) (callback : EventEmitter.EventCallback)
| CallOff (event : string) (callback : option EventEmitter.EventCallback)
| CallUnsubscribe (k : nat)
| CallClear.

Definition emitter_call (c : EmitterCall)
    (st : EventEmitter.t * list EventEmitter.Unsubscriber)
  : EventEmitter.t * list EventEmitter.Unsubscriber :=
  match c with
  | CallOn event callback =>
      let r := EventEmitter.on event callback st.1 in (r.1, (st.2 ++ [r.2])%list)
  | CallOff event callback => (EventEmitter.off event callback st.1, st.2)
  | CallUnsubscribe k =>
      match st.2 !! k with
      | Some u => (EventEmitter.unsubscribe u st.1, st.2)
      | None => st
      end
  | CallClear => (EventEmitter.clear st.1, st.2)
  end.

Definition emitter_run (cs : list EmitterCall)
  : EventEmitter.t * list EventEmitter.Unsubscriber :=
  foldl (λ st c, emitter_call c st) (EventEmitter.new, []) cs.

(** The callbacks of the set [emit] iterates for an event, in the set's
    order: what is registered for the event when [emit] is called. *)
Definition invoked (event : string) (em : EventEmitter.t)
  : list EventEmitter.EventCallback :=
  (EventEmitter.emit event JUndefined em).*1.

(** Every event of the map has a set of its own, created before the next
    one to come, and no set holds a callback twice. *)
Definition emitter_wf (em : EventEmitter.t) : Prop :=
  (∀ e r, EventEmitter.listeners em !! e = Some r →
     (r < EventEmitter.nextSet em)%nat)
  ∧ (∀ e1 e2 r, EventEmitter.listeners em !! e1 = Some r →
       EventEmitter.listeners em !! e2 = Some r → e1 = e2)
  ∧ (∀ r l, EventEmitter.sets em !! r = Some l → NoDup l).

(** ** Hosts and the strategies chosen for them *)

(** One of the host functions the desktop strategy calls while it connects
    throws [e]. *)
Definition host_throws (win : WindowWithBridge) (e : Error) : Prop :=
  (∃ w m, Windows win = Some w ∧ Windows_receiveMessage w m = Throws e)
  ∨ (∃ wv m, chrome_webview win = Some wv
             ∧ webview_postMessage wv m = Throws e)
  ∨ (∃ wv, chrome_webview win = Some wv
           ∧ webview_addEventListener wv = Some (Throws e)).

(** The first attempt of a [connect()] call: the strategy for the detected
    platform is constructed and its [connect()] awaited. *)
Definition first_attempt (win : WindowWithBridge) (fault : option Error)
    (c : BridgeService) : BridgeService * Outcome unit :=
  let b := BridgeService.connect_begin win c in
  BridgeService.await_strategy fault b.2 b.1.

(** ** Correlation ids along a run *)

(** What happens to a strategy, or the strategy generates a message id. *)
Inductive Step :=
| Occurs (h : Happening)
| Generates.

(** The ids generated along a run, oldest first. *)
Fixpoint generated (steps : list Step) (st : Runtime * BridgeStrategy)
  : list string :=
  match steps with
  | [] => []
  | Occurs h :: rest => generated rest (happens h st)
  | Generates :: rest =>
      let r := BridgeStrategy.generateMessageId st in
      r.1 :: generated rest r.2
  end.

(** The string holds no underscore. *)
Fixpoint plain (s : string) : bool :=
  match s with
  | EmptyString => true
  | String c rest =>
      negb (Ascii.eqb c (Ascii.ascii_of_nat 95)) && plain rest
  end.

(** ** The host answers *)

(** The host calls [window.onAndroidMessage(text)], the callback the
    mobile strategy object [ref] installed. *)
Definition host_calls_back (JSON_parse : string → option JsVal) (ref : nat)
    (text : string) (c : BridgeService) : BridgeService :=
  match
    BridgeService.on_instance ref
      (λ st, match st.2 with
             | OfAndroid a =>
                 let r := AndroidBridge.onAndroidMessage_call JSON_parse text
                            (st.1, a) in
                 ((r.1, OfAndroid r.2), ())
             | _ => (st, ())
             end) c
  with
  | Some (c', _) => c'
  | None => c
  end.

(** A [JSON.parse] that knows one text: the response of a mobile host to
    the first [getStudentList] request, with an empty roster. *)
Definition parse_one_response (text : string) : option JsVal :=
  if String.eqb text "{response}"
  then Some (response_to "getStudentList" "msg_0_1" (JArr []))
  else None.

(** The service connected to the mobile shell. *)
Definition mobile_service : BridgeService :=
  (BridgeService.connect mobile_host None BridgeService.new).1.

(** ** Runs of a strategy *)

(** What a strategy object goes through: its methods are called, a
    suspended call resumes, a message of the host reaches [handleMessage],
    a timer runs out, time passes. *)
Inductive StrategyEvent :=
| Connects (fault : option Error)
| Disconnects
| Calls (op : Operation)
| Resumes (promise : nat)
| HostSends (data : JsVal)
| TimerRuns (tid : nat)
| TimePasses (t : N).

Definition strategy_step (JSON_parse : string → option JsVal)
    (win : WindowWithBridge) (ev : StrategyEvent) (st : Runtime * Strategy)
  : Runtime * Strategy :=
  match ev with
  | Connects fault =>
      let b := BridgeService.strategy_connect_begin win st in
      (BridgeService.strategy_connect_finish fault
         {| awaited := 0; settled := b.2 |} (b.1.1, b.1.2)).1
  | Disconnects => (BridgeService.strategy_disconnect st).1
  | Calls op => (BridgeService.strategy_call JSON_parse win op st).1
  | Resumes promise => (BridgeService.strategy_resume promise st).1
  | HostSends data =>
      match st.2 with
      | OfWindows w =>
          let r := WindowsBridge.handleMessage data (st.1, w) in
          (r.1, OfWindows r.2)
      | OfAndroid a =>
          let r := AndroidBridge.handleMessage data (st.1, a) in
          (r.1, OfAndroid r.2)
      | OfWeb _ => st
      end
  | TimerRuns tid =>
      match st.2 with
      | OfWindows w =>
          let r := WindowsBridge.timer_fires tid (st.1, w) in
          (r.1, OfWindows r.2)
      | OfAndroid a =>
          let r := AndroidBridge.timer_fires tid (st.1, a) in
          (r.1, OfAndroid r.2)
      | OfWeb w =>
          let r := WebBridge.timer_fires tid (st.1, w) in
          (r.1, OfWeb r.2)
      end
  | TimePasses t => (Runtime.advance t st.1, st.2)
  end.

Definition strategy_run (JSON_parse : string → option JsVal)
    (win : WindowWithBridge) (evs : list StrategyEvent)
    (st : Runtime * Strategy) : Runtime * Strategy :=
  foldl (λ st ev, strategy_step JSON_parse win ev st) st evs.

(** The runtime with the base-class part of a strategy object. *)
Definition base_of (st : Runtime * Strategy) : Runtime * BridgeStrategy :=
  (st.1, strategy_base st.2).

(** Every pending request waits on an unsettled promise of its own and has
    its own timer set, which carries its id; every request timer that is
    set belongs to a pending request; and every pending id was generated
    with a counter value the strategy has passed. *)
Definition well_timed (st : Runtime * BridgeStrategy) : Prop :=
  (∀ id pd, pendingRequests st.2 !! id = Some pd →
     promises st.1 !! pending_promise pd = Some Unsettled
     ∧ ∃ at_, timers st.1 !! pending_timeout pd
              = Some (Some {| due := at_;
                              action := RequestTimeout id (pending_promise pd)
                                          5000 |}))
  ∧ (∀ tid t id p ms, timers st.1 !! tid = Some (Some t) →
       action t = RequestTimeout id p ms →
       pendingRequests st.2 !! id
       = Some {| pending_promise := p; pending_timeout := tid |})
  ∧ (∀ id1 id2 pd1 pd2,
       pendingRequests st.2 !! id1 = Some pd1 →
       pendingRequests st.2 !! id2 = Some pd2 →
       pending_promise pd1 = pending_promise pd2 → id1 = id2)
  ∧ (∀ id, is_Some (pendingRequests st.2 !! id) →
       ∃ t c, id = BridgeStrategy.message_id t c
              ∧ (c ≤ messageIdCounter st.2)%nat).

(** ** What a message of the host can do *)


(** * Properties *)

(** ** PlatformDetector *)

Lemma probes_host_of (p : Probes) : probes (host_of p) = p.
Proof. by destruct p as [[] [] [] [] [] []]. Qed.

Lemma detect_cascade (win : WindowWithBridge) :
  agrees (PlatformDetector.detect win) (cascade (probes win)).
Proof.
  unfold PlatformDetector.detect, cascade, probes, agrees; simpl.
  destruct (PlatformDetector.hasWindowsReceiveMessage win),
    (PlatformDetector.hasAndroidObject win),
    (PlatformDetector.hasAsyncBridge win),
    (PlatformDetector.isAndroidUserAgent win),
    (PlatformDetector.hasChromeWebView win),
    (PlatformDetector.hasElectronAPI win); simpl; auto.
Qed.

(** C3. [detect] is a total function of the host: for every host it yields
    the verdict of the first rule of section 4.2 that matches the probe
    results, rule 8 (browser-only, low, signal "fallback") when none does;
    every combination of the six probe results arises from some host; and a
    desktop receive-function wins over whatever else is present, a mobile
    object included. *)
Theorem C3_detect_first_matching_rule :
  (∀ win, agrees (PlatformDetector.detect win) (cascade (probes win)))
  ∧ (∀ p, probes (host_of p) = p)
  ∧ (∀ m a w e u,
       let r := PlatformDetector.detect
                  (host_of {| desktopReceive := true; mobileObject := m;
                              asyncObject := a; webviewChannel := w;
                              embeddedApi := e; mobileAgent := u |}) in
       platform r = windows ∧ confidence r = high)
  ∧ PlatformDetector.detect browser
    = {| platform := web; confidence := low; detectionMethod := "fallback" |}.
Proof.
  split; [exact detect_cascade|].
  split; [exact probes_host_of|].
  split; [|reflexivity].
  by intros [] [] [] [] [].
Qed.

(** ** EventEmitter *)

Lemma Set_add_elem cb s : cb ∈ EventEmitter.Set_add cb s.
Proof.
  unfold EventEmitter.Set_add. case_bool_decide; [done|].
  apply elem_of_app; right. by apply list_elem_of_singleton.
Qed.

Lemma Set_add_idem cb s :
  EventEmitter.Set_add cb (EventEmitter.Set_add cb s) = EventEmitter.Set_add cb s.
Proof.
  unfold EventEmitter.Set_add at 1.
  by rewrite bool_decide_eq_true_2 by apply Set_add_elem.
Qed.

Lemma Set_delete_not_elem cb s : cb ∉ EventEmitter.Set_delete cb s.
Proof.
  unfold EventEmitter.Set_delete. rewrite list_elem_of_filter. by intros [? _].
Qed.

Lemma deref_store ref s em :
  EventEmitter.deref ref (EventEmitter.store ref s em) = s.
Proof. unfold EventEmitter.deref, EventEmitter.store; simpl. by rewrite lookup_insert_eq. Qed.

Lemma store_store ref s s' em :
  EventEmitter.store ref s (EventEmitter.store ref s' em) = EventEmitter.store ref s em.
Proof. unfold EventEmitter.store; simpl. by rewrite insert_insert_eq. Qed.

(** After [on], the event is mapped to the set the closure captured, and
    the callback is in it. *)
Lemma on_registered event h em :
  let r := EventEmitter.on event h em in
  EventEmitter.listeners r.1 !! event = Some (EventEmitter.captured_callbacks r.2)
  ∧ h ∈ EventEmitter.deref (EventEmitter.captured_callbacks r.2) r.1.
Proof.
  unfold EventEmitter.on.
  destruct (EventEmitter.listeners em !! event) as [ref|] eqn:E; simpl.
  - rewrite E; simpl. split; [done|]. rewrite deref_store. apply Set_add_elem.
  - rewrite lookup_insert_eq; simpl. split; [done|].
    rewrite deref_store. apply Set_add_elem.
Qed.

Lemma on_present event h em ref :
  EventEmitter.listeners em !! event = Some ref →
  h ∈ EventEmitter.deref ref em →
  EventEmitter.on event h em
  = (em, {| EventEmitter.captured_callbacks := ref;
            EventEmitter.captured_callback := h;
            EventEmitter.captured_event := event |}).
Proof.
  intros Hl Hin. unfold EventEmitter.on. rewrite Hl; simpl. rewrite Hl; simpl.
  f_equal.
  unfold EventEmitter.Set_add. rewrite bool_decide_eq_true_2 by done.
  unfold EventEmitter.deref in *. destruct em as [sets next ls]; simpl in *.
  destruct (sets !! ref) as [s|] eqn:E; simpl in *.
  - unfold EventEmitter.store; simpl. by rewrite insert_id.
  - by apply elem_of_nil in Hin.
Qed.

Lemma on_twice event h em :
  let r1 := EventEmitter.on event h em in
  EventEmitter.on event h r1.1 = r1.
Proof.
  intros r1.
  destruct (on_registered event h em) as [Hl Hin]. fold r1 in Hl, Hin.
  rewrite (on_present _ _ _ _ Hl Hin).
  rewrite (surjective_pairing r1) at 3. f_equal.
Qed.

Lemma unsubscribe_removes u data em :
  EventEmitter.listeners em !! EventEmitter.captured_event u
  = Some (EventEmitter.captured_callbacks u) →
  EventEmitter.captured_callback u
  ∉ (EventEmitter.emit (EventEmitter.captured_event u) data
       (EventEmitter.unsubscribe u em)).*1.
Proof.
  intros Hl. unfold EventEmitter.unsubscribe. rewrite deref_store.
  destruct (_ =? 0)%nat; unfold EventEmitter.emit; simpl.
  - rewrite lookup_delete_eq. apply not_elem_of_nil.
  - rewrite Hl, deref_store, <- list_fmap_compose.
    rewrite (list_fmap_ext _ id) by done.
    rewrite list_fmap_id. apply Set_delete_not_elem.
Qed.

Lemma unsubscribe_silences event h data em :
  let r := EventEmitter.on event h em in
  h ∉ (EventEmitter.emit event data (EventEmitter.unsubscribe r.2 r.1)).*1.
Proof.
  intros r. destruct (on_registered event h em) as [Hl _]. fold r in Hl.
  assert (EventEmitter.captured_callback r.2 = h
          ∧ EventEmitter.captured_event r.2 = event) as [Hc He].
  { subst r. unfold EventEmitter.on. by destruct (_ !! _). }
  rewrite <- He in Hl. rewrite <- Hc at 1. rewrite <- He at 1.
  by apply unsubscribe_removes.
Qed.

(** C9 (as the code has it).  Registering the same callback a second time
    for an event leaves the emitter as the first registration made it: the
    listener set holds the callback once and the count for the event is
    unchanged.  Calling either of the two functions returned removes the
    callback, after which it is not among the callbacks [emit] invokes:
    no registration of it is left. *)
Theorem C9_second_registration_is_absorbed
    (event : string) (h : EventEmitter.EventCallback) (em : EventEmitter.t) :
  let r1 := EventEmitter.on event h em in
  let r2 := EventEmitter.on event h r1.1 in
  r2.1 = r1.1
  ∧ EventEmitter.listenerCount (Some event) r2.1
    = EventEmitter.listenerCount (Some event) r1.1
  ∧ (∀ data,
       (h ∉ (EventEmitter.emit event data
               (EventEmitter.unsubscribe r1.2 r2.1)).*1)
       ∧ (h ∉ (EventEmitter.emit event data
                 (EventEmitter.unsubscribe r2.2 r2.1)).*1)).
Proof.
  intros r1 r2. assert (r2 = r1) as Heq by apply on_twice.
  split; [by rewrite Heq|]. split; [by rewrite Heq|].
  intros data. rewrite Heq. split; apply unsubscribe_silences.
Qed.

(** C9, refuted as stated: after the same callback is registered twice on a
    new emitter the count for the event is 1, not 2, and once one of the
    two unsubscribe functions has run no registration is left: the count is
    0 and [emit] invokes nothing. *)
Lemma C9_double_registration_counterexample :
  let r1 := EventEmitter.on "tick" 7 EventEmitter.new in
  let r2 := EventEmitter.on "tick" 7 r1.1 in
  EventEmitter.listenerCount (Some "tick") r2.1 = 1
  ∧ EventEmitter.listenerCount (Some "tick") r2.1 ≠ 2
  ∧ EventEmitter.listenerCount (Some "tick")
      (EventEmitter.unsubscribe r1.2 r2.1) = 0
  ∧ EventEmitter.emit "tick" JNull (EventEmitter.unsubscribe r1.2 r2.1) = [].
Proof. vm_compute. repeat split; congruence. Qed.

(** ** Normalising a boolean response *)

Lemma lower_ascii_one c :
  lower_ascii c = Ascii.ascii_of_nat 49 → c = Ascii.ascii_of_nat 49.
Proof. destruct c as [[] [] [] [] [] [] [] []]; vm_compute; congruence. Qed.

Lemma lower_true_not_one s : toLowerCase s = "1" → s = "1".
Proof.
  destruct s as [|c [|c' s']]; simpl; try done.
  intros [= H]. f_equal. by apply lower_ascii_one.
Qed.

Lemma lower_one s : String.eqb (toLowerCase s) "1" = String.eqb s "1".
Proof.
  destruct (String.eqb_spec s "1") as [->|Hne]; [done|].
  apply String.eqb_neq. intros H. by apply lower_true_not_one in H.
Qed.

(** C8 (as the code has it).  Both normalisations are total functions, so
    never throw.  AndroidBridge answers as the specification says except on
    the inputs of [android_departs] (the string "success", a number other
    than 0 and 1, an object whose truthy [success] or [result] is not the
    boolean [true]), where it answers the opposite; WindowsBridge answers
    as the specification says except on the inputs of [windows_departs]
    (the number 1, an object with only [result] truthy), where it answers
    [false], and except that for an object with a truthy [success] it
    returns that field's value.  Both map a boolean to itself. *)
Theorem C8_boolean_normalisation :
  (∀ v, AndroidBridge.parseBooleanResponse v
        = xorb (normalizeBoolean_spec v) (android_departs v))
  ∧ (∀ v, WindowsBridge.parseBooleanResponse v = windows_result v)
  ∧ (∀ b, AndroidBridge.parseBooleanResponse (JBool b) = b
          ∧ WindowsBridge.parseBooleanResponse (JBool b) = JBool b)
  ∧ AndroidBridge.parseBooleanResponse (JStr "TRUE") = true
  ∧ WindowsBridge.parseBooleanResponse (JStr "True") = JBool true
  ∧ AndroidBridge.parseBooleanResponse (JStr "False") = false
  ∧ WindowsBridge.parseBooleanResponse (JStr "FALSE") = JBool false
  ∧ AndroidBridge.parseBooleanResponse (JNum 1) = true
  ∧ AndroidBridge.parseBooleanResponse (JNum 0) = false
  ∧ WindowsBridge.parseBooleanResponse (JNum 0) = JBool false.
Proof.
  split; [|split; [|split; [|by vm_compute]]].
  - intros v.
    destruct v as [| |[]|z| |s|items|fields|proxy r]; simpl; try done.
    + destruct (z =? 0)%Z eqn:E0, (z =? 1)%Z eqn:E1; simpl; try done.
      apply Z.eqb_eq in E0, E1. lia.
    + rewrite lower_one.
      destruct (String.eqb (toLowerCase s) "true") eqn:Et; simpl.
      * apply String.eqb_eq in Et. by rewrite Et.
      * destruct (String.eqb s "1") eqn:E1; simpl.
        -- apply String.eqb_eq in E1. by subst.
        -- by destruct (String.eqb (toLowerCase s) "success").
    + destruct (assoc "success" fields) as [| |[]|z| |s| | |],
        (assoc "result" fields) as [| |[]|z'| |s'| | |]; simpl; try done.
      all: by repeat match goal with
              | |- context [(?x =? ?y)%Z] => destruct (x =? y)%Z
              | |- context [String.eqb ?x ?y] => destruct (String.eqb x y)
              end.
  - intros v.
    destruct v as [| |[]|z| |s|items|fields|proxy r]; simpl; try done.
    all: unfold or_else; rewrite ?andb_true_r; try done.
    all: by repeat match goal with
            | |- context [(?x =? ?y)%Z] => destruct (x =? y)%Z
            | |- context [truthy ?x] => destruct (truthy x)
            end.
  - by intros [].
Qed.

(** C8, refuted as stated: WindowsBridge normalises the number 1 to
    [false], and so an object whose only truthy field is [result]; given a
    truthy [success] that is not a boolean it returns that value;
    AndroidBridge normalises an object with the truthy [success] 1 to
    [false], and the string "success", which the claim does not list, to
    [true]. *)
Lemma C8_normalisation_counterexample :
  WindowsBridge.parseBooleanResponse (JNum 1) = JBool false
  ∧ WindowsBridge.parseBooleanResponse (JObj [("result", JBool true)])
    = JBool false
  ∧ WindowsBridge.parseBooleanResponse (JObj [("success", JStr "yes")])
    = JStr "yes"
  ∧ AndroidBridge.parseBooleanResponse (JObj [("success", JNum 1)]) = false
  ∧ AndroidBridge.parseBooleanResponse (JStr "success") = true.
Proof. by vm_compute. Qed.

(** ** The runtime and the base class: how a step changes them *)

Lemma settle_promises_eq p o rt :
  promises rt !! p = Some Unsettled →
  promises (Runtime.settle p o rt) !! p = Some o.
Proof.
  intros H. unfold Runtime.settle. rewrite H. simpl.
  apply list_lookup_insert_eq. by eapply lookup_lt_Some.
Qed.

Lemma settle_promises_ne p q o rt :
  p ≠ q → promises (Runtime.settle p o rt) !! q = promises rt !! q.
Proof.
  intros H. unfold Runtime.settle.
  destruct (promises rt !! p) as [[]|]; simpl; try done.
  by apply list_lookup_insert_ne.
Qed.

Lemma settle_settled p o rt :
  promises rt !! p ≠ Some Unsettled → Runtime.settle p o rt = rt.
Proof.
  intros H. unfold Runtime.settle.
  by destruct (promises rt !! p) as [[]|].
Qed.

Lemma settle_length p o rt :
  length (promises (Runtime.settle p o rt)) = length (promises rt).
Proof.
  unfold Runtime.settle.
  destruct (promises rt !! p) as [[]|]; simpl; try done.
  apply length_insert.
Qed.

Lemma settle_frame p o rt :
  now (Runtime.settle p o rt) = now rt
  ∧ timers (Runtime.settle p o rt) = timers rt
  ∧ emitted (Runtime.settle p o rt) = emitted rt
  ∧ posted (Runtime.settle p o rt) = posted rt.
Proof.
  unfold Runtime.settle. by destruct (promises rt !! p) as [[]|].
Qed.

Lemma message_id_nonempty t c : BridgeStrategy.message_id t c ≠ "".
Proof. done. Qed.

Lemma string_length_app (s t : string) :
  String.length (s +:+ t) = String.length s + String.length t.
Proof. induction s as [|c s IH]; simpl; [done|by rewrite IH]. Qed.

Lemma substring_all (t : string) : String.substring 0 (String.length t) t = t.
Proof. induction t as [|c t IH]; simpl; [done|by rewrite IH]. Qed.

Lemma substring_app (s t : string) :
  String.substring (String.length s) (String.length t) (s +:+ t) = t.
Proof. induction s as [|c s IH]; simpl; [apply substring_all|done]. Qed.

Lemma endsWith_app (s t : string) : endsWith (s +:+ t) t = true.
Proof.
  unfold endsWith. rewrite string_length_app.
  rewrite (proj2 (Nat.leb_le _ _)) by lia.
  replace (String.length s + String.length t - String.length t)
    with (String.length s) by lia.
  rewrite substring_app. simpl. apply String.eqb_refl.
Qed.

(** A response whose id is pending resolves that request and is
    republished. *)
Lemma handleMessage_matched event id payload st pd :
  id ≠ "" →
  pendingRequests st.2 !! id = Some pd →
  handleMessage (response_to event id payload) st
  = (Runtime.emit (event +:+ "Response") payload
       (BridgeStrategy.resolvePendingRequest id payload st).1,
     (BridgeStrategy.resolvePendingRequest id payload st).2).
Proof.
  intros Hid Hpd. unfold handleMessage, response_to.
  cbn [get assoc String.eqb Ascii.eqb Bool.eqb].
  assert (String.eqb (event +:+ "Response") "" = false) as ->.
  { apply String.eqb_neq. by destruct event. }
  rewrite endsWith_app.
  rewrite (proj2 (String.eqb_neq id "")) by done.
  rewrite bool_decide_eq_true_2 by eauto. done.
Qed.

(** A response whose id is not pending is republished and changes
    nothing else. *)
Lemma handleMessage_unmatched event id payload st :
  pendingRequests st.2 !! id = None →
  handleMessage (response_to event id payload) st
  = (Runtime.emit (event +:+ "Response") payload st.1, st.2).
Proof.
  intros Hpd. unfold handleMessage, response_to.
  cbn [get assoc String.eqb Ascii.eqb Bool.eqb].
  assert (String.eqb (event +:+ "Response") "" = false) as ->.
  { apply String.eqb_neq. by destruct event. }
  rewrite endsWith_app.
  rewrite bool_decide_eq_false_2; [|rewrite Hpd; by intros [? ?]].
  by rewrite andb_false_r.
Qed.

(** What [createPendingRequest] leaves behind. *)
Lemma createPendingRequest_spec id timeout st :
  let r := BridgeStrategy.createPendingRequest id timeout st in
  r.1 = length (promises st.1)
  ∧ promises r.2.1 = (promises st.1 ++ [Unsettled])%list
  ∧ timers r.2.1
    = (timers st.1
       ++ [Some {| due := (now st.1 + default 5000 timeout)%N;
                   action := RequestTimeout id (length (promises st.1))
                               (default 5000%N timeout) |}])%list
  ∧ pendingRequests r.2.2
    = <[id := {| pending_promise := length (promises st.1);
                 pending_timeout := length (timers st.1) |}]>
        (pendingRequests st.2)
  ∧ now r.2.1 = now st.1
  ∧ emitted r.2.1 = emitted st.1.
Proof. by destruct st as [rt s]. Qed.

(** ** Request correlation *)

Lemma generated_ids_differ (t : N) (a b : nat) :
  a ≠ b → BridgeStrategy.message_id t a ≠ BridgeStrategy.message_id t b.
Proof.
  unfold BridgeStrategy.message_id. intros Hne Heq. apply Hne.
  do 3 apply (inj (String.app _)) in Heq.
  by apply (inj pretty) in Heq.
Qed.

(** The round trip of WindowsBridge registers the promise under the id it
    is given and posts a message with an id generated anew. *)
Lemma windows_roundtrip_wire (win : WindowWithBridge) (id event : string)
    (data : JsVal) (st : Runtime * WindowsBridge) (p : nat) :
  (WindowsBridge.roundtrip win id event data st).2 = Awaiting p →
  let st' := (WindowsBridge.roundtrip win id event data st).1 in
  wire_id st'.1
  = Some (BridgeStrategy.message_id (now st.1)
            (S (messageIdCounter (windows_base st.2))))
  ∧ pendingRequests (windows_base st'.2) !! id
    = Some {| pending_promise := p; pending_timeout := length (timers st.1) |}.
Proof.
  destruct st as [rt [b mh]].
  unfold WindowsBridge.roundtrip, WindowsBridge.sendMessage, wire_id.
  cbn [WindowsBridge.lift_with BridgeStrategy.createMessage
       BridgeStrategy.generateMessageId BridgeStrategy.createPendingRequest
       Runtime.newPromise Runtime.setTimeout fst snd windows_base
       messageHandler].
  destruct (Windows win) as [w|]; [|destruct (chrome_webview win) as [wv|]].
  - destruct (reply_error _); cbn; [done|]. intros [= <-].
    by rewrite last_snoc, lookup_insert_eq.
  - destruct (reply_error _); cbn; [done|]. intros [= <-].
    by rewrite last_snoc, lookup_insert_eq.
  - done.
Qed.

Lemma windows_getStudentList_awaits (JSON_parse : string → option JsVal)
    (win : WindowWithBridge) (st : Runtime * WindowsBridge) (p : nat) :
  (WindowsBridge.getStudentList JSON_parse win st).2 = Awaiting p →
  WindowsBridge.getStudentList JSON_parse win st
  = WindowsBridge.roundtrip win
      (BridgeStrategy.message_id (now st.1)
         (S (messageIdCounter (windows_base st.2))))
      "getStudentList" (JObj [])
      (WindowsBridge.lift_with BridgeStrategy.generateMessageId st).2.
Proof.
  destruct st as [rt [b mh]].
  unfold WindowsBridge.getStudentList; simpl.
  destruct (present _); [destruct (WindowsBridge.callAsyncBridge _ _ _)|];
    simpl; done.
Qed.

(** In WindowsBridge the id a round trip is registered under and the id
    the posted message carries come from two calls of [generateMessageId]:
    they are never the same. *)
Lemma windows_roundtrip_ids (JSON_parse : string → option JsVal)
    (win : WindowWithBridge) (st : Runtime * WindowsBridge) (p : nat) :
  (WindowsBridge.getStudentList JSON_parse win st).2 = Awaiting p →
  let st' := (WindowsBridge.getStudentList JSON_parse win st).1 in
  let c := messageIdCounter (windows_base st.2) in
  wire_id st'.1 = Some (BridgeStrategy.message_id (now st.1) (S (S c)))
  ∧ pendingRequests (windows_base st'.2)
      !! BridgeStrategy.message_id (now st.1) (S c)
    = Some {| pending_promise := p; pending_timeout := length (timers st.1) |}
  ∧ wire_id st'.1 ≠ Some (BridgeStrategy.message_id (now st.1) (S c)).
Proof.
  intros H. cbv zeta.
  rewrite (windows_getStudentList_awaits _ _ _ _ H) in H |- *.
  destruct (windows_roundtrip_wire _ _ _ _ _ _ H) as [Hw Hp].
  destruct st as [rt [b mh]]. simpl in Hw, Hp |- *.
  split; [exact Hw|]. split; [exact Hp|].
  rewrite Hw. intros Hbad.
  apply (generated_ids_differ (now rt) (S (S (messageIdCounter b)))
           (S (messageIdCounter b))); [lia|congruence].
Qed.

(** In AndroidBridge the round trip is registered under the id of the
    message it posts, and a response with that id resolves it with the
    payload and is republished. *)
Lemma android_roundtrip_resolves
    (receiveMessage : BridgeMessage → HostReply) (event : string)
    (data payload : JsVal) (st : Runtime * AndroidBridge) (p : nat) :
  (AndroidBridge.roundtrip receiveMessage event data st).2 = Awaiting p →
  let st' := (AndroidBridge.roundtrip receiveMessage event data st).1 in
  ∃ id,
    wire_id st'.1 = Some id
    ∧ pendingRequests (android_base st'.2) !! id
      = Some {| pending_promise := p; pending_timeout := length (timers st.1) |}
    ∧ let st'' := AndroidBridge.handleMessage (response_to event id payload) st' in
      promises st''.1 !! p = Some (Fulfilled payload)
      ∧ pendingRequests (android_base st''.2) !! id = None
      ∧ last (emitted st''.1) = Some (event +:+ "Response", payload).
Proof.
  destruct st as [rt [b cb]].
  unfold AndroidBridge.roundtrip, wire_id; simpl.
  destruct (receiveMessage _); simpl; [done|]. intros [= <-].
  exists (BridgeStrategy.message_id (now rt) (S (messageIdCounter b))).
  rewrite last_snoc; simpl. split; [done|].
  rewrite lookup_insert_eq. split; [done|].
  unfold AndroidBridge.handleMessage, AndroidBridge.lift.
  erewrite handleMessage_matched;
    [|apply message_id_nonempty|simpl; apply lookup_insert_eq].
  unfold BridgeStrategy.resolvePendingRequest; simpl.
  rewrite lookup_insert_eq; simpl.
  rewrite lookup_delete_eq, last_snoc.
  split; [|done].
  apply settle_promises_eq; simpl.
  rewrite lookup_app_r by done. by rewrite Nat.sub_diag.
Qed.

(** C2, where the code goes wrong.  On a desktop shell that accepts every
    message, [getStudentList] of a just connected WindowsBridge posts a
    message with the id [msg_0_3] and waits on a promise registered under
    [msg_0_2].  The host's response, which carries the id it was sent,
    matches no pending request: it is republished, the promise is left
    unsettled, and the timer later rejects it with the timeout error. *)
Theorem C2_windows_wire_id_is_not_the_registered_id :
  let st := (WindowsBridge.connect desktop_host
               (Runtime.start, WindowsBridge.new)).1 in
  let c := WindowsBridge.getStudentList (λ _, None) desktop_host st in
  let back := WindowsBridge.handleMessage
                (response_to "getStudentList" "msg_0_3" (JArr [])) c.1 in
  let late := WindowsBridge.timer_fires 1 back in
  connectionStatus (windows_base st.2) = connected
  ∧ c.2 = Awaiting 0
  ∧ wire_id c.1.1 = Some "msg_0_3"
  ∧ pendingRequests (windows_base c.1.2) !! "msg_0_2"
    = Some {| pending_promise := 0; pending_timeout := 1 |}
  ∧ pendingRequests (windows_base c.1.2) !! "msg_0_3" = None
  ∧ promises back.1 !! 0 = Some Unsettled
  ∧ last (emitted back.1) = Some ("getStudentListResponse", JArr [])
  ∧ promises late.1 !! 0
    = Some (Rejected (mkError "Request timeout after 5000ms")).
Proof. by vm_compute. Qed.

(** ** Timing out *)

(** What [handleMessage] can do: nothing, republish only, or resolve the
    request the message answers and republish. *)
Lemma handleMessage_cases (data : JsVal) (st : Runtime * BridgeStrategy) :
  handleMessage data st = st
  ∨ (∃ event payload,
       handleMessage data st = (Runtime.emit event payload st.1, st.2))
  ∨ (∃ event payload m pd,
       answers m data = true
       ∧ pendingRequests st.2 !! m = Some pd
       ∧ handleMessage data st
         = (Runtime.emit event payload
              (BridgeStrategy.resolvePendingRequest m payload st).1,
            (BridgeStrategy.resolvePendingRequest m payload st).2)).
Proof.
  unfold handleMessage, answers.
  destruct data as [| |b|z| |s|items|fields|proxy r]; try by left.
  all: destruct (get "event" _) as [| | | | |event| | |]; try by left.
  all: destruct (String.eqb event ""); [by left|].
  all: destruct (endsWith event "Response"); [|right; left; eauto].
  all: destruct (get "messageId" _) as [| | | | |m| | |];
    try (right; left; by eauto).
  all: destruct (negb (String.eqb m "")); simpl; [|right; left; by eauto].
  all: case_bool_decide as Hm; [|right; left; by eauto].
  all: destruct Hm as [pd Hpd]; right; right.
  all: eexists _, _, m, pd; rewrite String.eqb_refl; by eauto.
Qed.

Lemma under_way_created id timeout st :
  in_bounds st →
  let r := BridgeStrategy.createPendingRequest id timeout st in
  under_way id r.1 (length (timers st.1))
    {| due := (now st.1 + default 5000 timeout)%N;
       action := RequestTimeout id r.1 (default 5000%N timeout) |}
    r.2.
Proof.
  intros [Hent Htim]. destruct st as [rt s]. simpl in *.
  split; [|split; [|split]]; simpl.
  - rewrite lookup_app_r by done. by rewrite Nat.sub_diag.
  - rewrite lookup_app_r by done. by rewrite Nat.sub_diag.
  - intros id' pd Hpd Hor.
    destruct (decide (id = id')) as [|Hne]; [done|].
    rewrite lookup_insert_ne in Hpd by done.
    apply Hent in Hpd. lia.
  - intros tid' t' id0 p0 ms0 Ht Ha Hne.
    apply lookup_app_Some in Ht as [Ht|[Hlen Ht]].
    + apply (Htim _ _ _ _ _ Ht) in Ha. lia.
    + apply list_lookup_singleton_Some in Ht as [Hz _]. lia.
Qed.

Lemma under_way_resolve id p tid T m payload st :
  m ≠ id →
  under_way id p tid T st →
  under_way id p tid T (BridgeStrategy.resolvePendingRequest m payload st).
Proof.
  intros Hne (Hp & Ht & Hent & Htim). destruct st as [rt s].
  unfold BridgeStrategy.resolvePendingRequest.
  destruct (pendingRequests s !! m) as [pd|] eqn:Hpd; [|done].
  assert (pending_promise pd ≠ p ∧ pending_timeout pd ≠ tid) as [Hp' Ht'].
  { split; intros Heq; apply Hne; eapply Hent; eauto. }
  split; [|split; [|split]]; simpl in *.
  - by rewrite settle_promises_ne.
  - destruct (settle_frame (pending_promise pd) (Fulfilled payload)
                (Runtime.clearTimeout (pending_timeout pd) rt)) as (_ & -> & _).
    simpl. by rewrite list_lookup_insert_ne.
  - intros id' pd' Hpd'. apply lookup_delete_Some in Hpd' as [_ Hpd'].
    by apply Hent.
  - intros tid' t' id0 p0 ms0.
    destruct (settle_frame (pending_promise pd) (Fulfilled payload)
                (Runtime.clearTimeout (pending_timeout pd) rt)) as (_ & -> & _).
    simpl. intros H. apply list_lookup_insert_Some in H.
    destruct H as [(_ & [=] & _)|[_ H]]. by apply Htim.
Qed.

Lemma under_way_emit id p tid T event payload st :
  under_way id p tid T st →
  under_way id p tid T (Runtime.emit event payload st.1, st.2).
Proof. by intros (Hp & Ht & Hent & Htim). Qed.

Lemma answers_inj id m data :
  answers id data = true → answers m data = true → m = id.
Proof.
  unfold answers.
  destruct (get "event" data); try done.
  destruct (get "messageId" data); try done.
  intros [_ H1%String.eqb_eq]%andb_true_iff
         [_ H2%String.eqb_eq]%andb_true_iff. congruence.
Qed.

(** While neither a response for it arrives nor its timer runs out, a
    round trip stays under way. *)
Lemma under_way_happens id p tid T h st :
  leaves_alone id tid h = true →
  under_way id p tid T st →
  under_way id p tid T (happens h st).
Proof.
  intros Hq Hu. destruct h as [data|tid'|m timeout|t]; simpl in *.
  - destruct (handleMessage_cases data st)
      as [->|[(ev & pl & ->)|(ev & pl & m & pd & Ha & Hpd & ->)]].
    + done.
    + by apply under_way_emit.
    + apply (under_way_emit _ _ _ _ ev pl
               (BridgeStrategy.resolvePendingRequest m pl st)).
      apply under_way_resolve; [|done].
      intros ->. by rewrite Ha in Hq.
  - apply negb_true_iff, Nat.eqb_neq in Hq.
    destruct Hu as (Hp & Ht & Hent & Htim). destruct st as [rt s].
    unfold BridgeStrategy.timer_fires.
    destruct (timers rt !! tid') as [[t'|]|] eqn:Ht'; [|done..].
    simpl in *.
    assert (∀ rt', promises rt' = promises rt →
              timers rt' = <[tid' := None]> (timers rt) →
              ∀ s', (∀ id' pd, pendingRequests s' !! id' = Some pd →
                       pendingRequests s !! id' = Some pd) →
              under_way id p tid T (rt', s')) as Hframe.
    { intros rt' Hps Hts s' Hsub. split; [|split; [|split]]; simpl.
      - by rewrite Hps.
      - rewrite Hts. by rewrite list_lookup_insert_ne.
      - intros id' pd Hpd. apply Hsub in Hpd. by apply Hent.
      - intros tid'' t'' id0 p0 ms0. rewrite Hts. intros H.
        apply list_lookup_insert_Some in H.
        destruct H as [(_ & [=] & _)|[_ H]]. by apply Htim. }
    destruct (action t') as [m q ms|ev pl|] eqn:Ha.
    + assert (q ≠ p) as Hqp by (by eapply Htim).
      destruct (settle_frame q (Rejected (BridgeStrategy.timeout_error ms))
                  (Runtime.clearTimeout tid' (Runtime.advance (due t') rt)))
        as (_ & Hts & _).
      split; [|split; [|split]]; simpl.
      * by rewrite settle_promises_ne.
      * rewrite Hts. simpl. by rewrite list_lookup_insert_ne.
      * intros id' pd Hpd. apply lookup_delete_Some in Hpd as [_ Hpd].
        by apply Hent.
      * intros tid'' t'' id0 p0 ms0. rewrite Hts. simpl. intros H.
        apply list_lookup_insert_Some in H.
        destruct H as [(_ & [=] & _)|[_ H]]. by apply Htim.
    + by apply Hframe.
    + by apply Hframe.
  - destruct Hu as (Hp & Ht & Hent & Htim). destruct st as [rt s].
    assert (p < length (promises rt))%nat by (by eapply lookup_lt_Some).
    assert (tid < length (timers rt))%nat by (by eapply lookup_lt_Some).
    split; [|split; [|split]]; simpl in *.
    + by rewrite lookup_app_l.
    + by rewrite lookup_app_l.
    + intros id' pd Hpd Hor.
      destruct (decide (m = id')) as [<-|Hne].
      * rewrite lookup_insert_eq in Hpd. injection Hpd as <-. simpl in Hor. lia.
      * rewrite lookup_insert_ne in Hpd by done. by eapply Hent.
    + intros tid' t' id0 p0 ms0 Ht' Ha Hne.
      apply lookup_app_Some in Ht' as [Ht'|[Hlen Ht']].
      * by eapply Htim.
      * apply list_lookup_singleton_Some in Ht' as [_ [= <-]].
        simpl in Ha. injection Ha as <- <- <-. lia.
  - by destruct Hu as (Hp & Ht & Hent & Htim).
Qed.

Lemma under_way_history id p tid T hs st :
  Forall (λ h, leaves_alone id tid h = true) hs →
  under_way id p tid T st →
  under_way id p tid T (history hs st).
Proof.
  unfold history. intros Hq. revert st.
  induction Hq as [|h hs Hh _ IH]; intros st Hu; simpl; [done|].
  by apply IH, under_way_happens.
Qed.

(** C5.  A round trip registered with [createPendingRequest] (timeout
    5000 ms unless another is given) sets a timer due that long after the
    registration.  Whatever happens meanwhile, as long as no response for
    its id comes in and the timer has not run out, its promise stays
    unsettled; when the timer runs out the promise is rejected with the
    timeout error, its entry is gone from the table, and the clock has
    passed the deadline; a response for its id that comes in afterwards is
    republished and changes neither a promise nor the table. *)
Theorem C5_unanswered_request_times_out
    (st : Runtime * BridgeStrategy) (id : string) (timeout : option N)
    (hs : list Happening) (late : JsVal) :
  in_bounds st →
  Forall (λ h, leaves_alone id (length (timers st.1)) h = true) hs →
  answers id late = true →
  let ms := default 5000%N timeout in
  let created := BridgeStrategy.createPendingRequest id timeout st in
  let waiting := history hs created.2 in
  let expired := BridgeStrategy.timer_fires (length (timers st.1)) waiting in
  let after := handleMessage late expired in
  timers created.2.1 !! length (timers st.1)
  = Some (Some {| due := (now st.1 + ms)%N;
                  action := RequestTimeout id created.1 ms |})
  ∧ pendingRequests created.2.2 !! id
    = Some {| pending_promise := created.1;
              pending_timeout := length (timers st.1) |}
  ∧ promises waiting.1 !! created.1 = Some Unsettled
  ∧ promises expired.1 !! created.1
    = Some (Rejected (mkError ("Request timeout after " +:+ pretty ms +:+ "ms")))
  ∧ pendingRequests expired.2 !! id = None
  ∧ (now st.1 + ms ≤ now expired.1)%N
  ∧ promises after.1 = promises expired.1
  ∧ pendingRequests after.2 = pendingRequests expired.2.
Proof.
  destruct st as [rt0 s0].
  intros Hb Hq Hlate ms created waiting expired after.
  pose proof (under_way_created id timeout (rt0, s0) Hb) as Hc.
  fold created in Hc. cbv zeta in Hc.
  pose proof (under_way_history _ _ _ _ hs _ Hq Hc) as Hw.
  fold waiting in Hw.
  destruct (createPendingRequest_spec id timeout (rt0, s0))
    as (_ & _ & Htim & Hpend & _).
  fold created in Htim, Hpend.
  split; [|split].
  { rewrite Htim. rewrite lookup_app_r by done. by rewrite Nat.sub_diag. }
  { by rewrite Hpend, lookup_insert_eq. }
  destruct Hw as (Hp & Ht & _ & _).
  split; [exact Hp|].
  assert (promises expired.1 !! created.1
          = Some (Rejected (BridgeStrategy.timeout_error ms))
          ∧ pendingRequests expired.2 !! id = None
          ∧ (now rt0 + ms ≤ now expired.1)%N) as (He1 & He2 & He3).
  { subst expired. clearbody waiting. destruct waiting as [rt s].
    unfold BridgeStrategy.timer_fires. simpl in Hp, Ht |- *. rewrite Ht.
    cbn [action due fst snd]. split; [|split].
    - apply settle_promises_eq. by simpl.
    - apply lookup_delete_eq.
    - rewrite (proj1 (settle_frame _ _ _)). simpl. lia. }
  split; [exact He1|]. split; [exact He2|]. split; [exact He3|].
  subst after.
  destruct (handleMessage_cases late expired)
    as [->|[(ev & pl & ->)|(ev & pl & m & pd & Ha & Hpd & ->)]]; [done..|].
  rewrite (answers_inj _ _ _ Hlate Ha) in Hpd. congruence.
Qed.

(** The theorem at work: a new strategy registers one round trip; a pushed
    event and a response for another id pass; the timer runs out. *)
Lemma C5_timeout_witness :
  let st := (Runtime.start, BridgeStrategy.new) in
  let hs := [Receives (JObj [("event", JStr "rosterChanged")]);
             Elapses 1200;
             Receives (response_to "studentPicked" "msg_0_9" (JBool true))] in
  let expired := BridgeStrategy.timer_fires 1
                   (history hs (BridgeStrategy.createPendingRequest
                                  "msg_0_1" None st).2) in
  promises expired.1 !! 0
  = Some (Rejected (mkError "Request timeout after 5000ms"))
  ∧ pendingRequests expired.2 !! "msg_0_1" = None
  ∧ now expired.1 = 5000%N.
Proof.
  intros st hs expired.
  pose proof (C5_unanswered_request_times_out st "msg_0_1" None hs
                (response_to "getStudentList" "msg_0_1" (JArr [])))
    as H.
  destruct H as (_ & _ & _ & H1 & H2 & _).
  - split; intros *; simpl; [by rewrite lookup_empty|by destruct tid as [|[]]].
  - repeat constructor.
  - reflexivity.
  - split; [exact H1|]. split; [exact H2|]. reflexivity.
Defined.

(** ** The invariant of the Pending Request table *)

Lemma sound_new : sound (Runtime.start, BridgeStrategy.new).
Proof.
  split; [|split]; simpl.
  - intros id pd. by rewrite lookup_empty.
  - intros id1 id2 pd1 pd2. by rewrite lookup_empty.
  - intros [|[]] t id p ms; by simpl.
Qed.

Lemma sound_in_bounds st : sound st → in_bounds st.
Proof.
  intros (H1 & _ & H3). split.
  - intros id pd Hpd. destruct (H1 _ _ Hpd) as [Hp Ht].
    split; [by eapply lookup_lt_Some|done].
  - intros tid t id p ms Ht Ha. by destruct (H3 _ _ _ _ _ Ht Ha).
Qed.

Lemma sound_pending_unsettled st : sound st → pending_unsettled st.1 st.2.
Proof. intros (H1 & _ & _) id pd Hpd. by destruct (H1 _ _ Hpd). Qed.

Lemma sound_emit event payload st :
  sound st → sound (Runtime.emit event payload st.1, st.2).
Proof. by intros (H1 & H2 & H3). Qed.

Lemma sound_resolve m payload st :
  sound st → sound (BridgeStrategy.resolvePendingRequest m payload st).
Proof.
  intros (H1 & H2 & H3). destruct st as [rt s].
  unfold BridgeStrategy.resolvePendingRequest.
  destruct (pendingRequests s !! m) as [pd|] eqn:Hpd; [|done].
  destruct (settle_frame (pending_promise pd) (Fulfilled payload)
              (Runtime.clearTimeout (pending_timeout pd) rt))
    as (_ & Hts & _).
  split; [|split]; simpl in *.
  - intros id' pd' [Hne Hpd']%lookup_delete_Some.
    destruct (H1 _ _ Hpd') as [Hp Ht]. split.
    + rewrite settle_promises_ne; [done|].
      intros Heq. apply Hne. by eapply H2.
    + rewrite Hts. simpl. by rewrite length_insert.
  - intros id1 id2 pd1 pd2 [_ Hl1]%lookup_delete_Some
      [_ Hl2]%lookup_delete_Some. by eapply H2.
  - intros tid t id p ms. rewrite Hts. simpl. intros Ht Ha.
    apply list_lookup_insert_Some in Ht.
    destruct Ht as [(_ & [=] & _)|[_ Ht]].
    destruct (H3 _ _ _ _ _ Ht Ha) as [Hb Hk]. split.
    + by rewrite settle_length.
    + intros id' pd' [_ Hpd']%lookup_delete_Some. by apply Hk.
Qed.

Lemma sound_created m timeout st :
  sound st → sound (BridgeStrategy.createPendingRequest m timeout st).2.
Proof.
  intros (H1 & H2 & H3). destruct st as [rt s].
  assert (∀ id pd, pendingRequests s !! id = Some pd →
            (pending_promise pd < length (promises rt))%nat) as Hlt.
  { intros id pd Hpd. destruct (H1 _ _ Hpd) as [Hp _].
    by eapply lookup_lt_Some. }
  split; [|split]; simpl in *.
  - intros id pd Hpd. rewrite length_app. simpl.
    destruct (decide (m = id)) as [<-|Hne].
    + rewrite lookup_insert_eq in Hpd. injection Hpd as <-. simpl.
      rewrite lookup_app_r by done. rewrite Nat.sub_diag. split; [done|lia].
    + rewrite lookup_insert_ne in Hpd by done.
      destruct (H1 _ _ Hpd) as [Hp Ht]. split; [|lia].
      rewrite lookup_app_l; [done|]. by eapply Hlt.
  - intros id1 id2 pd1 pd2 Hl1 Hl2 Heq.
    destruct (decide (m = id1)) as [<-|Hn1], (decide (m = id2)) as [<-|Hn2];
      try done.
    + rewrite lookup_insert_eq in Hl1. injection Hl1 as <-.
      rewrite lookup_insert_ne in Hl2 by done. apply Hlt in Hl2.
      simpl in Heq. lia.
    + rewrite lookup_insert_eq in Hl2. injection Hl2 as <-.
      rewrite lookup_insert_ne in Hl1 by done. apply Hlt in Hl1.
      simpl in Heq. lia.
    + rewrite lookup_insert_ne in Hl1, Hl2 by done. by eapply H2.
  - intros tid t id p ms Ht Ha. rewrite length_app. simpl.
    apply lookup_app_Some in Ht as [Ht|[Hlen Ht]].
    + destruct (H3 _ _ _ _ _ Ht Ha) as [Hb Hk]. split; [lia|].
      intros id' pd Hpd Hp.
      destruct (decide (m = id')) as [<-|Hne].
      * rewrite lookup_insert_eq in Hpd. injection Hpd as <-.
        simpl in Hp. lia.
      * rewrite lookup_insert_ne in Hpd by done. by eapply Hk.
    + apply list_lookup_singleton_Some in Ht as [_ [= <-]].
      simpl in Ha. injection Ha as <- <- <-. split; [lia|].
      intros id' pd Hpd Hp.
      destruct (decide (m = id')) as [|Hne]; [done|].
      rewrite lookup_insert_ne in Hpd by done. apply Hlt in Hpd. lia.
Qed.

Lemma sound_expired tid st :
  sound st → sound (BridgeStrategy.timer_fires tid st).
Proof.
  intros (H1 & H2 & H3). destruct st as [rt s].
  unfold BridgeStrategy.timer_fires.
  destruct (timers rt !! tid) as [[t|]|] eqn:Ht; [|done..].
  assert (∀ rt', promises rt' = promises rt →
            timers rt' = <[tid := None]> (timers rt) →
            sound (rt', s)) as Hframe.
  { intros rt' Hps Hts. split; [|split]; simpl in *.
    - intros id pd Hpd. rewrite Hps, Hts, length_insert. by eapply H1.
    - done.
    - intros tid' t' id p ms. rewrite Hps, Hts. intros Ht' Ha.
      apply list_lookup_insert_Some in Ht'.
      destruct Ht' as [(_ & [=] & _)|[_ Ht']]. by eapply H3. }
  destruct (action t) as [m q ms|ev pl|] eqn:Ha; [|by apply Hframe..].
  destruct (H3 _ _ _ _ _ Ht Ha) as [Hb Hk].
  destruct (settle_frame q (Rejected (BridgeStrategy.timeout_error ms))
              (Runtime.clearTimeout tid (Runtime.advance (due t) rt)))
    as (_ & Hts & _).
  split; [|split]; simpl in *.
  - intros id' pd' [Hne Hpd']%lookup_delete_Some.
    destruct (H1 _ _ Hpd') as [Hp Hlt]. split.
    + rewrite settle_promises_ne; [done|].
      intros Heq. apply Hne. symmetry. by eapply Hk.
    + rewrite Hts. simpl. by rewrite length_insert.
  - intros id1 id2 pd1 pd2 [_ Hl1]%lookup_delete_Some
      [_ Hl2]%lookup_delete_Some. by eapply H2.
  - intros tid' t' id p ms'. rewrite Hts. simpl. intros Ht' Ha'.
    apply list_lookup_insert_Some in Ht'.
    destruct Ht' as [(_ & [=] & _)|[_ Ht']].
    destruct (H3 _ _ _ _ _ Ht' Ha') as [Hb' Hk']. split.
    + by rewrite settle_length.
    + intros id' pd' [_ Hpd']%lookup_delete_Some. by apply Hk'.
Qed.

(** Whatever happens to a strategy, the invariant holds afterwards. *)
Lemma sound_happens h st : sound st → sound (happens h st).
Proof.
  intros Hs. destruct h as [data|tid|m timeout|t]; simpl.
  - destruct (handleMessage_cases data st)
      as [->|[(ev & pl & ->)|(ev & pl & m & pd & _ & _ & ->)]].
    + done.
    + by apply sound_emit.
    + apply (sound_emit ev pl (BridgeStrategy.resolvePendingRequest m pl st)).
      by apply sound_resolve.
  - by apply sound_expired.
  - by apply sound_created.
  - by destruct Hs as (H1 & H2 & H3).
Qed.

(** Every state a new strategy reaches is within bounds and has only
    unsettled promises pending: the hypotheses of the two theorems on
    timing out and on disconnecting hold wherever the program gets. *)
Lemma reachable_sound (hs : list Happening) :
  let st := history hs (Runtime.start, BridgeStrategy.new) in
  sound st ∧ in_bounds st ∧ pending_unsettled st.1 st.2.
Proof.
  assert (∀ st, sound st → sound (history hs st)) as H.
  { unfold history. induction hs as [|h hs IH]; intros st Hs; simpl; [done|].
    by apply IH, sound_happens. }
  intros st. assert (sound st) as Hs by apply H, sound_new.
  split; [done|]. split; [by apply sound_in_bounds|].
  by apply sound_pending_unsettled.
Qed.

(** ** Disconnecting with requests pending *)

Lemma cleanup_entry_promises (x : string * PendingRequest) (rt : Runtime) p :
  promises (BridgeStrategy.cleanup_entry x rt) !! p
  = if decide (p = pending_promise x.2)
    then match promises rt !! p with
         | Some Unsettled => Some (Rejected BridgeStrategy.closed_error)
         | o => o
         end
    else promises rt !! p.
Proof.
  unfold BridgeStrategy.cleanup_entry.
  set (rt1 := Runtime.clearTimeout _ rt).
  change (promises rt !! p) with (promises rt1 !! p).
  destruct (decide (p = pending_promise x.2)) as [->|Hne].
  - destruct (promises rt1 !! pending_promise x.2) as [[]|] eqn:E.
    + by apply settle_promises_eq.
    + rewrite settle_settled; [done|by rewrite E].
    + rewrite settle_settled; [done|by rewrite E].
    + rewrite settle_settled; [done|by rewrite E].
  - by apply settle_promises_ne.
Qed.

Lemma cleanup_entry_timers (x : string * PendingRequest) (rt : Runtime) i t :
  timers (BridgeStrategy.cleanup_entry x rt) !! i = Some (Some t) →
  timers rt !! i = Some (Some t) ∧ i ≠ pending_timeout x.2.
Proof.
  unfold BridgeStrategy.cleanup_entry.
  destruct (settle_frame (pending_promise x.2)
              (Rejected BridgeStrategy.closed_error)
              (Runtime.clearTimeout (pending_timeout x.2) rt)) as (_ & -> & _).
  simpl. intros H.
  destruct (decide (i = pending_timeout x.2)) as [->|Hne].
  - apply list_lookup_insert_Some in H. naive_solver.
  - by rewrite list_lookup_insert_ne in H.
Qed.

(** The [forEach] of [cleanup] rejects the promise of every entry it goes
    over, leaves the other promises alone, and leaves no entry's timer
    set. *)
Lemma cleanup_fold (l : list (string * PendingRequest)) (rt : Runtime) :
  let rt' := foldr BridgeStrategy.cleanup_entry rt l in
  (∀ p, promises rt !! p = Some Unsettled →
     promises rt' !! p
     = Some (if decide (p ∈ (pending_promise ∘ snd) <$> l)
             then Rejected BridgeStrategy.closed_error else Unsettled))
  ∧ (∀ x t, x ∈ l → timers rt' !! pending_timeout x.2 ≠ Some (Some t))
  ∧ (∀ i t, timers rt' !! i = Some (Some t) → timers rt !! i = Some (Some t)).
Proof.
  induction l as [|x l IH]; cbv zeta; cbn [foldr].
  - split; [done|]. split; [|done]. intros x t Hx. by apply elem_of_nil in Hx.
  - destruct IH as (IHp & IHt & IHm). split; [|split].
    + intros p Hp. rewrite cleanup_entry_promises, (IHp p Hp), fmap_cons.
      change ((pending_promise ∘ snd) x) with (pending_promise x.2).
      destruct (decide (p = pending_promise x.2)) as [->|Hne].
      * rewrite (decide_True (P := _ ∈ _ :: _)) by (by left).
        by destruct (decide _).
      * destruct (decide (p ∈ _ <$> l)) as [Hin|Hin].
        -- by rewrite decide_True by (by right).
        -- rewrite decide_False; [done|].
           intros [?|?]%elem_of_cons; done.
    + intros y t [->|Hy]%elem_of_cons H;
        apply cleanup_entry_timers in H as [H Hne]; [done|].
      by eapply IHt.
    + intros i t H. apply cleanup_entry_timers in H as [H _]. by apply IHm.
Qed.

Lemma cleanup_spec (rt : Runtime) (s : BridgeStrategy) :
  pending_unsettled rt s →
  let r := BridgeStrategy.cleanup (rt, s) in
  (∀ id pd, pendingRequests s !! id = Some pd →
     promises r.1 !! pending_promise pd
     = Some (Rejected BridgeStrategy.closed_error)
     ∧ ∀ t, timers r.1 !! pending_timeout pd ≠ Some (Some t))
  ∧ pendingRequests r.2 = ∅
  ∧ connectionStatus r.2 = connectionStatus s.
Proof.
  intros Hwf. simpl. split; [|done].
  intros id pd Hpd.
  destruct (cleanup_fold (map_to_list (pendingRequests s)) rt)
    as (Hp & Ht & _).
  assert ((id, pd) ∈ map_to_list (pendingRequests s)) as Hin
    by by apply elem_of_map_to_list.
  split.
  - rewrite (Hp _ (Hwf _ _ Hpd)). rewrite decide_True; [done|].
    apply list_elem_of_fmap. by exists (id, pd).
  - intros t. apply (Ht (id, pd) t Hin).
Qed.

Lemma disconnect_base (rt : Runtime) (s : BridgeStrategy) :
  pending_unsettled rt s →
  let r := BridgeStrategy.cleanup
             (BridgeStrategy.updateConnectionStatus disconnected (rt, s)) in
  (∀ id pd, pendingRequests s !! id = Some pd →
     promises r.1 !! pending_promise pd
     = Some (Rejected BridgeStrategy.closed_error)
     ∧ ∀ t, timers r.1 !! pending_timeout pd ≠ Some (Some t))
  ∧ pendingRequests r.2 = ∅
  ∧ connectionStatus r.2 = disconnected.
Proof.
  intros Hwf.
  exact (cleanup_spec
           (Runtime.emit "connectionStatusChanged"
              (JStr (status_name disconnected)) rt)
           {| connectionStatus := disconnected;
              lastActivity := lastActivity s;
              messageIdCounter := messageIdCounter s;
              pendingRequests := pendingRequests s |} Hwf).
Qed.

Lemma strategy_connect_pending (win : WindowWithBridge) (fault : option Error)
    (rt : Runtime) (s : Strategy) (n : nat) :
  let b := BridgeService.strategy_connect_begin win (rt, s) in
  let f := BridgeService.strategy_connect_finish fault
             {| awaited := n; settled := b.2 |} (b.1.1, b.1.2) in
  pendingRequests (strategy_base f.1.2) = pendingRequests (strategy_base s).
Proof.
  destruct s as [[b mh]|[b cb]|[b ms rs ss]]; cbv zeta;
    unfold BridgeService.strategy_connect_begin,
      BridgeService.strategy_connect_finish; cbn [fst snd settled].
  - unfold WindowsBridge.connect, WindowsBridge.setupListeners; simpl.
    destruct (chrome_webview win ≫= webview_addEventListener) as [[]|]; simpl;
      [|destruct (Windows win) as [w|]; simpl;
          [destruct (reply_error _); simpl
          |destruct (chrome_webview win) as [wv|]; simpl;
             [destruct (reply_error _); simpl
             |destruct (present (asyncBridge win)); simpl]]..]; done.
  - unfold AndroidBridge.connect; simpl. by destruct (_ || _).
  - unfold WebBridge.connect_finish, WebBridge.connect_begin; simpl.
    by destruct fault.
Qed.

(** C6.  For each of the three strategies, when every pending request
    waits on a promise that is not settled yet: [disconnect()] rejects the
    promise of every pending request with "Connection closed", leaves none
    of their timers set, empties the table and leaves the strategy
    [disconnected]; and after a [connect()] that follows, whether it
    succeeds or fails, the table is still empty. *)
Theorem C6_disconnect_rejects_every_pending_request
    (win : WindowWithBridge) (fault : option Error) (st : Runtime * Strategy) :
  pending_unsettled st.1 (strategy_base st.2) →
  let d := (BridgeService.strategy_disconnect st).1 in
  let b := BridgeService.strategy_connect_begin win d in
  let r := BridgeService.strategy_connect_finish fault
             {| awaited := 0; settled := b.2 |} (b.1.1, b.1.2) in
  (∀ id pd, pendingRequests (strategy_base st.2) !! id = Some pd →
     promises d.1 !! pending_promise pd
     = Some (Rejected (mkError "Connection closed"))
     ∧ ∀ t, timers d.1 !! pending_timeout pd ≠ Some (Some t))
  ∧ pendingRequests (strategy_base d.2) = ∅
  ∧ connectionStatus (strategy_base d.2) = disconnected
  ∧ pendingRequests (strategy_base r.1.2) = ∅.
Proof.
  intros Hwf d b r.
  assert ((∀ id pd, pendingRequests (strategy_base st.2) !! id = Some pd →
             promises d.1 !! pending_promise pd
             = Some (Rejected BridgeStrategy.closed_error)
             ∧ ∀ t, timers d.1 !! pending_timeout pd ≠ Some (Some t))
          ∧ pendingRequests (strategy_base d.2) = ∅
          ∧ connectionStatus (strategy_base d.2) = disconnected)
    as (Hrej & Hempty & Hstatus).
  { subst d. destruct st as [rt [[s mh]|[s cb]|[s ms rs ss]]];
      apply (disconnect_base rt s Hwf). }
  split; [exact Hrej|]. split; [exact Hempty|]. split; [exact Hstatus|].
  subst r b. destruct d as [rt' s']. cbn [fst snd].
  rewrite strategy_connect_pending. exact Hempty.
Qed.

(** The theorem at work: a mobile strategy with three round trips under
    way is disconnected; all three promises are rejected with "Connection
    closed" and the table is empty. *)
Lemma C6_disconnect_witness :
  let st := (three_pending.1, OfAndroid three_pending.2) in
  let d := (BridgeService.strategy_disconnect st).1 in
  size (pendingRequests (strategy_base st.2)) = 3
  ∧ promises st.1 = [Unsettled; Unsettled; Unsettled]
  ∧ promises d.1
    = [Rejected (mkError "Connection closed");
       Rejected (mkError "Connection closed");
       Rejected (mkError "Connection closed")]
  ∧ pendingRequests (strategy_base d.2) = ∅
  ∧ connectionStatus (strategy_base d.2) = disconnected.
Proof.
  intros st d.
  assert (pending_unsettled st.1 (strategy_base st.2)) as Hwf.
  { intros id pd. rewrite <- elem_of_map_to_list.
    vm_compute (map_to_list _). rewrite !elem_of_cons, elem_of_nil.
    intros [[= -> ->]|[[= -> ->]|[[= -> ->]|[]]]]; reflexivity. }
  pose proof (C6_disconnect_rejects_every_pending_request
                mobile_host None st Hwf) as (_ & Hempty & Hstatus & _).
  split; [by vm_compute|]. split; [by vm_compute|]. split; [by vm_compute|].
  split; [exact Hempty|exact Hstatus].
Defined.

(** ** The minimum roster size *)

Lemma find_student_elem id w student :
  WebBridge.find_student id w = Some student →
  student ∈ mockStudents w ∧ studentId student = id.
Proof.
  unfold WebBridge.find_student. intros H.
  apply List.find_some in H as [Hin Heq].
  split; [by apply list_elem_of_In|by apply String.eqb_eq].
Qed.

Lemma filter_agree {A} (P Q : A → Prop) `{!∀ x, Decision (P x)}
    `{!∀ x, Decision (Q x)} (l : list A) :
  (∀ x, x ∈ l → P x ↔ Q x) → filter P l = filter Q l.
Proof.
  induction l as [|a l IH]; intros Hall; [done|].
  assert (filter P l = filter Q l) as Hl.
  { apply IH. intros x Hx. apply Hall. by right. }
  destruct (decide (P a)) as [Ha|Ha].
  - rewrite !filter_cons_True; [by rewrite Hl| |done].
    apply Hall; [left|done].
  - rewrite !filter_cons_False; [done| |done].
    intros Hq. apply Ha, Hall; [left|done].
Qed.

(** Removing an active student of a roster without duplicate ids takes
    exactly one entry off the active list. *)
Lemma active_after_removal (ms : list Student) (removed : gset string) id :
  NoDup (studentId <$> ms) →
  id ∈ studentId <$> ms →
  id ∉ removed →
  S (length (filter (λ s, studentId s ∉ {[id]} ∪ removed) ms))
  = length (filter (λ s, studentId s ∉ removed) ms).
Proof.
  intros Hnd Hin Hfree.
  induction ms as [|s ms IH]; [by apply elem_of_nil in Hin|].
  rewrite fmap_cons in Hnd, Hin.
  apply NoDup_cons in Hnd as [Hs Hnd].
  destruct (decide (studentId s = id)) as [Heq|Hne].
  - rewrite filter_cons_False by set_solver.
    rewrite filter_cons_True by set_solver.
    simpl. f_equal. f_equal. apply filter_agree. intros x Hx.
    assert (studentId x ≠ id); [|set_solver].
    intros Hxid. apply Hs. rewrite Heq, <- Hxid.
    by apply list_elem_of_fmap_2.
  - apply elem_of_cons in Hin as [Hin|Hin]; [congruence|].
    destruct (decide (studentId s ∈ removed)).
    + rewrite !filter_cons_False by set_solver. by apply IH.
    + rewrite !filter_cons_True by set_solver. simpl. f_equal. by apply IH.
Qed.

(** ** What the native strategies do with a removal *)

(** AndroidBridge hands the request to [Android.studentRemoved] when the
    host has it and returns the host's answer, normalised; it publishes
    nothing and looks at no roster. *)
Lemma android_studentRemoved_forwards (win : WindowWithBridge)
    (api : AndroidApi) (fn : StudentEvent → HostReply) (event : StudentEvent)
    (v : JsVal) (st : Runtime * AndroidBridge) :
  Android win = Some api →
  Android_studentRemoved api = Some fn →
  fn event = Returns v →
  AndroidBridge.studentRemoved win event st
  = (AndroidBridge.lift BridgeStrategy.updateLastActivity st,
     Completed (Done (JBool (AndroidBridge.parseBooleanResponse v)))).
Proof.
  intros Ha Hf Hv. unfold AndroidBridge.studentRemoved.
  rewrite Ha; simpl. rewrite Hf, Hv. done.
Qed.

(** WindowsBridge hands the request to [asyncBridge.studentRemoved] when
    the host has it and returns the host's answer, normalised. *)
Lemma windows_studentRemoved_forwards
    (win : WindowWithBridge) (api : AsyncBridgeApi)
    (fn : option StudentEvent → HostReply) (event : StudentEvent)
    (v : JsVal) (st : Runtime * WindowsBridge) :
  asyncBridge win = Some api →
  async_studentRemoved api = Some fn →
  fn (Some event) = Returns v →
  truthy v && typeof_object v = false →
  (WindowsBridge.studentRemoved win event st).2
  = Completed (Done (WindowsBridge.parseBooleanResponse v)).
Proof.
  intros Ha Hf Hv Hplain. destruct st as [rt [b mh]].
  unfold WindowsBridge.studentRemoved, WindowsBridge.callAsyncBridge.
  rewrite Ha; simpl. rewrite Hf; simpl.
  change (async_member "studentRemoved" api) with (async_studentRemoved api).
  rewrite Hf, Hv, Hplain. done.
Qed.

(** C1 (as the code has it).  In the browser-only strategy, for a roster
    without duplicate ids and a request that names an active student: with
    at most 2 active students the request returns [false], leaves the
    strategy's roster as it is, and sets a timer that publishes an [error]
    event with code MIN_STUDENTS_REQUIRED; with more than 2 it returns
    [true] and leaves one active student fewer, at least 2.  With exactly 3
    active students the removal therefore leaves 2, and whatever is asked
    to be removed next is refused with the roster unchanged at 2.  A
    request that names no student of the roster, or one removed already,
    returns [false] in every state, leaves the roster as it is, publishes
    nothing and leaves no timer scheduled that was not scheduled before:
    no [error] event follows it.  Where the host
    has [Android.studentRemoved], the mobile strategy returns what that
    function answers, normalised by its [parseBooleanResponse], publishes
    nothing and sets no timer; where the host has
    [asyncBridge.studentRemoved] and it answers with a value that is not
    an object, the desktop strategy returns that value, normalised by its
    [parseBooleanResponse]: neither looks at a number of students
    there. *)
Theorem C1_web_minimum_roster :
  (∀ (st : Runtime * WebBridge) (event : StudentEvent) (student : Student),
     NoDup (studentId <$> mockStudents st.2) →
     WebBridge.find_student (eventStudentId event) st.2 = Some student →
     eventStudentId event ∉ removedStudents st.2 →
     let r := WebBridge.studentRemoved event st in
     let n := length (WebBridge.active st.2) in
     ((n ≤ 2)%nat →
        r.2 = false ∧ r.1.2 = st.2
        ∧ emitted (WebBridge.timer_fires (length (timers st.1)) r.1).1
          = (emitted st.1 ++ [("error", WebBridge.min_students_error)])%list
        ∧ Js.get "code" WebBridge.min_students_error
          = JStr "MIN_STUDENTS_REQUIRED")
     ∧ ((2 < n)%nat →
        r.2 = true
        ∧ S (length (WebBridge.active r.1.2)) = n
        ∧ (2 ≤ length (WebBridge.active r.1.2))%nat)
     ∧ (n = 3 → ∀ next,
        let r' := WebBridge.studentRemoved next r.1 in
        length (WebBridge.active r.1.2) = 2
        ∧ r'.2 = false
        ∧ WebBridge.active r'.1.2 = WebBridge.active r.1.2))
  ∧ (∀ (st : Runtime * WebBridge) (event : StudentEvent),
       WebBridge.find_student (eventStudentId event) st.2 = None
       ∨ eventStudentId event ∈ removedStudents st.2 →
       let r := WebBridge.studentRemoved event st in
       r.2 = false ∧ r.1.2 = st.2
       ∧ emitted r.1.1 = emitted st.1
       ∧ (∀ tid t, timers r.1.1 !! tid = Some (Some t) →
                   timers st.1 !! tid = Some (Some t)))
  ∧ (∀ (win : WindowWithBridge) (api : AndroidApi)
       (fn : StudentEvent → HostReply) (event : StudentEvent) (v : JsVal)
       (st : Runtime * AndroidBridge),
       Android win = Some api →
       Android_studentRemoved api = Some fn →
       fn event = Returns v →
       let r := AndroidBridge.studentRemoved win event st in
       r.2 = Completed (Done (JBool (AndroidBridge.parseBooleanResponse v)))
       ∧ timers r.1.1 = timers st.1 ∧ emitted r.1.1 = emitted st.1)
  ∧ (∀ (win : WindowWithBridge) (api : AsyncBridgeApi)
       (fn : option StudentEvent → HostReply) (event : StudentEvent)
       (v : JsVal) (st : Runtime * WindowsBridge),
       asyncBridge win = Some api →
       async_studentRemoved api = Some fn →
       fn (Some event) = Returns v →
       truthy v && typeof_object v = false →
       (WindowsBridge.studentRemoved win event st).2
       = Completed (Done (WindowsBridge.parseBooleanResponse v))).
Proof.
  split; [|split; [|split]].
  - intros st event student Hnd Hfind Hfree r n.
    destruct (find_student_elem _ _ _ Hfind) as [Hin Hid].
    assert (eventStudentId event ∈ studentId <$> mockStudents st.2) as Hmem.
    { rewrite <- Hid. by apply list_elem_of_fmap_2. }
    pose proof (active_after_removal _ _ _ Hnd Hmem Hfree) as Hlen.
    assert ((2 < n)%nat →
            r.2 = true ∧ S (length (WebBridge.active r.1.2)) = n
            ∧ removedStudents r.1.2
              = {[eventStudentId event]} ∪ removedStudents st.2
            ∧ mockStudents r.1.2 = mockStudents st.2) as Hbig.
    { intros Hn. subst r n. unfold WebBridge.studentRemoved; simpl.
      rewrite Hfind. rewrite bool_decide_eq_false_2 by done.
      destruct (_ <=? 2)%nat eqn:E; [apply Nat.leb_le in E; lia|]. simpl.
      unfold WebBridge.active; simpl. by rewrite Hlen. }
    split; [|split].
    + intros Hn. subst r n. unfold WebBridge.studentRemoved; simpl.
      rewrite Hfind. rewrite bool_decide_eq_false_2 by done.
      destruct (_ <=? 2)%nat eqn:E; [|apply Nat.leb_gt in E; lia]. simpl.
      split; [done|]. split; [by destruct st as [? []]|]. split; [|done].
      unfold WebBridge.timer_fires, WebBridge.lift,
        BridgeStrategy.timer_fires; simpl.
      rewrite lookup_app_r by done. rewrite Nat.sub_diag. by simpl.
    + intros Hn. destruct (Hbig Hn) as (? & ? & _).
      repeat split; [done..|lia].
    + intros Hn next r'. destruct Hbig as (Ht & Hl & Hrem & Hms); [lia|].
      assert (length (WebBridge.active r.1.2) = 2) as H2 by lia.
      split; [done|].
      subst r'. unfold WebBridge.studentRemoved at 1 2.
      set (st1 := WebBridge.simulateDelay 200 r.1).
      assert (WebBridge.active st1.2 = WebBridge.active r.1.2) as Hst1 by done.
      cbv zeta.
      destruct (WebBridge.find_student (eventStudentId next) _); [|by split].
      case_bool_decide; [by split|].
      rewrite Hst1, H2. change (2 <=? 2)%nat with true. cbv iota.
      by split.
  - intros st event Hquiet r. subst r.
    unfold WebBridge.studentRemoved.
    set (st1 := WebBridge.simulateDelay 200 st).
    assert (st1.2 = st.2 ∧ emitted st1.1 = emitted st.1
            ∧ timers st1.1 = timers st.1) as (Hw & Hev & Htm) by done.
    cbv zeta. rewrite Hw.
    destruct (WebBridge.find_student (eventStudentId event) st.2) as [s|];
      [|done].
    destruct Hquiet as [|Hrem]; [done|].
    by rewrite bool_decide_eq_true_2.
  - intros win api fn event v st Ha Hf Hv r. subst r.
    rewrite (android_studentRemoved_forwards win api fn event v st Ha Hf Hv).
    by destruct st as [rt [b cb]].
  - intros win api fn event v st.
    apply windows_studentRemoved_forwards.
Qed.

(** The theorem at work.  The simulation with 17 students removed has 3
    active ones, and removing "3" succeeds and leaves 2; with 18 removed,
    a request for the unknown "99" is refused and schedules nothing; the
    mobile strategy connected to a host that acknowledges every removal
    returns [true]; and so does the desktop strategy connected to a shell
    whose [asyncBridge.studentRemoved] answers with the string "1". *)
Lemma C1_web_minimum_roster_witness :
  let st := web_after_removing (seed_ids_from 3) in
  let r := WebBridge.studentRemoved {| eventStudentId := "3" |} st in
  let w := web_after_removing (seed_ids_from 2) in
  let q := WebBridge.studentRemoved {| eventStudentId := "99" |} w in
  let host := acknowledging_host two_students in
  let a := (AndroidBridge.connect host (Runtime.start, AndroidBridge.new)).1 in
  let m := AndroidBridge.studentRemoved host {| eventStudentId := "1" |} a in
  let answers :=
    {| async_getStudentList := None; async_studentPicked := None;
       async_studentRemoved := Some (λ _, Returns (JStr "1")) |} in
  let shell :=
    {| Windows := Some {| Windows_receiveMessage := λ _, quiet_reply |};
       chrome := None; Android := None; asyncBridge := Some answers;
       electronAPI := None; userAgent := "Mozilla/5.0 (Windows NT 10.0)" |} in
  let d := (WindowsBridge.connect shell (Runtime.start, WindowsBridge.new)).1 in
  (r.2 = true
   ∧ S (length (WebBridge.active r.1.2)) = length (WebBridge.active st.2)
   ∧ (2 ≤ length (WebBridge.active r.1.2))%nat)
  ∧ (q.2 = false ∧ q.1.2 = w.2
     ∧ emitted q.1.1 = emitted w.1
     ∧ (∀ tid t, timers q.1.1 !! tid = Some (Some t) →
                 timers w.1 !! tid = Some (Some t)))
  ∧ (m.2 = Completed (Done (JBool true))
     ∧ timers m.1.1 = timers a.1 ∧ emitted m.1.1 = emitted a.1)
  ∧ platform (PlatformDetector.detect shell) = windows
  ∧ (WindowsBridge.studentRemoved shell {| eventStudentId := "1" |} d).2
    = Completed (Done (JBool true)).
Proof.
  intros st r w q host a m answers shell d.
  destruct C1_web_minimum_roster as (Hactive & Hquiet & Hmobile & Hdesktop).
  split; [|split; [|split; [|split; [reflexivity|]]]].
  - refine (proj1 (proj2 (Hactive st {| eventStudentId := "3" |}
              {| studentId := "3"; name := "春野櫻"; seatNumber := Some "3" |}
              _ _ _)) _).
    + match goal with |- ?P => apply (@bool_decide_unpack P _) end.
      vm_compute. exact I.
    + vm_compute. reflexivity.
    + match goal with |- ?P => apply (@bool_decide_unpack P _) end.
      vm_compute. exact I.
    + vm_compute. lia.
  - apply (Hquiet w {| eventStudentId := "99" |}).
    left. vm_compute. reflexivity.
  - apply (Hmobile host _ (λ _, Returns (JBool true))
             {| eventStudentId := "1" |} (JBool true) a eq_refl eq_refl
             eq_refl).
  - apply (Hdesktop shell answers (λ _, Returns (JStr "1"))
             {| eventStudentId := "1" |} (JStr "1") d eq_refl eq_refl
             eq_refl eq_refl).
Defined.

(** C1, refuted as stated.  The mobile strategy holds no roster: against a
    host whose roster has 2 entries and which acknowledges the removal, it
    returns [true] and neither publishes nor schedules an [error] event.
    And in the browser-only strategy with 2 active students, a request
    naming an unknown student returns [false] without any [error] event
    being scheduled. *)
Lemma C1_minimum_roster_counterexample :
  let host := acknowledging_host two_students in
  let st := (AndroidBridge.connect host (Runtime.start, AndroidBridge.new)).1 in
  let l := AndroidBridge.getStudentList (λ _, None) host st in
  let r := AndroidBridge.studentRemoved host {| eventStudentId := "1" |} l.1 in
  let w := web_after_removing (seed_ids_from 2) in
  let r' := WebBridge.studentRemoved {| eventStudentId := "99" |} w in
  connectionStatus (android_base st.2) = connected
  ∧ l.2 = Completed (Done (JArr (student_js <$> two_students)))
  ∧ r.2 = Completed (Done (JBool true))
  ∧ timers r.1.1 = timers Runtime.start
  ∧ Forall (λ e, e.1 ≠ "error") (emitted r.1.1)
  ∧ length (WebBridge.active w.2) = 2
  ∧ r'.2 = false
  ∧ timers r'.1.1 = timers w.1.
Proof.
  vm_compute. repeat split.
  repeat constructor; discriminate.
Qed.

(** ** WebBridge: the end-to-end run *)

(** C7.  On a newly constructed simulation in a new runtime: [connect]
    succeeds; [getStudentList] returns the 20 seed students; picking "5"
    returns [true] and the timer it set publishes [studentPickedResponse]
    with the entry of student "5"; removing "5" returns [true] and leaves
    19 active students; removing "5" again returns [false], "5" being in
    the removed set, and changes neither the roster nor the timers. *)
Theorem C7_web_end_to_end :
  let five := {| eventStudentId := "5" |} in
  let c := WebBridge.connect (Runtime.start, WebBridge.new) in
  let l := WebBridge.getStudentList c.1 in
  let p := WebBridge.studentPicked five l.1 in
  let r := WebBridge.studentRemoved five p.1 in
  let r' := WebBridge.studentRemoved five r.1 in
  c.2 = Done ()
  ∧ connectionStatus (web_base c.1.2) = connected
  ∧ l.2 = MOCK_STUDENTS ∧ length l.2 = 20
  ∧ p.2 = true
  ∧ (let fired := WebBridge.timer_fires (length (timers l.1.1)) p.1 in
     last (emitted fired.1)
     = Some ("studentPickedResponse",
             JObj [("success", JBool true); ("studentId", JStr "5");
                   ("student",
                    JObj [("studentId", JStr "5"); ("name", JStr "路飛");
                          ("seatNumber", JStr "5")])]))
  ∧ MOCK_STUDENTS !! 4
    = Some {| studentId := "5"; name := "路飛"; seatNumber := Some "5" |}
  ∧ r.2 = true ∧ length (WebBridge.active r.1.2) = 19
  ∧ r'.2 = false
  ∧ "5" ∈ removedStudents r.1.2
  ∧ WebBridge.active r'.1.2 = WebBridge.active r.1.2
  ∧ timers r'.1.1 = timers r.1.1.
Proof. by vm_compute. Qed.

(** ** The coordinator *)

Lemma connect_begin_spec (win : WindowWithBridge) (c : BridgeService) :
  let p := platform (PlatformDetector.detect win) in
  let r := BridgeService.strategy_connect_begin win
             (runtime c, BridgeService.createStrategy p) in
  BridgeService.connect_begin win c
  = ({| runtime := r.1.1;
        instances := instances c ++ [r.1.2];
        strategy := Some (length (instances c));
        service_platform := p;
        connectionRetryCount := connectionRetryCount c;
        maxRetries := maxRetries c;
        retryTimeout := retryTimeout c |},
     {| awaited := length (instances c); settled := r.2 |}).
Proof.
  unfold BridgeService.connect_begin, BridgeService.assign_strategy,
    BridgeService.on_instance; simpl.
  rewrite lookup_app_r by done. rewrite Nat.sub_diag; simpl.
  rewrite insert_app_r_alt by done. by rewrite Nat.sub_diag.
Qed.

(** C4 (as the code has it).  [connect()] has no guard against a call in
    flight: every call, whatever the state of the service, constructs one
    more strategy object and makes it the strategy the service refers to
    and awaits; the objects constructed before, the one a suspended earlier
    call awaits included, are left exactly as they are. *)
Theorem C4_every_connect_constructs_a_strategy
    (win : WindowWithBridge) (c : BridgeService) :
  let r := BridgeService.connect_begin win c in
  length (instances r.1) = S (length (instances c))
  ∧ strategy r.1 = Some (length (instances c))
  ∧ awaited r.2 = length (instances c)
  ∧ take (length (instances c)) (instances r.1) = instances c.
Proof.
  cbv zeta. rewrite connect_begin_spec. simpl.
  rewrite length_app, take_app_length. simpl. repeat split; lia.
Qed.

(** C4, refuted as stated: in a plain browser a second [connect()] made
    while the first is suspended, its strategy still [connecting],
    constructs a second strategy object.  Both are live, and when both
    calls have resumed both are connected, the service referring to the
    second only. *)
Lemma C4_reentrant_connect_counterexample :
  let first := BridgeService.connect_begin browser BridgeService.new in
  let second := BridgeService.connect_begin browser first.1 in
  let done1 := BridgeService.connect_resume None first.2 second.1 in
  let done2 := BridgeService.connect_resume None second.2 done1.1 in
  settled first.2 = None
  ∧ (connectionStatus ∘ strategy_base <$> BridgeService.current first.1)
    = Some connecting
  ∧ length (instances second.1) = 2
  ∧ length (BridgeService.live second.1) = 2
  ∧ awaited first.2 ≠ awaited second.2
  ∧ (connectionStatus ∘ strategy_base <$> instances done2.1)
    = [connected; connected]
  ∧ strategy done2.1 = Some 1.
Proof. vm_compute. repeat split; congruence. Qed.

Lemma windows_connect_spec (win : WindowWithBridge) (st : Runtime * WindowsBridge) :
  let r := WindowsBridge.connect win st in
  (∃ evs, emitted r.1.1 = (emitted st.1 ++ evs)%list
          ∧ Forall (λ ev, ev.1 = "connectionStatusChanged") evs)
  ∧ timers r.1.1 = timers st.1
  ∧ (∀ e, r.2 = Failed e → connectionStatus (windows_base r.1.2) = error).
Proof.
  destruct st as [rt [b mh]].
  unfold WindowsBridge.connect, WindowsBridge.setupListeners; simpl.
  destruct (chrome_webview win ≫= webview_addEventListener) as [[]|]; simpl;
    [|destruct (Windows win) as [w|]; simpl;
        [destruct (reply_error _); simpl
        |destruct (chrome_webview win) as [wv|]; simpl;
           [destruct (reply_error _); simpl
           |destruct (present (asyncBridge win)); simpl]]..].
  all: rewrite <- ?app_assoc.
  all: split; [eexists; split; [reflexivity|by repeat constructor]|].
  all: split; [done|]; done.
Qed.

Lemma android_connect_spec (win : WindowWithBridge) (st : Runtime * AndroidBridge) :
  let r := AndroidBridge.connect win st in
  (∃ evs, emitted r.1.1 = (emitted st.1 ++ evs)%list
          ∧ Forall (λ ev, ev.1 = "connectionStatusChanged") evs)
  ∧ timers r.1.1 = timers st.1
  ∧ (∀ e, r.2 = Failed e → connectionStatus (android_base r.1.2) = error).
Proof.
  destruct st as [rt [b cb]].
  unfold AndroidBridge.connect; simpl.
  destruct (_ || _); simpl.
  all: rewrite <- ?app_assoc.
  all: split; [eexists; split; [reflexivity|by repeat constructor]|].
  all: split; [done|]; done.
Qed.

Lemma web_connect_spec (fault : option Error) (st : Runtime * WebBridge) :
  let r := WebBridge.connect_finish fault (WebBridge.connect_begin st) in
  (∃ evs, emitted r.1.1 = (emitted st.1 ++ evs)%list
          ∧ Forall (λ ev, ev.1 = "connectionStatusChanged") evs)
  ∧ timers r.1.1 = timers st.1
  ∧ (∀ e, r.2 = Failed e →
       connectionStatus (web_base r.1.2) = error ∧ fault = Some e)
  ∧ (r.2 = Done () → connectionStatus (web_base r.1.2) = connected).
Proof.
  destruct st as [rt [b ms rs ss]].
  unfold WebBridge.connect_finish, WebBridge.connect_begin; simpl.
  destruct fault; simpl.
  all: rewrite <- ?app_assoc.
  all: split; [eexists; split; [reflexivity|by repeat constructor]|].
  all: split; [done|]; split; [|done]; intros e'; by intros [= ->].
Qed.

(** A strategy's [connect()], from the call to its settling. *)
Lemma strategy_connect_spec (win : WindowWithBridge) (fault : option Error)
    (rt : Runtime) (s : Strategy) (n : nat) :
  let b := BridgeService.strategy_connect_begin win (rt, s) in
  let f := BridgeService.strategy_connect_finish fault
             {| awaited := n; settled := b.2 |} (b.1.1, b.1.2) in
  (∃ evs, emitted f.1.1 = (emitted rt ++ evs)%list
          ∧ Forall (λ ev, ev.1 = "connectionStatusChanged") evs)
  ∧ timers f.1.1 = timers rt
  ∧ (∀ e, f.2 = Failed e → connectionStatus (strategy_base f.1.2) = error).
Proof.
  destruct s as [w|a|w]; cbv zeta;
    unfold BridgeService.strategy_connect_begin,
      BridgeService.strategy_connect_finish; cbn [fst snd settled].
  - apply (windows_connect_spec win (rt, w)).
  - apply (android_connect_spec win (rt, a)).
  - destruct (web_connect_spec fault (rt, w)) as (He & Ht & Hf & _).
    split; [exact He|]. split; [exact Ht|].
    intros e H. by apply Hf in H as [? _].
Qed.

Lemma await_strategy_last (fault : option Error) (o : option (Outcome unit))
    (rt : Runtime) (l : list Strategy) (s : Strategy) (cur : option nat)
    (p : PlatformType) (count limit : nat) (timer : option nat) :
  let a := {| awaited := length l; settled := o |} in
  let f := BridgeService.strategy_connect_finish fault a (rt, s) in
  BridgeService.await_strategy fault a
    {| runtime := rt; instances := l ++ [s]; strategy := cur;
       service_platform := p; connectionRetryCount := count;
       maxRetries := limit; retryTimeout := timer |}
  = ({| runtime := f.1.1; instances := l ++ [f.1.2]; strategy := cur;
        service_platform := p; connectionRetryCount := count;
        maxRetries := limit; retryTimeout := timer |}, f.2).
Proof.
  unfold BridgeService.await_strategy, BridgeService.on_instance; simpl.
  rewrite lookup_app_r by done. rewrite Nat.sub_diag; simpl.
  rewrite insert_app_r_alt by done. by rewrite Nat.sub_diag.
Qed.

Lemma published_since_app (before after : Runtime) evs :
  emitted after = (emitted before ++ evs)%list →
  published_since before after = evs.
Proof. intros H. unfold published_since. by rewrite H, drop_app_length. Qed.

(** C10.  For a service with the retry limit 3: when the strategy's
    [connect()] fails and fewer than 3 retries were made, the service's
    [connect()] fulfils; what it published meanwhile contains no [error]
    event; the service is not connected; the retry count has gone up by
    one and a timer for the next attempt is set, due [2000 ms] times the
    new count from now.  And [connect()] rejects with an error only if 3
    retries were made already, the strategy's [connect()] failed, and the
    fallback's [connect()] failed with that error. *)
Theorem C10_failed_connect_fulfils_and_schedules_retry
    (win : WindowWithBridge) (fault : option Error) (c : BridgeService) :
  maxRetries c = 3 →
  let b := BridgeService.connect_begin win c in
  let s := BridgeService.await_strategy fault b.2 b.1 in
  let r := BridgeService.connect win fault c in
  (∀ e, s.2 = Failed e → (connectionRetryCount c < 3)%nat →
     r.2 = Done ()
     ∧ Forall (λ ev, ev.1 ≠ "error") (published_since (runtime c) (runtime r.1))
     ∧ BridgeService.isConnected r.1 = false
     ∧ connectionRetryCount r.1 = S (connectionRetryCount c)
     ∧ retryTimeout r.1 = Some (length (timers (runtime c)))
     ∧ timers (runtime r.1) !! length (timers (runtime c))
       = Some (Some {| due := (now (runtime r.1)
                               + 2000 * N.of_nat (S (connectionRetryCount c)))%N;
                       action := RetryConnect |}))
  ∧ (∀ e, r.2 = Failed e →
     (3 ≤ connectionRetryCount c)%nat
     ∧ (∃ e0, s.2 = Failed e0)
     ∧ fault = Some e).
Proof.
  intros Hmax b s r. subst b s r.
  unfold BridgeService.connect, BridgeService.connect_resume.
  rewrite connect_begin_spec. cbn [fst snd].
  set (p := platform (PlatformDetector.detect win)).
  set (bs := BridgeService.strategy_connect_begin win
               (runtime c, BridgeService.createStrategy p)).
  rewrite await_strategy_last.
  destruct (strategy_connect_spec win fault (runtime c)
              (BridgeService.createStrategy p) (length (instances c)))
    as ((evs & Hev & Hst) & Htm & Hfail).
  fold bs in Hev, Htm, Hfail |- *. cbv zeta in Hev, Htm, Hfail.
  set (f := BridgeService.strategy_connect_finish fault
              {| awaited := length (instances c); settled := bs.2 |}
              (bs.1.1, bs.1.2))
    in Hev, Htm, Hfail |- *.
  cbn [fst snd].
  destruct (f.2) as [[]|e0] eqn:Ef.
  - (* the strategy connected *)
    split; [by intros e [=]|]. by intros e [=].
  - (* the strategy failed *)
    unfold BridgeService.connect_settled.
    cbn [connectionRetryCount maxRetries runtime instances strategy
         service_platform retryTimeout].
    rewrite Hmax.
    destruct (connectionRetryCount c <? 3)%nat eqn:Elt.
    + apply Nat.ltb_lt in Elt.
      split; [|by intros e [=]].
      intros e _ _. cbn.
      split; [done|]. split.
      { erewrite published_since_app by exact Hev.
        eapply Forall_impl; [exact Hst|]. by intros ev ->. }
      split.
      { unfold BridgeService.isConnected, BridgeService.current; simpl.
        rewrite lookup_app_r by done. rewrite Nat.sub_diag; simpl.
        by rewrite (Hfail e0 eq_refl). }
      split; [done|]. rewrite Htm. split; [done|].
      rewrite lookup_app_r by done. by rewrite Nat.sub_diag.
    + apply Nat.ltb_ge in Elt.
      split; [intros; lia|].
      intros e. unfold BridgeService.fallback_begin,
        BridgeService.assign_strategy, BridgeService.on_instance.
      cbn [connectionRetryCount maxRetries runtime instances strategy
           service_platform retryTimeout fst snd].
      rewrite lookup_app_r by done. rewrite Nat.sub_diag.
      cbn [lookup list_lookup fst snd].
      rewrite insert_app_r_alt by done. rewrite Nat.sub_diag.
      cbn [insert list_insert fst snd].
      rewrite await_strategy_last.
      unfold BridgeService.strategy_connect_finish. cbn [settled snd fst].
      unfold BridgeService.fallback_settled.
      destruct fault as [e1|]; cbn; [|done].
      intros [= ->]. eauto.
Qed.

(** The theorem at work.  On a desktop shell whose receive-function
    throws, the first [connect()] of a new service fulfils and leaves one
    retry scheduled; after three such attempts, a [connect()] during which
    the fallback fails as well rejects with the fallback's error. *)
Lemma C10_failed_connect_witness :
  let r := BridgeService.connect broken_host None BridgeService.new in
  let worn := service_after_failures broken_host 3 in
  let boom := mkError "simulation failed" in
  (r.2 = Done ()
   ∧ Forall (λ ev, ev.1 ≠ "error")
       (published_since (runtime BridgeService.new) (runtime r.1))
   ∧ BridgeService.isConnected r.1 = false
   ∧ connectionRetryCount r.1 = 1
   ∧ retryTimeout r.1 = Some 1
   ∧ timers (runtime r.1) !! 1
     = Some (Some {| due := (now (runtime r.1) + 2000 * 1)%N;
                     action := RetryConnect |}))
  ∧ ((3 ≤ connectionRetryCount worn)%nat
     ∧ (∃ e0, (BridgeService.await_strategy (Some boom)
                 (BridgeService.connect_begin broken_host worn).2
                 (BridgeService.connect_begin broken_host worn).1).2
              = Failed e0)
     ∧ Some boom = Some boom).
Proof.
  intros r worn boom. split.
  - refine (proj1 (C10_failed_connect_fulfils_and_schedules_retry
                     broken_host None BridgeService.new _)
              (mkError "host is shutting down") _ _).
    + reflexivity.
    + vm_compute. reflexivity.
    + vm_compute. lia.
  - refine (proj2 (C10_failed_connect_fulfils_and_schedules_retry
                     broken_host (Some boom) worn _) boom _).
    + vm_compute. reflexivity.
    + vm_compute. reflexivity.
Defined.

(** ** Reconnecting *)

(** Whatever the service went through, the strategy it refers to after a
    [connect()] has an empty Pending Request table: it is a new object. *)
Lemma service_connect_starts_empty (win : WindowWithBridge)
    (fault : option Error) (c : BridgeService) (s : Strategy) :
  BridgeService.current (BridgeService.connect win fault c).1 = Some s →
  pendingRequests (strategy_base s) = ∅.
Proof.
  unfold BridgeService.connect, BridgeService.connect_resume.
  rewrite connect_begin_spec. cbn [fst snd].
  set (p := platform (PlatformDetector.detect win)).
  set (bs := BridgeService.strategy_connect_begin win
               (runtime c, BridgeService.createStrategy p)).
  rewrite await_strategy_last.
  pose proof (strategy_connect_pending win fault (runtime c)
                (BridgeService.createStrategy p) (length (instances c))) as Hp.
  fold bs in Hp. cbv zeta in Hp.
  set (f := BridgeService.strategy_connect_finish fault
              {| awaited := length (instances c); settled := bs.2 |}
              (bs.1.1, bs.1.2)) in Hp |- *.
  assert (pendingRequests (strategy_base (BridgeService.createStrategy p)) = ∅)
    as Hnew by by destruct p.
  rewrite Hnew in Hp. cbn [fst snd].
  destruct (f.2) as [[]|e0] eqn:Ef.
  - unfold BridgeService.connect_settled, BridgeService.set_runtime,
      BridgeService.current. cbn.
    rewrite lookup_app_r by done. rewrite Nat.sub_diag. cbn.
    by intros [= <-].
  - unfold BridgeService.connect_settled.
    cbn [connectionRetryCount maxRetries runtime instances strategy
         service_platform retryTimeout].
    destruct (_ <? _)%nat.
    + unfold BridgeService.current. cbn.
      rewrite lookup_app_r by done. rewrite Nat.sub_diag. cbn.
      by intros [= <-].
    + unfold BridgeService.fallback_begin,
        BridgeService.assign_strategy, BridgeService.on_instance.
      cbn [connectionRetryCount maxRetries runtime instances strategy
           service_platform retryTimeout fst snd].
      rewrite lookup_app_r by done. rewrite Nat.sub_diag.
      cbn [lookup list_lookup fst snd].
      rewrite insert_app_r_alt by done. rewrite Nat.sub_diag.
      cbn [insert list_insert fst snd].
      rewrite await_strategy_last.
      unfold BridgeService.strategy_connect_finish. cbn [settled snd fst].
      unfold BridgeService.fallback_settled, BridgeService.current.
      destruct fault as [e1|]; cbn.
      all: rewrite lookup_app_r by done; rewrite Nat.sub_diag; cbn.
      all: by intros [= <-].
Qed.

(** ** The simulation's roster *)

(** [find] finds no student exactly when the roster has none with the id. *)
Lemma find_student_none id w :
  WebBridge.find_student id w = None → id ∉ studentId <$> mockStudents w.
Proof.
  unfold WebBridge.find_student. intros Hnone [s [-> Hs]]%list_elem_of_fmap.
  apply list_elem_of_In, (List.find_none _ _ Hnone s) in Hs.
  by apply String.eqb_neq in Hs.
Qed.

Lemma find_student_is_Some id w :
  id ∈ studentId <$> mockStudents w → is_Some (WebBridge.find_student id w).
Proof.
  intros Hin. destruct (WebBridge.find_student id w) eqn:Hf; [by eexists|].
  by apply find_student_none in Hf.
Qed.

(** The ids handed out are those of the roster that are not removed. *)
Lemma elem_of_listed id w :
  id ∈ listed w ↔ id ∈ studentId <$> mockStudents w ∧ id ∉ removedStudents w.
Proof.
  unfold listed, WebBridge.active. rewrite !list_elem_of_fmap. split.
  - intros [s [-> [Hs ?]%list_elem_of_filter]]. split; [by exists s|done].
  - intros [[s [-> Hs]] ?]. exists s. split; [done|].
    by apply list_elem_of_filter.
Qed.

(** What a call returns is decided by the list [getStudentList] hands
    out. *)
Lemma getStudentList_result st :
  (WebBridge.getStudentList st).2 = WebBridge.active st.2.
Proof. by destruct st as [rt [b ms rm sel]]. Qed.

(** [studentPicked] succeeds exactly for the ids handed out. *)
Lemma studentPicked_true event st :
  (WebBridge.studentPicked event st).2 = true
  ↔ eventStudentId event ∈ listed st.2.
Proof.
  rewrite elem_of_listed. destruct st as [rt w].
  unfold WebBridge.studentPicked, WebBridge.simulateDelay.
  cbn [fst snd].
  destruct (WebBridge.find_student (eventStudentId event) w) as [s|] eqn:Hf.
  - apply find_student_elem in Hf as [Hs Hid].
    assert (eventStudentId event ∈ studentId <$> mockStudents w).
    { rewrite <-Hid. by apply list_elem_of_fmap_2. }
    case_bool_decide; cbn [snd]; naive_solver.
  - apply find_student_none in Hf. cbn [snd]. naive_solver.
Qed.

(** [studentRemoved] succeeds exactly for the ids handed out, while more
    than two are. *)
Lemma studentRemoved_true event st :
  (WebBridge.studentRemoved event st).2 = true
  ↔ eventStudentId event ∈ listed st.2
    ∧ (2 < length (WebBridge.active st.2))%nat.
Proof.
  rewrite elem_of_listed. destruct st as [rt w].
  unfold WebBridge.studentRemoved, WebBridge.simulateDelay.
  cbn [fst snd].
  destruct (WebBridge.find_student (eventStudentId event) w) as [s|] eqn:Hf.
  - apply find_student_elem in Hf as [Hs Hid].
    assert (eventStudentId event ∈ studentId <$> mockStudents w).
    { rewrite <-Hid. by apply list_elem_of_fmap_2. }
    case_bool_decide; cbn [snd]; [naive_solver|].
    destruct (length (WebBridge.active w) <=? 2)%nat eqn:Hn; cbn [snd].
    + apply Nat.leb_le in Hn. split; [done|]. lia.
    + apply Nat.leb_gt in Hn. naive_solver.
  - apply find_student_none in Hf. cbn [snd]. naive_solver.
Qed.

(** X1.  In the simulation, [studentPicked] returns [true] exactly for the
    students [getStudentList] would hand out at that moment, and
    [studentRemoved] returns [true] exactly for those students while more
    than two are handed out. *)
Theorem web_calls_succeed_exactly_for_listed_students
    (event : StudentEvent) (st : Runtime * WebBridge) :
  let roster := (WebBridge.getStudentList st).2 in
  ((WebBridge.studentPicked event st).2 = true
   ↔ eventStudentId event ∈ studentId <$> roster)
  ∧ ((WebBridge.studentRemoved event st).2 = true
     ↔ eventStudentId event ∈ studentId <$> roster
       ∧ (2 < length roster)%nat).
Proof.
  cbv zeta. rewrite getStudentList_result. split.
  - apply studentPicked_true.
  - apply studentRemoved_true.
Qed.

(** Consistency and the students handed out depend on the roster data only. *)
Lemma same_roster_consistent w w' :
  same_roster w w' →
  WebBridge.active w' = WebBridge.active w
  ∧ (roster_consistent w → roster_consistent w').
Proof.
  intros (Hm & Hr & Hs). unfold roster_consistent, listed, WebBridge.active.
  by rewrite Hm, Hr, Hs.
Qed.

Lemma lift_same_roster f st : same_roster st.2 (WebBridge.lift f st).2.
Proof. done. Qed.

Lemma connect_same_roster st : same_roster st.2 (WebBridge.connect st).1.2.
Proof. done. Qed.

Lemma getStudentList_same_roster st :
  same_roster st.2 (WebBridge.getStudentList st).1.2.
Proof. done. Qed.

Lemma seed_ids_NoDup : NoDup (studentId <$> MOCK_STUDENTS).
Proof.
  match goal with |- ?P => apply (@bool_decide_unpack P _) end.
  by vm_compute.
Qed.

Lemma active_none_removed b ms sel :
  WebBridge.active {| web_base := b; mockStudents := ms;
                      removedStudents := ∅; selectedStudents := sel |} = ms.
Proof.
  unfold WebBridge.active; cbn [mockStudents removedStudents].
  induction ms as [|s ms IH]; [done|].
  rewrite filter_cons_True by set_solver. by rewrite IH.
Qed.

(** The seed roster, with nothing removed or selected, is consistent. *)
Lemma seed_consistent b :
  let w := {| web_base := b; mockStudents := MOCK_STUDENTS;
              removedStudents := ∅; selectedStudents := ∅ |} in
  roster_consistent w ∧ (2 ≤ length (WebBridge.active w))%nat.
Proof.
  cbv zeta. rewrite active_none_removed. split.
  - split; [apply seed_ids_NoDup|].
    split; intros id Hid; cbn in Hid; set_solver.
  - unfold MOCK_STUDENTS; cbn [length]; lia.
Qed.

Lemma filter_ids_NoDup (P : Student → Prop) `{!∀ s, Decision (P s)}
    (ms : list Student) :
  NoDup (studentId <$> ms) → NoDup (studentId <$> filter P ms).
Proof.
  induction ms as [|s ms IH]; [done|].
  rewrite fmap_cons. intros [Hs Hms]%NoDup_cons.
  rewrite filter_cons. case_decide; [|by apply IH].
  rewrite fmap_cons. apply NoDup_cons. split; [|by apply IH].
  intros (s' & Heq & [_ Hin]%list_elem_of_filter)%list_elem_of_fmap.
  apply Hs. rewrite Heq. by apply list_elem_of_fmap_2.
Qed.

(** The calls keep the roster consistent and never leave fewer than two
    students to hand out. *)
Lemma web_call_consistent c st :
  roster_consistent st.2 ∧ (2 ≤ length (WebBridge.active st.2))%nat →
  roster_consistent (web_call c st).2
  ∧ (2 ≤ length (WebBridge.active (web_call c st).2))%nat.
Proof.
  intros [Hc Hn].
  assert (∀ w', same_roster st.2 w' →
            roster_consistent w' ∧ (2 ≤ length (WebBridge.active w'))%nat)
    as Hsame.
  { intros w' [Ha Hc']%same_roster_consistent. rewrite Ha. auto. }
  destruct c as [| | |event|event|student| |tid]; cbn [web_call].
  - apply Hsame, connect_same_roster.
  - apply seed_consistent.
  - apply Hsame, getStudentList_same_roster.
  - destruct st as [rt w]. unfold WebBridge.studentPicked, WebBridge.simulateDelay.
    cbn [fst snd] in *.
    destruct (WebBridge.find_student (eventStudentId event) w) as [s|] eqn:Hf;
      [|by apply Hsame].
    case_bool_decide as Hrm; [by apply Hsame|].
    apply find_student_elem in Hf as [Hs Hid].
    cbn [fst snd WebBridge.emitLater WebBridge.lift].
    destruct Hc as (Hnd & Hr & Hsel). split; [|done].
    split; [done|]. split; [done|].
    intros id [->%elem_of_singleton|Hid']%elem_of_union; [|by apply Hsel].
    apply elem_of_listed. split; [|done].
    cbn [mockStudents]. rewrite <-Hid. by apply list_elem_of_fmap_2.
  - destruct st as [rt w]. unfold WebBridge.studentRemoved, WebBridge.simulateDelay.
    cbn [fst snd] in *.
    destruct (WebBridge.find_student (eventStudentId event) w) as [s|] eqn:Hf;
      [|by apply Hsame].
    case_bool_decide as Hrm; [by apply Hsame|].
    destruct (length (WebBridge.active w) <=? 2)%nat eqn:Hle; [by apply Hsame|].
    apply Nat.leb_gt in Hle.
    apply find_student_elem in Hf as [Hs Hid].
    assert (eventStudentId event ∈ studentId <$> mockStudents w) as Hin.
    { rewrite <-Hid. by apply list_elem_of_fmap_2. }
    cbn [fst snd WebBridge.emitLater WebBridge.lift].
    destruct Hc as (Hnd & Hr & Hsel).
    pose proof (active_after_removal (mockStudents w) (removedStudents w)
                  (eventStudentId event) Hnd Hin Hrm) as Hcount.
    split.
    + split; [done|]. split.
      * intros id [->%elem_of_singleton|Hid']%elem_of_union; [done|by apply Hr].
      * intros id [Hid' Hne%not_elem_of_singleton]%elem_of_difference.
        apply Hsel, elem_of_listed in Hid' as [? ?].
        apply elem_of_listed. split; [done|]. cbn [removedStudents].
        set_solver.
    + unfold WebBridge.active in *. cbn [mockStudents removedStudents]. lia.
  - unfold WebBridge.addMockStudent.
    destruct (WebBridge.find_student (studentId student) st.2) eqn:Hf; [done|].
    apply find_student_none in Hf.
    match goal with
    | |- context [WebBridge.getStudentList ?s] =>
        destruct (same_roster_consistent s.2 (WebBridge.getStudentList s).1.2
                    (getStudentList_same_roster s)) as [Ha Hc']
    end.
    rewrite Ha. split.
    + apply Hc'. destruct st as [rt w]; cbn [fst snd] in *.
      destruct Hc as (Hnd & Hr & Hsel). split; [|split].
      * cbn [mockStudents]. rewrite fmap_app. apply NoDup_app.
        split; [done|]. split; [|apply NoDup_singleton].
        intros id Hid ->%list_elem_of_singleton. done.
      * intros id Hid. cbn [mockStudents removedStudents] in *.
        rewrite fmap_app. apply elem_of_app. left. by apply Hr.
      * intros id Hid. apply Hsel, elem_of_listed in Hid as [? ?].
        apply elem_of_listed. split; [|done]. cbn [mockStudents].
        rewrite fmap_app. apply elem_of_app. by left.
    + destruct st as [rt w]; cbn [fst snd] in *.
      unfold WebBridge.active in *. cbn [mockStudents removedStudents].
      rewrite filter_app, length_app. lia.
  - unfold WebBridge.resetMockData.
    match goal with
    | |- context [WebBridge.getStudentList ?s] =>
        destruct (same_roster_consistent s.2 (WebBridge.getStudentList s).1.2
                    (getStudentList_same_roster s)) as [Ha Hc']
    end.
    rewrite Ha. destruct (seed_consistent (web_base st.2)) as [? ?].
    split; [by apply Hc'|done].
  - apply Hsame, lift_same_roster.
Qed.

(** In a roster without repeated ids, from which only its own students are
    removed, every student is either handed out or removed. *)
Lemma roster_count (ms : list Student) (rm : gset string) :
  NoDup (studentId <$> ms) →
  (∀ id, id ∈ rm → id ∈ studentId <$> ms) →
  length ms = (length (filter (λ s, studentId s ∉ rm) ms) + size rm)%nat.
Proof.
  revert rm. induction ms as [|s ms IH]; intros rm Hnd Hsub.
  - assert (rm = ∅) as -> by (apply set_eq; intros id; set_solver).
    by rewrite size_empty.
  - rewrite fmap_cons in Hnd. apply NoDup_cons in Hnd as [Hs Hms].
    destruct (decide (studentId s ∈ rm)) as [Hin|Hout].
    + rewrite filter_cons_False by (by intros ?).
      rewrite (filter_agree _ (λ x, studentId x ∉ rm ∖ {[studentId s]})).
      2:{ intros x Hx. split; [set_solver|].
          intros Hx' Hx''. apply Hx', elem_of_difference. split; [done|].
          intros Heq%elem_of_singleton. apply Hs. rewrite <-Heq.
          by apply list_elem_of_fmap_2. }
      cbn [length]. rewrite (IH (rm ∖ {[studentId s]}) Hms).
      2:{ intros id [Hid Hne%not_elem_of_singleton]%elem_of_difference.
          apply Hsub in Hid. rewrite fmap_cons in Hid.
          by apply elem_of_cons in Hid as [?|?]. }
      rewrite size_difference by set_solver. rewrite size_singleton.
      assert (size rm ≠ 0)%nat.
      { intros Hz%size_empty_inv. set_solver. }
      lia.
    + rewrite filter_cons_True by done. cbn [length].
      rewrite (IH rm Hms); [lia|].
      intros id Hid. pose proof (Hsub id Hid) as Hid'.
      rewrite fmap_cons in Hid'. apply elem_of_cons in Hid' as [->|?]; done.
Qed.

(** X2.  Whatever calls are made on a new simulation, one after the other
    ([connect], [disconnect], the three remote calls, [addMockStudent],
    [resetMockData], timers running out): no student id occurs twice in
    the roster, only students of the roster are removed, only students
    still handed out are selected, at least two students are handed out,
    and the numbers of [getMockStatus] add up: total = active + removed,
    selected ≤ active. *)
Theorem web_roster_stays_consistent (cs : list WebCall) :
  let st := web_run cs (Runtime.start, WebBridge.new) in
  let status := WebBridge.getMockStatus st.2 in
  roster_consistent st.2
  ∧ (2 ≤ mock_activeStudents status)%nat
  ∧ mock_totalStudents status
    = (mock_activeStudents status + mock_removedStudents status)%nat
  ∧ (mock_selectedStudents status ≤ mock_activeStudents status)%nat.
Proof.
  cbv zeta.
  assert (roster_consistent (web_run cs (Runtime.start, WebBridge.new)).2
          ∧ (2 ≤ length (WebBridge.active
                           (web_run cs (Runtime.start, WebBridge.new)).2))%nat)
    as [Hc Hn].
  { unfold web_run. induction cs as [|c cs IH] using rev_ind.
    - apply (seed_consistent BridgeStrategy.new).
    - rewrite foldl_app. cbn [foldl]. by apply web_call_consistent. }
  set (w := (web_run cs (Runtime.start, WebBridge.new)).2) in *.
  unfold WebBridge.getMockStatus.
  cbn [mock_totalStudents mock_activeStudents mock_removedStudents
       mock_selectedStudents].
  split; [done|]. split; [done|].
  destruct Hc as (Hnd & Hr & Hsel). split.
  - by apply roster_count.
  - transitivity (size (list_to_set (listed w) : gset string)).
    + apply subseteq_size. intros id Hid. by apply elem_of_list_to_set, Hsel.
    + rewrite size_list_to_set by (by apply filter_ids_NoDup).
      unfold listed. by rewrite length_fmap.
Qed.

(** No call but [disconnect] and [resetMockData] takes a student out of
    the removed ones. *)
Lemma web_call_keeps_removed c st id :
  keeps_data c = true →
  id ∈ removedStudents st.2 → id ∈ removedStudents (web_call c st).2.
Proof.
  intros Hk Hid.
  assert (∀ w', same_roster st.2 w' → id ∈ removedStudents w') as Hsame.
  { intros w' (_ & -> & _). done. }
  destruct c as [| | |event|event|student| |tid]; cbn [web_call];
    try discriminate Hk.
  - apply Hsame, connect_same_roster.
  - apply Hsame, getStudentList_same_roster.
  - destruct st as [rt w]. unfold WebBridge.studentPicked, WebBridge.simulateDelay.
    cbn [fst snd] in *.
    destruct (WebBridge.find_student _ w); [|done].
    by case_bool_decide.
  - destruct st as [rt w]. unfold WebBridge.studentRemoved, WebBridge.simulateDelay.
    cbn [fst snd] in *.
    destruct (WebBridge.find_student _ w); [|done].
    case_bool_decide; [done|].
    destruct (_ <=? 2)%nat; [done|].
    cbn [fst snd WebBridge.emitLater WebBridge.lift removedStudents].
    set_solver.
  - unfold WebBridge.addMockStudent.
    destruct (WebBridge.find_student _ st.2); [done|].
    match goal with
    | |- context [WebBridge.getStudentList ?s] =>
        destruct (getStudentList_same_roster s) as (_ & -> & _)
    end.
    done.
  - apply Hsame, lift_same_roster.
Qed.

(** X3.  A student the simulation has removed stays removed for as long as
    the simulation is neither disconnected nor reset: whatever other calls
    follow, [getStudentList] does not list the student, and picking or
    removing the student again returns [false]. *)
Theorem web_removed_student_stays_removed
    (event : StudentEvent) (cs : list WebCall) (st : Runtime * WebBridge) :
  (WebBridge.studentRemoved event st).2 = true →
  Forall (λ c, keeps_data c = true) cs →
  let st' := web_run cs (WebBridge.studentRemoved event st).1 in
  (eventStudentId event ∉ studentId <$> (WebBridge.getStudentList st').2)
  ∧ (WebBridge.studentPicked event st').2 = false
  ∧ (WebBridge.studentRemoved event st').2 = false.
Proof.
  intros Hr Hcs. cbv zeta.
  assert (eventStudentId event
            ∈ removedStudents (WebBridge.studentRemoved event st).1.2) as Hin.
  { destruct st as [rt w].
    unfold WebBridge.studentRemoved, WebBridge.simulateDelay in *.
    cbn [fst snd] in *.
    destruct (WebBridge.find_student _ w); [|done].
    case_bool_decide; [done|].
    destruct (_ <=? 2)%nat; [done|].
    cbn [fst snd WebBridge.emitLater WebBridge.lift removedStudents].
    set_solver. }
  assert (eventStudentId event
            ∈ removedStudents
                (web_run cs (WebBridge.studentRemoved event st).1).2) as Hin'.
  { unfold web_run. clear Hr.
    induction cs as [|c cs IH] using rev_ind; [done|].
    apply Forall_app in Hcs as [Hcs [Hc _]%Forall_cons].
    rewrite foldl_app. cbn [foldl]. apply web_call_keeps_removed; auto. }
  set (st' := web_run cs (WebBridge.studentRemoved event st).1) in *.
  assert (eventStudentId event ∉ listed st'.2) as Hout.
  { rewrite elem_of_listed. naive_solver. }
  rewrite getStudentList_result. split; [done|]. split.
  - destruct (WebBridge.studentPicked event st').2 eqn:Hp; [|done].
    by apply studentPicked_true in Hp.
  - destruct (WebBridge.studentRemoved event st').2 eqn:Hp; [|done].
    by apply studentRemoved_true in Hp as [? _].
Qed.

(** The theorem at work: student 7 is removed from a new simulation; the
    roster is fetched, the student is picked and added again under the
    same id, a timer runs out and the simulation connects; the student is
    still gone. *)
Lemma web_removed_student_stays_removed_witness :
  let event := {| eventStudentId := "7" |} in
  let cs := [CallGetStudentList;
             CallStudentPicked event;
             CallAddMockStudent {| studentId := "7"; name := "Nami";
                                   seatNumber := None |};
             TimerExpires 1;
             CallConnect] in
  let st' := web_run cs (WebBridge.studentRemoved event
                           (Runtime.start, WebBridge.new)).1 in
  (eventStudentId event ∉ studentId <$> (WebBridge.getStudentList st').2)
  ∧ (WebBridge.studentPicked event st').2 = false
  ∧ (WebBridge.studentRemoved event st').2 = false.
Proof.
  apply (web_removed_student_stays_removed
           {| eventStudentId := "7" |} _ (Runtime.start, WebBridge.new)).
  - by vm_compute.
  - repeat constructor.
Defined.

(** ** The event emitter over whole runs *)

(** [emit] invokes the callbacks of the event, each with the data given. *)
Lemma emit_invoked event data em :
  EventEmitter.emit event data em = (λ cb, (cb, data)) <$> invoked event em.
Proof.
  unfold invoked, EventEmitter.emit.
  destruct (EventEmitter.listeners em !! event) as [r|]; [|done].
  induction (EventEmitter.deref r em) as [|cb l IH]; [done|].
  rewrite !fmap_cons. by rewrite IH.
Qed.

(** The callbacks invoked are those of the set the event refers to. *)
Lemma invoked_lookup event em :
  invoked event em
  = match EventEmitter.listeners em !! event with
    | Some r => EventEmitter.deref r em
    | None => []
    end.
Proof.
  unfold invoked, EventEmitter.emit.
  destruct (EventEmitter.listeners em !! event) as [r|]; [|done].
  induction (EventEmitter.deref r em) as [|cb l IH]; [done|].
  rewrite !fmap_cons. by rewrite IH.
Qed.

Lemma deref_store_ne r r' s em :
  r ≠ r' → EventEmitter.deref r' (EventEmitter.store r s em)
           = EventEmitter.deref r' em.
Proof.
  intros Hne. unfold EventEmitter.deref, EventEmitter.store.
  cbn [EventEmitter.sets]. by rewrite lookup_insert_ne.
Qed.

Lemma Set_add_NoDup cb s : NoDup s → NoDup (EventEmitter.Set_add cb s).
Proof.
  intros Hs. unfold EventEmitter.Set_add. case_bool_decide; [done|].
  apply NoDup_app. split; [done|]. split; [|apply NoDup_singleton].
  by intros x Hx ->%list_elem_of_singleton.
Qed.

Lemma Set_delete_NoDup cb s : NoDup s → NoDup (EventEmitter.Set_delete cb s).
Proof. apply NoDup_filter. Qed.

Lemma deref_NoDup r em : emitter_wf em → NoDup (EventEmitter.deref r em).
Proof.
  intros (_ & _ & Hnd). unfold EventEmitter.deref.
  destruct (EventEmitter.sets em !! r) as [l|] eqn:Hl; cbn [default from_option id].
  - by apply (Hnd r).
  - apply NoDup_nil_2.
Qed.

(** The operations on the emitter keep it well formed. *)
Lemma store_wf r s em :
  NoDup s → emitter_wf em → emitter_wf (EventEmitter.store r s em).
Proof.
  intros Hs (Hlt & Hinj & Hnd). split; [done|]. split; [done|].
  intros r' l. unfold EventEmitter.store; cbn [EventEmitter.sets].
  destruct (decide (r = r')) as [->|Hne].
  - rewrite lookup_insert_eq. by intros [= <-].
  - rewrite lookup_insert_ne by done. apply Hnd.
Qed.

Lemma listeners_delete_wf event em :
  emitter_wf em → emitter_wf (EventEmitter.listeners_delete event em).
Proof.
  intros (Hlt & Hinj & Hnd).
  unfold EventEmitter.listeners_delete. split; [|split; [|done]].
  - intros e r. cbn [EventEmitter.listeners EventEmitter.nextSet].
    intros [_ ?]%lookup_delete_Some. by apply (Hlt e).
  - intros e1 e2 r. cbn [EventEmitter.listeners].
    intros [_ ?]%lookup_delete_Some [_ ?]%lookup_delete_Some.
    by apply (Hinj e1 e2 r).
Qed.

Lemma on_wf event cb em :
  emitter_wf em → emitter_wf (EventEmitter.on event cb em).1.
Proof.
  intros Hwf. unfold EventEmitter.on.
  destruct (EventEmitter.listeners em !! event) as [r|] eqn:He; cbn [fst].
  - rewrite He; cbn [default from_option id]. apply store_wf; [|done].
    by apply Set_add_NoDup, deref_NoDup.
  - cbn [EventEmitter.listeners]. rewrite lookup_insert_eq; cbn [default from_option id].
    apply store_wf.
    { unfold EventEmitter.deref; cbn [EventEmitter.sets].
      rewrite lookup_insert_eq. apply Set_add_NoDup, NoDup_nil_2. }
    destruct Hwf as (Hlt & Hinj & Hnd). split; [|split].
    + intros e r. cbn [EventEmitter.listeners EventEmitter.nextSet].
      destruct (decide (event = e)) as [<-|Hne].
      * rewrite lookup_insert_eq. intros [= <-]. lia.
      * rewrite lookup_insert_ne by done. intros ?%Hlt. lia.
    + intros e1 e2 r. cbn [EventEmitter.listeners].
      destruct (decide (event = e1)) as [<-|Hne1];
        destruct (decide (event = e2)) as [<-|Hne2];
        rewrite ?lookup_insert_eq, ?lookup_insert_ne by done; try done.
      * intros [= <-] ?%Hlt. lia.
      * intros ?%Hlt [= <-]. lia.
      * apply Hinj.
    + intros r l. cbn [EventEmitter.sets].
      destruct (decide (EventEmitter.nextSet em = r)) as [->|Hne].
      * rewrite lookup_insert_eq. intros [= <-]. apply NoDup_nil_2.
      * rewrite lookup_insert_ne by done. apply Hnd.
Qed.

Lemma unsubscribe_wf u em :
  emitter_wf em → emitter_wf (EventEmitter.unsubscribe u em).
Proof.
  intros Hwf. unfold EventEmitter.unsubscribe.
  assert (emitter_wf
            (EventEmitter.store (EventEmitter.captured_callbacks u)
               (EventEmitter.Set_delete (EventEmitter.captured_callback u)
                  (EventEmitter.deref (EventEmitter.captured_callbacks u) em))
               em)) as Hwf1.
  { apply store_wf; [|done]. by apply Set_delete_NoDup, deref_NoDup. }
  destruct (_ =? 0)%nat; [by apply listeners_delete_wf|done].
Qed.

Lemma off_wf event cb em :
  emitter_wf em → emitter_wf (EventEmitter.off event cb em).
Proof.
  intros Hwf. unfold EventEmitter.off.
  destruct cb as [cb|]; [|by apply listeners_delete_wf].
  destruct (EventEmitter.listeners em !! event) as [r|]; [|done].
  assert (emitter_wf
            (EventEmitter.store r
               (EventEmitter.Set_delete cb (EventEmitter.deref r em)) em))
    as Hwf1.
  { apply store_wf; [|done]. by apply Set_delete_NoDup, deref_NoDup. }
  destruct (_ =? 0)%nat; [by apply listeners_delete_wf|done].
Qed.

Lemma clear_wf em : emitter_wf em → emitter_wf (EventEmitter.clear em).
Proof.
  intros (Hlt & Hinj & Hnd). split; [|split; [|done]].
  - intros e r. cbn. by rewrite lookup_empty.
  - intros e1 e2 r. cbn. by rewrite lookup_empty.
Qed.

(** Every emitter reached by a run is well formed. *)
Lemma emitter_run_wf cs : emitter_wf (emitter_run cs).1.
Proof.
  unfold emitter_run. induction cs as [|c cs IH] using rev_ind.
  - split; [|split]; cbn; intros *; by rewrite lookup_empty.
  - rewrite foldl_app. cbn [foldl].
    destruct c as [event cb|event cb|k|]; cbn [emitter_call fst].
    + by apply on_wf.
    + by apply off_wf.
    + destruct (_ !! k); [by apply unsubscribe_wf|done].
    + by apply clear_wf.
Qed.

(** In a well-formed emitter [on] adds to the event's callbacks as a set
    does, and leaves every other event alone. *)
Lemma invoked_on event cb em :
  emitter_wf em →
  invoked event (EventEmitter.on event cb em).1
  = EventEmitter.Set_add cb (invoked event em)
  ∧ ∀ other, other ≠ event →
      invoked other (EventEmitter.on event cb em).1 = invoked other em.
Proof.
  intros (Hlt & Hinj & Hnd). rewrite !invoked_lookup.
  setoid_rewrite invoked_lookup. unfold EventEmitter.on.
  destruct (EventEmitter.listeners em !! event) as [r|] eqn:He; cbn [fst].
  - rewrite He; cbn [default from_option id]. split.
    + unfold EventEmitter.store at 1; cbn [EventEmitter.listeners].
      rewrite He. apply deref_store.
    + intros other Hne.
      unfold EventEmitter.store at 1; cbn [EventEmitter.listeners].
      destruct (EventEmitter.listeners em !! other) as [r'|] eqn:Ho; [|done].
      apply deref_store_ne. intros Heq.
      apply Hne, (Hinj other event r'); [done|]. by rewrite <-Heq.
  - cbn [EventEmitter.listeners]. rewrite lookup_insert_eq; cbn [default from_option id].
    split.
    + unfold EventEmitter.store at 1; cbn [EventEmitter.listeners].
      rewrite lookup_insert_eq, deref_store.
      unfold EventEmitter.deref; cbn [EventEmitter.sets].
      by rewrite lookup_insert_eq.
    + intros other Hne.
      unfold EventEmitter.store at 1; cbn [EventEmitter.listeners].
      rewrite lookup_insert_ne by done.
      destruct (EventEmitter.listeners em !! other) as [r'|] eqn:Ho; [|done].
      apply Hlt in Ho.
      rewrite deref_store_ne by lia.
      unfold EventEmitter.deref; cbn [EventEmitter.sets].
      rewrite lookup_insert_ne by lia. done.
Qed.

(** X4.  In an emitter reached by any calls of [on], [off], [clear] and of
    the functions [on] returned, [on] puts a callback that is not
    registered for the event yet behind the ones registered, so that the
    set [emit] iterates keeps the order of registration; it leaves a
    registered one where it is, and does not touch the callbacks of any
    other event. *)
Theorem emitter_on_appends_in_registration_order
    (cs : list EmitterCall) (event : string)
    (callback : EventEmitter.EventCallback) :
  let em := (emitter_run cs).1 in
  let em' := (EventEmitter.on event callback em).1 in
  invoked event em'
  = (if bool_decide (callback ∈ invoked event em)
     then invoked event em
     else invoked event em ++ [callback])%list
  ∧ (∀ other, other ≠ event → invoked other em' = invoked other em).
Proof.
  cbv zeta. pose proof (emitter_run_wf cs) as Hwf.
  destruct (invoked_on event callback _ Hwf) as [Hsame Hother].
  split; [apply Hsame|apply Hother].
Qed.

(** Deleting what was just added to a set it was not in gives the set back. *)
Lemma Set_delete_fresh cb l :
  cb ∉ l → EventEmitter.Set_delete cb (EventEmitter.Set_add cb l) = l.
Proof.
  intros Hcb. unfold EventEmitter.Set_add, EventEmitter.Set_delete.
  rewrite bool_decide_eq_false_2 by done.
  rewrite filter_app, filter_cons_False, filter_nil, app_nil_r by naive_solver.
  induction l as [|c l IH]; [done|].
  apply not_elem_of_cons in Hcb as [? ?].
  rewrite filter_cons_True by done. by rewrite IH.
Qed.

Lemma invoked_listeners_delete event other em :
  invoked other (EventEmitter.listeners_delete event em)
  = if decide (other = event) then [] else invoked other em.
Proof.
  rewrite !invoked_lookup. unfold EventEmitter.listeners_delete.
  cbn [EventEmitter.listeners].
  destruct (decide (other = event)) as [->|Hne].
  - by rewrite lookup_delete_eq.
  - rewrite lookup_delete_ne by done. done.
Qed.

Lemma invoked_store r s other em :
  emitter_wf em →
  invoked other (EventEmitter.store r s em)
  = if decide (EventEmitter.listeners em !! other = Some r) then s
    else invoked other em.
Proof.
  intros Hwf. rewrite !invoked_lookup.
  unfold EventEmitter.store at 1; cbn [EventEmitter.listeners].
  destruct (EventEmitter.listeners em !! other) as [r'|] eqn:Ho.
  - destruct (decide (Some r' = Some r)) as [[= ->]|Hne].
    + apply deref_store.
    + apply deref_store_ne. congruence.
  - by rewrite decide_False.
Qed.

(** The callbacks invoked after [off]. *)
Lemma invoked_off event cb other em :
  emitter_wf em →
  invoked other (EventEmitter.off event cb em)
  = if decide (other = event)
    then match cb with
         | Some cb => filter (λ c, c ≠ cb) (invoked event em)
         | None => []
         end
    else invoked other em.
Proof.
  intros Hwf. unfold EventEmitter.off. destruct cb as [cb|].
  2:{ apply invoked_listeners_delete. }
  destruct (EventEmitter.listeners em !! event) as [r|] eqn:He.
  2:{ case_decide as Ho; [|done]. subst other.
      rewrite !invoked_lookup, He. done. }
  rewrite deref_store.
  assert (invoked event em = EventEmitter.deref r em) as Hev.
  { by rewrite invoked_lookup, He. }
  assert (other ≠ event → EventEmitter.listeners em !! other ≠ Some r) as Hr.
  { intros Ho Ho'. destruct Hwf as (_ & Hinj & _).
    by apply Ho, (Hinj other event r). }
  destruct (length _ =? 0)%nat eqn:Hlen.
  - apply Nat.eqb_eq, nil_length_inv in Hlen.
    rewrite invoked_listeners_delete.
    destruct (decide (other = event)) as [->|Ho]; [by rewrite Hev|].
    rewrite invoked_store by done. rewrite decide_False; auto.
  - rewrite invoked_store by done.
    destruct (decide (other = event)) as [->|Ho].
    + rewrite decide_True by done. by rewrite Hev.
    + rewrite decide_False; auto.
Qed.

(** X5.  [off(event, callback)] removes that callback from the event and
    keeps the others in their order; [off(event)] removes all callbacks of
    the event; neither touches another event; after [clear] no event has a
    callback. *)
Theorem emitter_off_removes_only_what_it_names
    (cs : list EmitterCall) (event : string)
    (callback : EventEmitter.EventCallback) :
  let em := (emitter_run cs).1 in
  invoked event (EventEmitter.off event (Some callback) em)
  = filter (λ cb, cb ≠ callback) (invoked event em)
  ∧ invoked event (EventEmitter.off event None em) = []
  ∧ (∀ other cb, other ≠ event →
       invoked other (EventEmitter.off event cb em) = invoked other em)
  ∧ (∀ other, invoked other (EventEmitter.clear em) = []).
Proof.
  cbv zeta. pose proof (emitter_run_wf cs) as Hwf.
  split; [|split; [|split]].
  - rewrite invoked_off by done. by rewrite decide_True.
  - rewrite invoked_off by done. by rewrite decide_True.
  - intros other cb Hne. rewrite invoked_off by done. by rewrite decide_False.
  - intros other. rewrite invoked_lookup. cbn. by rewrite lookup_empty.
Qed.

(** The callbacks invoked after [on] and the function it returned. *)
Lemma invoked_unsubscribe_on event cb other em :
  emitter_wf em →
  cb ∉ invoked event em →
  let r := EventEmitter.on event cb em in
  invoked other (EventEmitter.unsubscribe r.2 r.1) = invoked other em.
Proof.
  intros Hwf Hcb. cbv zeta.
  pose proof (on_wf event cb em Hwf) as Hwf'.
  destruct (on_registered event cb em) as [Hreg _]. cbv zeta in Hreg.
  destruct (invoked_on event cb em Hwf) as [Hsame Hothers].
  unfold EventEmitter.unsubscribe.
  assert (EventEmitter.captured_event (EventEmitter.on event cb em).2 = event)
    as Hce by done.
  assert (EventEmitter.captured_callback (EventEmitter.on event cb em).2 = cb)
    as Hcc by done.
  rewrite Hce, Hcc, deref_store.
  set (r := EventEmitter.captured_callbacks (EventEmitter.on event cb em).2) in *.
  set (em1 := (EventEmitter.on event cb em).1) in *.
  assert (EventEmitter.deref r em1 = EventEmitter.Set_add cb (invoked event em))
    as Hd.
  { rewrite <-Hsame. by rewrite invoked_lookup, Hreg. }
  rewrite Hd, Set_delete_fresh by done.
  assert (other ≠ event → EventEmitter.listeners em1 !! other ≠ Some r) as Hr.
  { intros Ho Ho'. destruct Hwf' as (_ & Hinj & _).
    by apply Ho, (Hinj other event r). }
  destruct (length _ =? 0)%nat eqn:Hlen.
  - apply Nat.eqb_eq, nil_length_inv in Hlen.
    rewrite invoked_listeners_delete.
    destruct (decide (other = event)) as [->|Ho]; [done|].
    rewrite invoked_store by done. rewrite decide_False; auto.
  - rewrite invoked_store by done.
    destruct (decide (other = event)) as [->|Ho].
    + by rewrite decide_True.
    + rewrite decide_False; auto.
Qed.

(** X6.  Registering a callback that was not registered for the event and
    then calling the function [on] returned leaves the emitter as it was,
    as far as [emit] can tell, for every event. *)
Theorem emitter_unsubscribe_undoes_on
    (cs : list EmitterCall) (event : string)
    (callback : EventEmitter.EventCallback) :
  let em := (emitter_run cs).1 in
  callback ∉ invoked event em →
  let r := EventEmitter.on event callback em in
  callback ∈ invoked event r.1
  ∧ ∀ other data,
      EventEmitter.emit other data (EventEmitter.unsubscribe r.2 r.1)
      = EventEmitter.emit other data em.
Proof.
  cbv zeta. intros Hcb. pose proof (emitter_run_wf cs) as Hwf. split.
  - destruct (invoked_on event callback _ Hwf) as [-> _].
    apply Set_add_elem.
  - intros other data. rewrite !emit_invoked.
    by rewrite (invoked_unsubscribe_on event callback other _ Hwf Hcb).
Qed.

(** The theorem at work, on an emitter with two callbacks for [spin] and
    one for [stop]. *)
Lemma emitter_unsubscribe_undoes_on_witness :
  let em := (emitter_run [CallOn "spin" 1; CallOn "stop" 2; CallOn "spin" 3]).1 in
  let r := EventEmitter.on "spin" 4 em in
  4 ∈ invoked "spin" r.1
  ∧ ∀ other data,
      EventEmitter.emit other data (EventEmitter.unsubscribe r.2 r.1)
      = EventEmitter.emit other data em.
Proof.
  apply (emitter_unsubscribe_undoes_on
           [CallOn "spin" 1; CallOn "stop" 2; CallOn "spin" 3] "spin" 4).
  vm_compute. intros Hin.
  repeat (apply elem_of_cons in Hin as [Hin|Hin]; [discriminate Hin|]).
  by apply elem_of_nil in Hin.
Defined.

(** X7.  The function [on] returned keeps referring to the listener set it
    was made for.  When the event had no other callback, the event is
    then taken off with [off(event)] and a new callback is registered for
    it, calling the old function empties its old set and deletes the
    event's entry: the new callback is no longer invoked. *)
Theorem emitter_stale_unsubscribe_drops_later_handlers
    (cs : list EmitterCall) (event : string)
    (first later : EventEmitter.EventCallback) :
  let em := (emitter_run cs).1 in
  invoked event em = [] →
  let r1 := EventEmitter.on event first em in
  let em2 := (EventEmitter.on event later
                (EventEmitter.off event None r1.1)).1 in
  let em3 := EventEmitter.unsubscribe r1.2 em2 in
  invoked event em2 = [later]
  ∧ invoked event em3 = []
  ∧ ∀ data, EventEmitter.emit event data em3 = [].
Proof.
  cbv zeta. intros Hnone. pose proof (emitter_run_wf cs) as Hwf.
  set (em := (emitter_run cs).1) in *.
  pose proof (on_wf event first em Hwf) as Hwf1.
  destruct (on_registered event first em) as [Hreg _]; cbv zeta in Hreg.
  destruct (invoked_on event first em Hwf) as [Hsame1 _].
  rewrite Hnone in Hsame1.
  assert (EventEmitter.captured_event (EventEmitter.on event first em).2 = event)
    as Hce by done.
  assert (EventEmitter.captured_callback (EventEmitter.on event first em).2
          = first) as Hcc by done.
  set (r1 := EventEmitter.on event first em) in *.
  set (r := EventEmitter.captured_callbacks r1.2) in *.
  assert (EventEmitter.deref r r1.1 = [first]) as Hd.
  { rewrite invoked_lookup, Hreg in Hsame1. exact Hsame1. }
  assert (r < EventEmitter.nextSet r1.1)%nat as Hlt.
  { destruct Hwf1 as (Hlt & _). by apply (Hlt event). }
  pose proof (off_wf event None r1.1 Hwf1) as Hwf1'.
  set (em1' := EventEmitter.off event None r1.1) in *.
  assert (EventEmitter.listeners em1' !! event = None) as Hgone.
  { unfold em1', EventEmitter.off, EventEmitter.listeners_delete.
    cbn [EventEmitter.listeners]. apply lookup_delete_eq. }
  destruct (invoked_on event later em1' Hwf1') as [Hsame2 _].
  assert (invoked event em1' = []) as Hnone'.
  { by rewrite invoked_lookup, Hgone. }
  rewrite Hnone' in Hsame2.
  set (em2 := (EventEmitter.on event later em1').1) in *.
  assert (EventEmitter.deref r em2 = [first]) as Hd2.
  { unfold em2, EventEmitter.on. rewrite Hgone.
    cbn [EventEmitter.listeners fst]. rewrite lookup_insert_eq.
    cbn [default from_option id].
    assert (EventEmitter.nextSet em1' = EventEmitter.nextSet r1.1) as -> by done.
    rewrite deref_store_ne by lia.
    unfold EventEmitter.deref; cbn [EventEmitter.sets].
    rewrite lookup_insert_ne by lia. exact Hd. }
  assert (invoked event (EventEmitter.unsubscribe r1.2 em2) = []) as Hfinal.
  { unfold EventEmitter.unsubscribe. fold r. rewrite Hce, Hcc, deref_store, Hd2.
    unfold EventEmitter.Set_delete.
    rewrite filter_cons_False, filter_nil by naive_solver.
    cbn [length Nat.eqb]. rewrite invoked_listeners_delete.
    by rewrite decide_True. }
  split; [exact Hsame2|]. split; [exact Hfinal|].
  intros data. by rewrite emit_invoked, Hfinal.
Qed.

(** The theorem at work: callback 1 is registered for [spin], [spin] is
    taken off, callback 3 is registered, and the function returned for
    callback 1 is called; callback 3 is gone. *)
Lemma emitter_stale_unsubscribe_drops_later_handlers_witness :
  let em := (emitter_run [CallOn "stop" 2]).1 in
  let r1 := EventEmitter.on "spin" 1 em in
  let em2 := (EventEmitter.on "spin" 3
                (EventEmitter.off "spin" None r1.1)).1 in
  let em3 := EventEmitter.unsubscribe r1.2 em2 in
  invoked "spin" em2 = [3]
  ∧ invoked "spin" em3 = []
  ∧ ∀ data, EventEmitter.emit "spin" data em3 = [].
Proof.
  apply (emitter_stale_unsubscribe_drops_later_handlers
           [CallOn "stop" 2] "spin" 1 3).
  by vm_compute.
Defined.

(** ** Detection and connection together *)

(** How [connect] of the desktop strategy ends: it fails with what a host
    function threw or for want of any API, and when it succeeds the
    status is [connected]. *)
Lemma windows_connect_outcome (win : WindowWithBridge)
    (st : Runtime * WindowsBridge) :
  let r := WindowsBridge.connect win st in
  (∀ e, r.2 = Failed e →
     host_throws win e
     ∨ (Windows win = None ∧ chrome_webview win = None
        ∧ asyncBridge win = None))
  ∧ (r.2 = Done () → connectionStatus (windows_base r.1.2) = connected).
Proof.
  destruct st as [rt [b mh]].
  unfold WindowsBridge.connect, WindowsBridge.setupListeners, host_throws;
    simpl.
  destruct (chrome_webview win) as [wv|] eqn:Hwv; simpl.
  - destruct (webview_addEventListener wv) as [[e0|v]|] eqn:Hl; simpl.
    { split; [|done]. intros e [= <-]. left. right. right. eauto. }
    all: destruct (Windows win) as [w|] eqn:Hw; simpl.
    all: match goal with
         | |- context [reply_error ?x] => destruct x as [e0|v0] eqn:Hr; simpl
         end.
    all: split; [|done]; intros e [=]; subst.
    all: left; eauto 10.
  - destruct (Windows win) as [w|] eqn:Hw; simpl.
    + match goal with
      | |- context [reply_error ?x] => destruct x as [e0|v0] eqn:Hr; simpl
      end.
      all: split; [|done]; intros e [=]; subst.
      left; eauto 10.
    + destruct (asyncBridge win) eqn:Ha; simpl.
      all: split; [|done]; intros e [=]; subst.
      right. done.
Qed.

(** How [connect] of the mobile strategy ends. *)
Lemma android_connect_outcome (win : WindowWithBridge)
    (st : Runtime * AndroidBridge) :
  let r := AndroidBridge.connect win st in
  (∀ e, r.2 = Failed e → Android win = None ∧ asyncBridge win = None)
  ∧ (r.2 = Done () → connectionStatus (android_base r.1.2) = connected).
Proof.
  destruct st as [rt [b cb]]. unfold AndroidBridge.connect; simpl.
  destruct (Android win), (asyncBridge win); simpl; split; done.
Qed.

(** A host detected as [windows] has [Windows.receiveMessage] or
    [chrome.webview]. *)
Lemma detected_windows (win : WindowWithBridge) :
  PlatformDetector.getPlatform win = windows →
  is_Some (Windows win) ∨ is_Some (chrome_webview win).
Proof.
  unfold PlatformDetector.getPlatform, PlatformDetector.detect,
    PlatformDetector.hasWindowsReceiveMessage,
    PlatformDetector.hasChromeWebView, chrome_webview.
  destruct (Windows win); [by left; eexists|]. cbn [present].
  destruct (PlatformDetector.hasAndroidObject win); [done|].
  destruct (chrome win) as [[[wv|]]|]; cbn; [by right; eexists|..].
  all: destruct (PlatformDetector.hasAsyncBridge win); cbn.
  all: destruct (PlatformDetector.isAndroidUserAgent win); cbn; try done.
  all: destruct (PlatformDetector.hasElectronAPI win); cbn; done.
Qed.

(** A host detected as [android] has the [Android] object or [asyncBridge]. *)
Lemma detected_android (win : WindowWithBridge) :
  PlatformDetector.getPlatform win = android →
  is_Some (Android win) ∨ is_Some (asyncBridge win).
Proof.
  unfold PlatformDetector.getPlatform, PlatformDetector.detect,
    PlatformDetector.hasAndroidObject, PlatformDetector.hasAsyncBridge.
  destruct (PlatformDetector.hasWindowsReceiveMessage win); [done|].
  destruct (Android win); [by left; eexists|].
  destruct (asyncBridge win); [by right; eexists|]. cbn.
  destruct (PlatformDetector.hasChromeWebView win); cbn; [done|].
  destruct (PlatformDetector.hasElectronAPI win); cbn; done.
Qed.

(** The first attempt, spelled out. *)
Lemma first_attempt_spec (win : WindowWithBridge) (fault : option Error)
    (c : BridgeService) :
  let p := platform (PlatformDetector.detect win) in
  let bs := BridgeService.strategy_connect_begin win
              (runtime c, BridgeService.createStrategy p) in
  let f := BridgeService.strategy_connect_finish fault
             {| awaited := length (instances c); settled := bs.2 |}
             (bs.1.1, bs.1.2) in
  first_attempt win fault c
  = ({| runtime := f.1.1;
        instances := instances c ++ [f.1.2];
        strategy := Some (length (instances c));
        service_platform := p;
        connectionRetryCount := connectionRetryCount c;
        maxRetries := maxRetries c;
        retryTimeout := retryTimeout c |}, f.2).
Proof.
  cbv zeta. unfold first_attempt. rewrite connect_begin_spec. cbn [fst snd].
  apply await_strategy_last.
Qed.

(** How the strategy constructed for a platform fares on a host. *)
Lemma strategy_attempt_outcome (win : WindowWithBridge) (fault : option Error)
    (rt : Runtime) (p : PlatformType) (n : nat) :
  let bs := BridgeService.strategy_connect_begin win
              (rt, BridgeService.createStrategy p) in
  let f := BridgeService.strategy_connect_finish fault
             {| awaited := n; settled := bs.2 |} (bs.1.1, bs.1.2) in
  (∀ e, f.2 = Failed e →
     match p with
     | windows =>
         host_throws win e
         ∨ (Windows win = None ∧ chrome_webview win = None
            ∧ asyncBridge win = None)
     | android => Android win = None ∧ asyncBridge win = None
     | _ => fault = Some e
     end)
  ∧ (f.2 = Done () → connectionStatus (strategy_base f.1.2) = connected).
Proof.
  cbv zeta.
  unfold BridgeService.strategy_connect_begin,
    BridgeService.strategy_connect_finish.
  destruct p; cbn [BridgeService.createStrategy snd fst settled].
  - apply windows_connect_outcome.
  - apply android_connect_outcome.
  - destruct (web_connect_spec fault (rt, WebBridge.new)) as (_ & _ & Hf & Hd).
    split; [|exact Hd]. intros e He. by destruct (Hf e He).
  - destruct (web_connect_spec fault (rt, WebBridge.new)) as (_ & _ & Hf & Hd).
    split; [|exact Hd]. intros e He. by destruct (Hf e He).
Qed.

(** X8.  The strategy constructed for the detected platform finds the API
    it needs: its [connect()] succeeds on every host that is not detected
    as [windows], and on a host detected as [windows] it fails only with
    an exception one of the host's functions threw.  When it succeeds the
    service is connected. *)
Theorem detected_host_is_not_refused_for_a_missing_api
    (win : WindowWithBridge) (c : BridgeService) :
  let s := first_attempt win None c in
  (PlatformDetector.getPlatform win ≠ windows → s.2 = Done ())
  ∧ (∀ e, s.2 = Failed e →
       PlatformDetector.getPlatform win = windows ∧ host_throws win e)
  ∧ (s.2 = Done () → BridgeService.isConnected s.1 = true).
Proof.
  cbv zeta. rewrite first_attempt_spec. cbn [fst snd].
  destruct (strategy_attempt_outcome win None (runtime c)
              (platform (PlatformDetector.detect win))
              (length (instances c))) as [Hfail Hdone].
  cbv zeta in Hfail, Hdone.
  set (f := BridgeService.strategy_connect_finish None _ _) in *.
  assert (∀ e, f.2 = Failed e →
            PlatformDetector.getPlatform win = windows ∧ host_throws win e)
    as Hwhy.
  { intros e He. specialize (Hfail e He).
    unfold PlatformDetector.getPlatform.
    destruct (platform (PlatformDetector.detect win)) eqn:Hp; try done.
    - split; [done|]. destruct Hfail as [?|(Hw & Hwv & _)]; [done|].
      destruct (detected_windows win Hp) as [[? ?]|[? ?]]; congruence.
    - destruct Hfail as [Ha Hb].
      destruct (detected_android win Hp) as [[? ?]|[? ?]]; congruence. }
  split; [|split; [exact Hwhy|]].
  - intros Hp. destruct f.2 as [[]|e] eqn:He; [done|].
    by destruct (Hwhy e eq_refl).
  - intros Hd. unfold BridgeService.isConnected, BridgeService.current.
    cbn [strategy instances mbind option_bind].
    rewrite lookup_app_r by done. rewrite Nat.sub_diag. cbn [lookup list_lookup].
    by rewrite (Hdone Hd).
Qed.

(** The theorem at work: on the desktop shell whose receive-function
    throws, the first attempt fails with what the function threw. *)
Lemma detected_host_is_not_refused_for_a_missing_api_witness :
  first_attempt broken_host None BridgeService.new
  = ((first_attempt broken_host None BridgeService.new).1,
     Failed (mkError "host is shutting down"))
  ∧ PlatformDetector.getPlatform broken_host = windows
  ∧ host_throws broken_host (mkError "host is shutting down").
Proof.
  split; [by vm_compute|].
  apply (proj1 (proj2 (detected_host_is_not_refused_for_a_missing_api
                         broken_host BridgeService.new))).
  by vm_compute.
Defined.



(** X10.  When the strategy's [connect()] fails and no retry is left,
    [connect()] constructs the simulation and connects it: the call
    fulfils, the platform is [web], the service is connected to a
    simulation that hands out the seed roster, the retry count and the
    retry timer stay as they were, and on the way only
    [connectionStatusChanged] events were published, no [connected]. *)
Theorem exhausted_retries_fall_back_to_the_simulation
    (win : WindowWithBridge) (c : BridgeService) (e : Error) :
  (maxRetries c ≤ connectionRetryCount c)%nat →
  (first_attempt win None c).2 = Failed e →
  let r := BridgeService.connect win None c in
  r.2 = Done ()
  ∧ service_platform r.1 = web
  ∧ (∃ w, BridgeService.current r.1 = Some (OfWeb w)
          ∧ connectionStatus (web_base w) = connected
          ∧ WebBridge.active w = MOCK_STUDENTS)
  ∧ BridgeService.isConnected r.1 = true
  ∧ connectionRetryCount r.1 = connectionRetryCount c
  ∧ retryTimeout r.1 = retryTimeout c
  ∧ timers (runtime r.1) = timers (runtime c)
  ∧ Forall (λ ev, ev.1 = "connectionStatusChanged")
      (published_since (runtime c) (runtime r.1))
  ∧ length (instances r.1) = (length (instances c) + 2)%nat.
Proof.
  intros Hmax Hfail r. subst r. revert Hfail.
  unfold BridgeService.connect, BridgeService.connect_resume.
  rewrite first_attempt_spec.
  rewrite connect_begin_spec. cbn [fst snd].
  set (p := platform (PlatformDetector.detect win)).
  rewrite await_strategy_last.
  destruct (strategy_connect_spec win None (runtime c)
              (BridgeService.createStrategy p) (length (instances c)))
    as ((evs & Hev & Hst) & Htm & _).
  cbv zeta in Hev, Htm.
  set (f := BridgeService.strategy_connect_finish None _ _) in *.
  intros Hfail. rewrite Hfail.
  unfold BridgeService.connect_settled.
  cbn [fst snd runtime instances strategy service_platform
       connectionRetryCount maxRetries retryTimeout].
  apply Nat.ltb_ge in Hmax. rewrite Hmax.
  unfold BridgeService.fallback_begin, BridgeService.assign_strategy,
    BridgeService.on_instance.
  cbn [connectionRetryCount maxRetries runtime instances strategy
       service_platform retryTimeout fst snd].
  rewrite lookup_app_r by done. rewrite Nat.sub_diag.
  cbn [lookup list_lookup fst snd].
  rewrite insert_app_r_alt by done. rewrite Nat.sub_diag.
  cbn [insert list_insert fst snd].
  rewrite await_strategy_last.
  destruct (web_connect_spec None (f.1.1, WebBridge.new))
    as ((evs' & Hev' & Hst') & Htm' & _ & Hconn).
  cbv zeta in Hev', Htm', Hconn. cbn [fst snd] in Hev', Htm'.
  unfold BridgeService.strategy_connect_finish, BridgeService.fallback_settled.
  cbn [settled snd fst].
  rewrite <-(surjective_pairing (WebBridge.connect_begin (f.1.1, WebBridge.new))).
  set (g := WebBridge.connect_finish None
              (WebBridge.connect_begin (f.1.1, WebBridge.new))) in *.
  assert (g.2 = Done ()) as Hg by done.
  rewrite Hg. cbn [fst snd runtime instances strategy service_platform
                   connectionRetryCount maxRetries retryTimeout].
  specialize (Hconn Hg).
  assert (BridgeService.current
            {| runtime := g.1.1;
               instances := (instances c ++ [f.1.2]) ++ [OfWeb g.1.2];
               strategy := Some (length (instances c ++ [f.1.2]));
               service_platform := web;
               connectionRetryCount := connectionRetryCount c;
               maxRetries := maxRetries c;
               retryTimeout := retryTimeout c |} = Some (OfWeb g.1.2)) as Hcur.
  { unfold BridgeService.current. cbn [strategy instances mbind option_bind].
    rewrite lookup_app_r by done. by rewrite Nat.sub_diag. }
  split; [done|]. split; [done|]. split.
  { exists g.1.2. split; [exact Hcur|]. split; [exact Hconn|].
    destruct (same_roster_consistent WebBridge.new g.1.2) as [-> _]; [done|].
    apply active_none_removed. }
  split.
  { unfold BridgeService.isConnected. rewrite Hcur.
    cbn [strategy_base]. by rewrite Hconn. }
  split; [done|]. split; [done|]. split; [by rewrite Htm', Htm|]. split.
  { rewrite Hev in Hev'. rewrite <-app_assoc in Hev'.
    erewrite published_since_app by exact Hev'.
    apply Forall_app. done. }
  rewrite !length_app. cbn [length]. lia.
Qed.

(** The theorem at work: the fourth [connect()] on the broken desktop
    shell. *)
Lemma exhausted_retries_fall_back_to_the_simulation_witness :
  let c := service_after_failures broken_host 3 in
  let r := BridgeService.connect broken_host None c in
  r.2 = Done ()
  ∧ service_platform r.1 = web
  ∧ (∃ w, BridgeService.current r.1 = Some (OfWeb w)
          ∧ connectionStatus (web_base w) = connected
          ∧ WebBridge.active w = MOCK_STUDENTS)
  ∧ BridgeService.isConnected r.1 = true
  ∧ connectionRetryCount r.1 = connectionRetryCount c
  ∧ retryTimeout r.1 = retryTimeout c
  ∧ timers (runtime r.1) = timers (runtime c)
  ∧ Forall (λ ev, ev.1 = "connectionStatusChanged")
      (published_since (runtime c) (runtime r.1))
  ∧ length (instances r.1) = (length (instances c) + 2)%nat.
Proof.
  apply (exhausted_retries_fall_back_to_the_simulation broken_host
           (service_after_failures broken_host 3)
           (mkError "host is shutting down")).
  - vm_compute. lia.
  - by vm_compute.
Defined.

(** The strategy object keeps the class it was constructed with. *)
Lemma strategy_attempt_kind (win : WindowWithBridge) (fault : option Error)
    (rt : Runtime) (p : PlatformType) (n : nat) :
  let bs := BridgeService.strategy_connect_begin win
              (rt, BridgeService.createStrategy p) in
  let f := BridgeService.strategy_connect_finish fault
             {| awaited := n; settled := bs.2 |} (bs.1.1, bs.1.2) in
  match p with
  | windows => ∃ w, f.1.2 = OfWindows w
  | android => ∃ a, f.1.2 = OfAndroid a
  | _ => ∃ w, f.1.2 = OfWeb w
  end.
Proof.
  cbv zeta.
  unfold BridgeService.strategy_connect_begin,
    BridgeService.strategy_connect_finish.
  destruct p; cbn [BridgeService.createStrategy snd fst settled]; by eexists.
Qed.

(** X11.  After a successful [connect()], [getMockService] returns the
    simulation exactly when the detected platform is [web].  On a host
    detected as [electron] the service runs the simulation too, but
    [getMockService] returns [null]. *)
Theorem mock_service_is_offered_only_on_the_web_platform
    (win : WindowWithBridge) (fault : option Error) (c : BridgeService) :
  (first_attempt win fault c).2 = Done () →
  let r := BridgeService.connect win fault c in
  (is_Some (BridgeService.getMockService r.1)
   ↔ PlatformDetector.getPlatform win = web)
  ∧ (PlatformDetector.getPlatform win = electron →
     (∃ w, BridgeService.current r.1 = Some (OfWeb w))
     ∧ BridgeService.getMockService r.1 = None).
Proof.
  intros Hdone r. subst r. revert Hdone.
  unfold BridgeService.connect, BridgeService.connect_resume.
  rewrite first_attempt_spec.
  rewrite connect_begin_spec. cbn [fst snd].
  unfold PlatformDetector.getPlatform.
  set (p := platform (PlatformDetector.detect win)).
  rewrite await_strategy_last.
  pose proof (strategy_attempt_kind win fault (runtime c) p
                (length (instances c))) as Hkind.
  cbv zeta in Hkind.
  set (f := BridgeService.strategy_connect_finish fault _ _) in *.
  intros Hdone. rewrite Hdone.
  unfold BridgeService.connect_settled, BridgeService.set_runtime,
    BridgeService.getMockService, BridgeService.current.
  cbn [fst snd runtime instances strategy service_platform
       connectionRetryCount maxRetries retryTimeout mbind option_bind].
  rewrite lookup_app_r by done. rewrite Nat.sub_diag. cbn [lookup list_lookup].
  destruct p; destruct Hkind as [x ->].
  all: split;
    [split; intros H; try done; try (by destruct H); try (by eexists)
    |intros H; first [done|split; [by eexists|done]]].
Qed.

(** The theorem at work, on a shell with the embedded-app API only and in
    the plain browser. *)
Lemma mock_service_is_offered_only_on_the_web_platform_witness :
  let shell := host_of {| desktopReceive := false; mobileObject := false;
                          asyncObject := false; webviewChannel := false;
                          embeddedApi := true; mobileAgent := false |} in
  let r := BridgeService.connect shell None BridgeService.new in
  PlatformDetector.getPlatform shell = electron
  ∧ (∃ w, BridgeService.current r.1 = Some (OfWeb w))
  ∧ BridgeService.getMockService r.1 = None
  ∧ is_Some (BridgeService.getMockService
               (BridgeService.connect browser None BridgeService.new).1).
Proof.
  cbv zeta. split; [by vm_compute|].
  destruct (mock_service_is_offered_only_on_the_web_platform
              (host_of {| desktopReceive := false; mobileObject := false;
                          asyncObject := false; webviewChannel := false;
                          embeddedApi := true; mobileAgent := false |})
              None BridgeService.new) as [_ Hshell]; [by vm_compute|].
  destruct (Hshell ltac:(by vm_compute)) as [Hcur Hnone].
  split; [exact Hcur|]. split; [exact Hnone|].
  apply (proj1 (mock_service_is_offered_only_on_the_web_platform
                  browser None BridgeService.new ltac:(by vm_compute))).
  by vm_compute.
Defined.

(** ** The remote calls of the service *)

(** The strategy the service refers to. *)
Lemma current_Some (c : BridgeService) (s : Strategy) :
  BridgeService.current c = Some s ↔
  ∃ ref, strategy c = Some ref ∧ instances c !! ref = Some s.
Proof.
  unfold BridgeService.current. destruct (strategy c) as [ref|]; cbn.
  - split; [by exists ref|]. by intros (? & [= <-] & ?).
  - split; [done|]. by intros (? & ? & ?).
Qed.

(** [ensureConnected] lets a call pass exactly when [isConnected] holds. *)
Lemma ensureConnected_isConnected (c : BridgeService) :
  BridgeService.ensureConnected c = None ↔ BridgeService.isConnected c = true.
Proof.
  unfold BridgeService.ensureConnected, BridgeService.isConnected.
  destruct (BridgeService.current c) as [s|]; [|done].
  by destruct (connectionStatus (strategy_base s)).
Qed.

(** A call [ensureConnected] stops rejects with its error and changes
    nothing. *)
Lemma rpc_refused (JSON_parse : string → option JsVal)
    (win : WindowWithBridge) (op : Operation) (c : BridgeService) (e : Error) :
  BridgeService.ensureConnected c = Some e →
  BridgeService.rpc_begin JSON_parse win op c = (c, RpcSettled (Failed e) None).
Proof. unfold BridgeService.rpc_begin. by intros ->. Qed.

Lemma disconnect_strategy (c : BridgeService) :
  strategy (BridgeService.disconnect c) = None.
Proof. done. Qed.

(** X12.  A remote call of a service that is not connected rejects at once
    and changes nothing: with "Bridge not connected. Call connect()
    first." when there is no strategy, as after [disconnect]; with
    "Bridge not ready. Current status: connecting" while the simulation's
    [connect()] is under way; with "... error" after a failed [connect()]
    that left a retry scheduled. *)
Theorem remote_calls_are_refused_unless_connected
    (JSON_parse : string → option JsVal) (win : WindowWithBridge)
    (op : Operation) (c : BridgeService) :
  let refused (c : BridgeService) (text : string) :=
    BridgeService.rpc_begin JSON_parse win op c
    = (c, RpcSettled (Failed (mkError text)) None) in
  (BridgeService.isConnected c = false →
     ∃ text, refused c text)
  ∧ (BridgeService.current c = None →
     refused c "Bridge not connected. Call connect() first.")
  ∧ refused (BridgeService.disconnect c)
      "Bridge not connected. Call connect() first."
  ∧ refused (BridgeService.connect_begin browser c).1
      "Bridge not ready. Current status: connecting"
  ∧ (∀ host fault e,
       (first_attempt host fault c).2 = Failed e →
       (connectionRetryCount c < maxRetries c)%nat →
       refused (BridgeService.connect host fault c).1
         "Bridge not ready. Current status: error").
Proof.
  cbv zeta. split; [|split; [|split; [|split]]].
  - intros Hnot.
    destruct (BridgeService.ensureConnected c) as [[text]|] eqn:He.
    + exists text. by apply rpc_refused.
    + apply ensureConnected_isConnected in He. congruence.
  - intros Hcur. apply rpc_refused.
    unfold BridgeService.ensureConnected. by rewrite Hcur.
  - apply rpc_refused. unfold BridgeService.ensureConnected,
      BridgeService.current. by rewrite disconnect_strategy.
  - apply rpc_refused. rewrite connect_begin_spec.
    unfold BridgeService.ensureConnected, BridgeService.current.
    cbn [fst strategy instances mbind option_bind].
    rewrite lookup_app_r by done. by rewrite Nat.sub_diag.
  - intros host fault e Hfail Hlt. apply rpc_refused. revert Hfail.
    unfold BridgeService.connect, BridgeService.connect_resume.
    rewrite first_attempt_spec.
    rewrite connect_begin_spec. cbn [fst snd].
    set (p := platform (PlatformDetector.detect host)).
    rewrite await_strategy_last.
    destruct (strategy_connect_spec host fault (runtime c)
                (BridgeService.createStrategy p) (length (instances c)))
      as (_ & _ & Herr).
    cbv zeta in Herr.
    set (f := BridgeService.strategy_connect_finish fault _ _) in *.
    intros Hfail. rewrite Hfail. specialize (Herr e Hfail).
    unfold BridgeService.connect_settled.
    cbn [fst snd runtime instances strategy service_platform
         connectionRetryCount maxRetries retryTimeout].
    apply Nat.ltb_lt in Hlt. rewrite Hlt. cbn [fst snd Runtime.setTimeout].
    unfold BridgeService.ensureConnected, BridgeService.current.
    cbn [strategy instances mbind option_bind].
    rewrite lookup_app_r by done. rewrite Nat.sub_diag.
    cbn [lookup list_lookup]. by rewrite Herr.
Qed.

(** The theorem at work: on a new service, and after a failed
    [connect()] to the broken desktop shell. *)
Lemma remote_calls_are_refused_unless_connected_witness :
  let c := BridgeService.new in
  BridgeService.isConnected c = false
  ∧ (∃ text,
       BridgeService.rpc_begin (λ _, None) browser OpGetStudentList c
       = (c, RpcSettled (Failed (mkError text)) None))
  ∧ BridgeService.rpc_begin (λ _, None) browser OpGetStudentList
      (BridgeService.connect broken_host None c).1
    = ((BridgeService.connect broken_host None c).1,
       RpcSettled (Failed (mkError "Bridge not ready. Current status: error"))
         None).
Proof.
  split; [done|]. split.
  - apply (proj1 (remote_calls_are_refused_unless_connected
                    (λ _, None) browser OpGetStudentList BridgeService.new)).
    done.
  - apply (proj2 (proj2 (proj2 (proj2
             (remote_calls_are_refused_unless_connected
                (λ _, None) browser OpGetStudentList BridgeService.new))))
             broken_host None (mkError "host is shutting down")).
    + by vm_compute.
    + vm_compute. lia.
Defined.

(** X13.  On a service connected to the simulation a remote call never
    rejects and never reaches a host: [getStudentList] yields the students
    not removed, [studentPicked] and [studentRemoved] yield what X1 says,
    and the completion event of the call is published with that result. *)
Theorem remote_calls_on_the_simulation_settle_at_once
    (JSON_parse : string → option JsVal) (win : WindowWithBridge)
    (op : Operation) (c : BridgeService) (w : WebBridge) :
  BridgeService.current c = Some (OfWeb w) →
  connectionStatus (web_base w) = connected →
  let r := BridgeService.rpc_begin JSON_parse win op c in
  let v :=
    match op with
    | OpGetStudentList => JArr (student_js <$> WebBridge.active w)
    | OpStudentPicked event =>
        JBool (bool_decide (eventStudentId event ∈ listed w))
    | OpStudentRemoved event =>
        JBool (bool_decide (eventStudentId event ∈ listed w
                            ∧ (2 < length (WebBridge.active w))%nat))
    end in
  r.2 = RpcSettled (Done v) None
  ∧ last (emitted (runtime r.1)) = Some (BridgeService.completion op v)
  ∧ posted (runtime r.1) = posted (runtime c)
  ∧ promises (runtime r.1) = promises (runtime c).
Proof.
  intros Hcur Hconn. cbv zeta.
  pose proof Hcur as (ref & Href & Hinst)%current_Some.
  unfold BridgeService.rpc_begin, BridgeService.ensureConnected.
  rewrite Hcur, Href. cbn [strategy_base]. rewrite Hconn.
  unfold BridgeService.on_instance. rewrite Hinst.
  unfold BridgeService.strategy_call. cbn [snd fst].
  destruct op as [|event|event].
  - rewrite getStudentList_result.
    cbn [BridgeService.rpc_settled BridgeService.completion fst snd
         BridgeService.set_runtime runtime Runtime.emit emitted posted promises].
    rewrite last_snoc. done.
  - assert ((WebBridge.studentPicked event (runtime c, w)).2
            = bool_decide (eventStudentId event ∈ listed w)) as ->.
    { apply eq_true_iff_eq.
      rewrite (studentPicked_true event (runtime c, w)).
      by rewrite bool_decide_eq_true. }
    cbn [BridgeService.rpc_settled BridgeService.completion fst snd
         BridgeService.set_runtime runtime Runtime.emit emitted posted promises].
    rewrite last_snoc. split; [done|]. split; [done|].
    unfold WebBridge.studentPicked, WebBridge.simulateDelay; cbn [fst snd].
    destruct (WebBridge.find_student _ w); [|done].
    by case_bool_decide.
  - assert ((WebBridge.studentRemoved event (runtime c, w)).2
            = bool_decide (eventStudentId event ∈ listed w
                           ∧ (2 < length (WebBridge.active w))%nat)) as ->.
    { apply eq_true_iff_eq.
      rewrite (studentRemoved_true event (runtime c, w)).
      by rewrite bool_decide_eq_true. }
    cbn [BridgeService.rpc_settled BridgeService.completion fst snd
         BridgeService.set_runtime runtime Runtime.emit emitted posted promises].
    rewrite last_snoc. split; [done|]. split; [done|].
    unfold WebBridge.studentRemoved, WebBridge.simulateDelay; cbn [fst snd].
    destruct (WebBridge.find_student _ w); [|done].
    case_bool_decide; [done|]. by destruct (_ <=? 2)%nat.
Qed.

(** The theorem at work: student 12 is removed through a service
    connected in the plain browser. *)
Lemma remote_calls_on_the_simulation_settle_at_once_witness :
  let c := (BridgeService.connect browser None BridgeService.new).1 in
  let r := BridgeService.rpc_begin (λ _, None) browser
             (OpStudentRemoved {| eventStudentId := "12" |}) c in
  r.2 = RpcSettled (Done (JBool true)) None
  ∧ last (emitted (runtime r.1))
    = Some ("studentRemovedComplete",
            JObj [("studentId", JStr "12"); ("success", JBool true)]).
Proof.
  cbv zeta.
  destruct (remote_calls_on_the_simulation_settle_at_once
              (λ _, None) browser
              (OpStudentRemoved {| eventStudentId := "12" |})
              (BridgeService.connect browser None BridgeService.new).1
              ((WebBridge.connect (Runtime.start, WebBridge.new)).1.2))
    as (Hr & Hev & _).
  - by vm_compute.
  - by vm_compute.
  - cbv zeta in Hr, Hev. rewrite Hr, Hev. split; by vm_compute.
Defined.

(** ** Tearing down *)

Lemma cleanup_entry_frame (x : string * PendingRequest) (rt : Runtime) :
  now (BridgeStrategy.cleanup_entry x rt) = now rt
  ∧ emitted (BridgeStrategy.cleanup_entry x rt) = emitted rt
  ∧ posted (BridgeStrategy.cleanup_entry x rt) = posted rt.
Proof.
  unfold BridgeStrategy.cleanup_entry.
  destruct (settle_frame (pending_promise x.2)
              (Rejected BridgeStrategy.closed_error)
              (Runtime.clearTimeout (pending_timeout x.2) rt))
    as (-> & _ & -> & ->).
  done.
Qed.

(** [cleanup] leaves the clock, the events published and the messages
    posted alone. *)
Lemma cleanup_fold_frame (l : list (string * PendingRequest)) (rt : Runtime) :
  let rt' := foldr BridgeStrategy.cleanup_entry rt l in
  now rt' = now rt ∧ emitted rt' = emitted rt ∧ posted rt' = posted rt.
Proof.
  induction l as [|x l IH]; cbv zeta; cbn [foldr]; [done|].
  destruct (cleanup_entry_frame x (foldr BridgeStrategy.cleanup_entry rt l))
    as (-> & -> & ->).
  exact IH.
Qed.

(** What disconnecting does to the runtime and to the base-class state,
    whatever the strategy. *)
Lemma strategy_disconnect_base (st : Runtime * Strategy) :
  let d := (BridgeService.strategy_disconnect st).1 in
  (d.1, strategy_base d.2)
  = BridgeStrategy.cleanup
      (BridgeStrategy.updateConnectionStatus disconnected
         (st.1, strategy_base st.2)).
Proof. by destruct st as [rt [[s mh]|[s cb]|[s ms rs ss]]]. Qed.

(** What [disconnect] of a strategy changes. *)
Lemma strategy_disconnect_frame (st : Runtime * Strategy) :
  let d := (BridgeService.strategy_disconnect st).1 in
  now d.1 = now st.1
  ∧ posted d.1 = posted st.1
  ∧ emitted d.1
    = (emitted st.1 ++ [("connectionStatusChanged", JStr "disconnected")])%list
  ∧ (∀ i t, timers d.1 !! i = Some (Some t) → timers st.1 !! i = Some (Some t))
  ∧ connectionStatus (strategy_base d.2) = disconnected
  ∧ pendingRequests (strategy_base d.2) = ∅.
Proof.
  cbv zeta. pose proof (strategy_disconnect_base st) as Hb. cbv zeta in Hb.
  apply (f_equal fst) in Hb as Hrt. apply (f_equal snd) in Hb as Hs.
  cbn [fst snd] in Hrt, Hs. rewrite Hrt, Hs. clear Hb Hrt Hs.
  destruct st as [rt s]. cbn [fst snd].
  unfold BridgeStrategy.cleanup, BridgeStrategy.updateConnectionStatus.
  cbn [fst snd pendingRequests connectionStatus
       BridgeStrategy.set_pendingRequests].
  match goal with
  | |- context [foldr BridgeStrategy.cleanup_entry ?r ?l] =>
      destruct (cleanup_fold_frame l r) as (Hn & He & Hp);
      destruct (cleanup_fold l r) as (_ & _ & Ht)
  end.
  cbv zeta in Hn, He, Hp, Ht. rewrite Hn, He, Hp.
  split; [done|]. split; [done|]. split; [done|]. split; [|done].
  intros i t Hi. by apply Ht in Hi.
Qed.

(** [disconnect] of each strategy, in terms of the base class. *)
Lemma strategy_disconnect_shape (st : Runtime * Strategy) :
  (BridgeService.strategy_disconnect st).1
  = let d := BridgeStrategy.cleanup
               (BridgeStrategy.updateConnectionStatus disconnected
                  (st.1, strategy_base st.2)) in
    (d.1,
     match st.2 with
     | OfWindows w =>
         OfWindows {| windows_base := d.2; messageHandler := false |}
     | OfAndroid a =>
         OfAndroid {| android_base := d.2;
                      onAndroidMessage := onAndroidMessage a |}
     | OfWeb w =>
         OfWeb {| web_base := d.2; mockStudents := MOCK_STUDENTS;
                  removedStudents := ∅; selectedStudents := ∅ |}
     end).
Proof. by destruct st as [rt [[s mh]|[s cb]|[s ms rs ss]]]. Qed.

(** With no pending request left, the second tear-down only publishes the
    status. *)
Lemma base_disconnect_twice (st : Runtime * BridgeStrategy) :
  let d := BridgeStrategy.cleanup
             (BridgeStrategy.updateConnectionStatus disconnected st) in
  BridgeStrategy.cleanup (BridgeStrategy.updateConnectionStatus disconnected d)
  = (Runtime.emit "connectionStatusChanged" (JStr "disconnected") d.1, d.2).
Proof.
  destruct st as [rt [cs la mc pr]].
  unfold BridgeStrategy.cleanup, BridgeStrategy.updateConnectionStatus,
    BridgeStrategy.set_pendingRequests.
  cbn [fst snd connectionStatus lastActivity messageIdCounter pendingRequests].
  by rewrite map_to_list_empty.
Qed.

(** X14.  Disconnecting a strategy that was just disconnected changes
    neither the strategy nor any promise or timer; it only publishes the
    [disconnected] status once more. *)
Theorem strategy_disconnect_twice_only_repeats_the_status_event
    (st : Runtime * Strategy) :
  let d := (BridgeService.strategy_disconnect st).1 in
  let d' := (BridgeService.strategy_disconnect d).1 in
  d'.2 = d.2
  ∧ promises d'.1 = promises d.1
  ∧ timers d'.1 = timers d.1
  ∧ posted d'.1 = posted d.1
  ∧ now d'.1 = now d.1
  ∧ emitted d'.1
    = (emitted d.1 ++ [("connectionStatusChanged", JStr "disconnected")])%list
  ∧ connectionStatus (strategy_base d.2) = disconnected
  ∧ pendingRequests (strategy_base d.2) = ∅.
Proof.
  cbv zeta.
  destruct (strategy_disconnect_frame st) as (_ & _ & _ & _ & Hst & Hempty).
  cbv zeta in Hst, Hempty.
  rewrite (strategy_disconnect_shape (BridgeService.strategy_disconnect st).1).
  rewrite (strategy_disconnect_shape st) at 1 2 3 4 5 6 7.
  cbv zeta. cbn [fst snd].
  set (d := BridgeStrategy.cleanup
              (BridgeStrategy.updateConnectionStatus disconnected
                 (st.1, strategy_base st.2))).
  assert (∀ s : Strategy, strategy_base s = d.2 →
            BridgeStrategy.cleanup
              (BridgeStrategy.updateConnectionStatus disconnected
                 (d.1, strategy_base s))
            = (Runtime.emit "connectionStatusChanged" (JStr "disconnected")
                 d.1, d.2)) as Hbase.
  { intros s ->. rewrite <-(surjective_pairing d).
    apply base_disconnect_twice. }
  destruct st as [rt [w|a|w]]; cbn [snd] in *;
    rewrite Hbase by done; cbn [fst snd onAndroidMessage]; done.
Qed.

(** [clearTimeout] clears the timer and sets none. *)
Lemma clearTimeout_timers (tid : nat) (rt : Runtime) :
  (∀ t, timers (Runtime.clearTimeout tid rt) !! tid ≠ Some (Some t))
  ∧ (∀ i t, timers (Runtime.clearTimeout tid rt) !! i = Some (Some t) →
       timers rt !! i = Some (Some t)).
Proof.
  unfold Runtime.clearTimeout; cbn [timers]. split.
  - intros t Ht. apply list_lookup_insert_Some in Ht as [(_ & ? & _)|[? _]];
      done.
  - intros i t Ht. apply list_lookup_insert_Some in Ht as [(_ & ? & _)|[_ ?]];
      done.
Qed.

(** X15.  [disconnect()] of the service lets go of the strategy, which it
    leaves disconnected with an empty table of pending requests; it
    cancels a scheduled retry, sets no timer, hands nothing to the host,
    and publishes [disconnected] with the platform and the time last.
    The platform and the retry count stay as they were. *)
Theorem service_disconnect_cancels_the_retry_and_lets_go
    (c : BridgeService) :
  let d := BridgeService.disconnect c in
  strategy d = None
  ∧ BridgeService.isConnected d = false
  ∧ last (emitted (runtime d))
    = Some ("disconnected",
            JObj [("platform", JStr (platform_name (service_platform c)));
                  ("timestamp", JNum (Z.of_N (now (runtime c))))])
  ∧ (∀ tid, retryTimeout c = Some (S tid) →
       retryTimeout d = None
       ∧ ∀ t, timers (runtime d) !! S tid ≠ Some (Some t))
  ∧ (∀ tid t, timers (runtime d) !! tid = Some (Some t) →
       timers (runtime c) !! tid = Some (Some t))
  ∧ (∀ ref s, strategy c = Some ref → instances c !! ref = Some s →
       ∃ s', instances d !! ref = Some s'
             ∧ connectionStatus (strategy_base s') = disconnected
             ∧ pendingRequests (strategy_base s') = ∅)
  ∧ posted (runtime d) = posted (runtime c)
  ∧ service_platform d = service_platform c
  ∧ connectionRetryCount d = connectionRetryCount c.
Proof.
  cbv zeta. unfold BridgeService.disconnect.
  set (c1 := match retryTimeout c with
             | Some (S _ as tid) => _
             | _ => c
             end).
  assert (strategy c1 = strategy c ∧ instances c1 = instances c
          ∧ service_platform c1 = service_platform c
          ∧ connectionRetryCount c1 = connectionRetryCount c
          ∧ now (runtime c1) = now (runtime c)
          ∧ posted (runtime c1) = posted (runtime c)
          ∧ (∀ i t, timers (runtime c1) !! i = Some (Some t) →
               timers (runtime c) !! i = Some (Some t))
          ∧ (∀ tid, retryTimeout c = Some (S tid) →
               retryTimeout c1 = None
               ∧ ∀ t, timers (runtime c1) !! S tid ≠ Some (Some t)))
    as (Hs1 & Hi1 & Hp1 & Hc1 & Hn1 & Hpo1 & Ht1 & Hr1).
  { subst c1. destruct (retryTimeout c) as [[|tid]|]; try done.
    destruct (clearTimeout_timers (S tid) (runtime c)) as [Hgone Hrest].
    cbn [strategy instances service_platform connectionRetryCount runtime
         retryTimeout].
    do 6 (split; [done|]). split; [exact Hrest|].
    intros ? [= <-]. done. }
  set (c2 := match strategy c1 with
             | Some ref => _
             | None => c1
             end).
  assert (service_platform c2 = service_platform c1
          ∧ connectionRetryCount c2 = connectionRetryCount c1
          ∧ retryTimeout c2 = retryTimeout c1
          ∧ now (runtime c2) = now (runtime c1)
          ∧ posted (runtime c2) = posted (runtime c1)
          ∧ (∀ i t, timers (runtime c2) !! i = Some (Some t) →
               timers (runtime c1) !! i = Some (Some t))
          ∧ (∀ ref s, strategy c1 = Some ref → instances c1 !! ref = Some s →
               ∃ s', instances c2 !! ref = Some s'
                     ∧ connectionStatus (strategy_base s') = disconnected
                     ∧ pendingRequests (strategy_base s') = ∅))
    as (Hp2 & Hc2 & Hr2 & Hn2 & Hpo2 & Ht2 & Hd2).
  { subst c2.
    destruct (strategy c1) as [ref|];
      [|by do 6 (split; [done|]); intros ?? [=]].
    unfold BridgeService.on_instance.
    destruct (instances c1 !! ref) as [s|] eqn:Hs;
      [|by do 6 (split; [done|]); intros ?? [= <-] ?; congruence].
    destruct (strategy_disconnect_frame (runtime c1, s))
      as (Hn & Hpo & _ & Ht & Hst & Hempty).
    cbv zeta in Hn, Hpo, Ht, Hst, Hempty.
    cbn [fst snd runtime instances service_platform connectionRetryCount
         retryTimeout].
    do 6 (split; [done|]).
    intros ref' s0 [= <-] _. eexists. split; [|done].
    apply list_lookup_insert_eq. by eapply lookup_lt_Some. }
  unfold BridgeService.set_runtime, BridgeService.stamp,
    BridgeService.isConnected, BridgeService.current.
  cbn [runtime instances strategy service_platform connectionRetryCount
       maxRetries retryTimeout Runtime.emit emitted now timers posted
       mbind option_bind].
  split; [done|]. split; [done|]. split.
  { rewrite last_snoc. by rewrite Hp2, Hp1, Hn2, Hn1. }
  split.
  { intros tid Htid. destruct (Hr1 tid Htid) as [Hnone Hgone].
    split; [by rewrite Hr2|]. intros t Ht. by apply Ht2, Hgone in Ht. }
  split; [by intros tid t Ht%Ht2%Ht1|]. split.
  { intros ref s Href Hs. apply (Hd2 ref s); by rewrite ?Hs1, ?Hi1. }
  split; [by rewrite Hpo2|]. split; [by rewrite Hp2|]. by rewrite Hc2.
Qed.

(** ** Requests whose message could not be handed over *)

(** The round trip of the desktop strategy registers its request before it
    sends. *)
Lemma windows_roundtrip_failed (win : WindowWithBridge) (messageId event : string)
    (data : JsVal) (st : Runtime * WindowsBridge) (e : Error) :
  (WindowsBridge.roundtrip win messageId event data st).2 = Completed (Failed e) →
  let st' := (WindowsBridge.roundtrip win messageId event data st).1 in
  pendingRequests (windows_base st'.2) !! messageId
  = Some {| pending_promise := length (promises st.1);
            pending_timeout := length (timers st.1) |}
  ∧ promises st'.1 !! length (promises st.1) = Some Unsettled
  ∧ timers st'.1 !! length (timers st.1)
    = Some (Some {| due := (now st.1 + 5000)%N;
                    action := RequestTimeout messageId (length (promises st.1))
                                5000 |}).
Proof.
  destruct st as [rt [b mh]].
  unfold WindowsBridge.roundtrip, WindowsBridge.sendMessage.
  cbn [WindowsBridge.lift_with BridgeStrategy.createMessage
       BridgeStrategy.generateMessageId BridgeStrategy.createPendingRequest
       Runtime.newPromise Runtime.setTimeout fst snd windows_base
       messageHandler default from_option id].
  intros _. cbv zeta.
  destruct (Windows win) as [w|]; [|destruct (chrome_webview win) as [wv|]].
  all: cbn [fst snd Runtime.post promises timers windows_base
            BridgeStrategy.set_pendingRequests pendingRequests now].
  all: try match goal with
           | |- context [reply_error ?x] => destruct (reply_error x)
           end.
  all: cbn [fst snd Runtime.post promises timers windows_base
            BridgeStrategy.set_pendingRequests pendingRequests now].
  all: rewrite lookup_insert_eq, !lookup_app_r by done.
  all: by rewrite !Nat.sub_diag.
Qed.

(** The round trip of the mobile strategy registers its request under the
    id of the message. *)
Lemma android_roundtrip_registered
    (receiveMessage : BridgeMessage → HostReply) (event : string)
    (data : JsVal) (st : Runtime * AndroidBridge) :
  let st' := (AndroidBridge.roundtrip receiveMessage event data st).1 in
  let messageId := BridgeStrategy.message_id (now st.1)
                     (S (messageIdCounter (android_base st.2))) in
  pendingRequests (android_base st'.2) !! messageId
  = Some {| pending_promise := length (promises st.1);
            pending_timeout := length (timers st.1) |}
  ∧ promises st'.1 !! length (promises st.1) = Some Unsettled
  ∧ timers st'.1 !! length (timers st.1)
    = Some (Some {| due := (now st.1 + 5000)%N;
                    action := RequestTimeout messageId (length (promises st.1))
                                5000 |}).
Proof.
  destruct st as [rt [b cb]].
  unfold AndroidBridge.roundtrip.
  cbn [AndroidBridge.lift_with BridgeStrategy.createMessage
       BridgeStrategy.generateMessageId BridgeStrategy.createPendingRequest
       Runtime.newPromise Runtime.setTimeout fst snd android_base
       onAndroidMessage default from_option msgMessageId messageIdCounter].
  cbv zeta. unfold Datatypes.id.
  destruct (receiveMessage _).
  all: cbn [fst snd Runtime.post promises timers android_base
            BridgeStrategy.set_pendingRequests pendingRequests now].
  all: rewrite lookup_insert_eq, !lookup_app_r by done.
  all: by rewrite !Nat.sub_diag.
Qed.

(** A request timer that is set rejects its promise when it runs out and
    deletes the request. *)
Lemma expiry_rejects (messageId : string) (p tid : nat) (ms at_ : N)
    (st : Runtime * BridgeStrategy) :
  timers st.1 !! tid
  = Some (Some {| due := at_; action := RequestTimeout messageId p ms |}) →
  promises st.1 !! p = Some Unsettled →
  let late := BridgeStrategy.timer_fires tid st in
  promises late.1 !! p = Some (Rejected (BridgeStrategy.timeout_error ms))
  ∧ pendingRequests late.2 !! messageId = None.
Proof.
  destruct st as [rt s]. cbn [fst snd]. intros Ht Hp.
  unfold BridgeStrategy.timer_fires. rewrite Ht. cbn [action due fst snd].
  split.
  - by apply settle_promises_eq.
  - cbn [BridgeStrategy.set_pendingRequests pendingRequests].
    apply lookup_delete_eq.
Qed.

(** X16.  When a remote call of a strategy fails within the call, either
    the mobile strategy found no way to reach the host and changed
    nothing, or the message could not be handed over after the request
    had been registered: the request is still pending, its promise is not
    settled and its timer is set, so that the timer rejects the promise
    with the timeout error later. *)
Theorem failed_send_leaves_its_request_pending
    (JSON_parse : string → option JsVal) (win : WindowWithBridge)
    (op : Operation) (rt : Runtime) (s : Strategy) (e : Error) :
  let r := BridgeService.strategy_call JSON_parse win op (rt, s) in
  r.2 = Completed (Failed e) →
  (r.1 = (rt, s)
   ∧ Android win ≫= Android_receiveMessage = None
   ∧ ∃ what, e = mkError ("No method available to " +:+ what))
  ∨ (∃ messageId,
       let p := length (promises rt) in
       let tid := length (timers rt) in
       let late := BridgeStrategy.timer_fires tid
                     (r.1.1, strategy_base r.1.2) in
       pendingRequests (strategy_base r.1.2) !! messageId
       = Some {| pending_promise := p; pending_timeout := tid |}
       ∧ promises r.1.1 !! p = Some Unsettled
       ∧ timers r.1.1 !! tid
         = Some (Some {| due := (now rt + 5000)%N;
                         action := RequestTimeout messageId p 5000 |})
       ∧ promises late.1 !! p
         = Some (Rejected (mkError "Request timeout after 5000ms"))
       ∧ pendingRequests late.2 !! messageId = None).
Proof.
  cbv zeta. intros Hfail.
  assert (∀ messageId (st' : Runtime * BridgeStrategy),
            pendingRequests st'.2 !! messageId
            = Some {| pending_promise := length (promises rt);
                      pending_timeout := length (timers rt) |}
            ∧ promises st'.1 !! length (promises rt) = Some Unsettled
            ∧ timers st'.1 !! length (timers rt)
              = Some (Some {| due := (now rt + 5000)%N;
                              action := RequestTimeout messageId
                                          (length (promises rt)) 5000 |}) →
            ∃ messageId,
              pendingRequests st'.2 !! messageId
              = Some {| pending_promise := length (promises rt);
                        pending_timeout := length (timers rt) |}
              ∧ promises st'.1 !! length (promises rt) = Some Unsettled
              ∧ timers st'.1 !! length (timers rt)
                = Some (Some {| due := (now rt + 5000)%N;
                                action := RequestTimeout messageId
                                            (length (promises rt)) 5000 |})
              ∧ promises (BridgeStrategy.timer_fires (length (timers rt)) st').1
                  !! length (promises rt)
                = Some (Rejected (mkError "Request timeout after 5000ms"))
              ∧ pendingRequests
                  (BridgeStrategy.timer_fires (length (timers rt)) st').2
                  !! messageId = None) as Hlate.
  { intros messageId st' (Hpd & Hp & Ht). exists messageId.
    destruct (expiry_rejects messageId _ _ _ _ st' Ht Hp) as [Hrej Hgone].
    cbv zeta in Hrej, Hgone. split; [done|]. split; [done|].
    split; [done|]. split; [|done]. rewrite Hrej. f_equal. }
  revert Hfail. unfold BridgeService.strategy_call. cbn [fst snd].
  destruct s as [w|a|w].
  - (* the desktop strategy: every failure comes from the send *)
    intros Hfail. right. cbn [fst snd strategy_base] in *.
    assert (∃ messageId event data,
              (match op with
               | OpGetStudentList =>
                   WindowsBridge.getStudentList JSON_parse win (rt, w)
               | OpStudentPicked event =>
                   WindowsBridge.studentPicked win event (rt, w)
               | OpStudentRemoved event =>
                   WindowsBridge.studentRemoved win event (rt, w)
               end)
              = WindowsBridge.roundtrip win messageId event data
                  (WindowsBridge.lift_with BridgeStrategy.generateMessageId
                     (rt, w)).2) as (messageId & event & data & Heq).
    { destruct op as [|ev|ev]; revert Hfail;
        unfold WindowsBridge.getStudentList, WindowsBridge.studentPicked,
          WindowsBridge.studentRemoved;
        destruct (WindowsBridge.lift_with BridgeStrategy.generateMessageId
                    (rt, w)) as [mid st1]; cbn [snd]; cbv zeta;
        repeat case_match; try discriminate; intros _; eauto. }
    rewrite Heq in Hfail |- *.
    apply windows_roundtrip_failed in Hfail. cbv zeta in Hfail.
    destruct w as [b mh]. cbn [fst snd WindowsBridge.lift_with
      BridgeStrategy.generateMessageId] in Hfail.
    exact (Hlate messageId (_, _) Hfail).
  - (* the mobile strategy *)
    cbn [fst snd strategy_base].
    assert ((∃ what,
               (match op with
                | OpGetStudentList =>
                    AndroidBridge.getStudentList JSON_parse win (rt, a)
                | OpStudentPicked event =>
                    AndroidBridge.studentPicked win event (rt, a)
                | OpStudentRemoved event =>
                    AndroidBridge.studentRemoved win event (rt, a)
                end)
               = ((rt, a),
                  Completed (Failed (mkError ("No method available to "
                                              +:+ what))))
               ∧ Android win ≫= Android_receiveMessage = None)
            ∨ (∃ d, (match op with
                     | OpGetStudentList =>
                         AndroidBridge.getStudentList JSON_parse win (rt, a)
                     | OpStudentPicked event =>
                         AndroidBridge.studentPicked win event (rt, a)
                     | OpStudentRemoved event =>
                         AndroidBridge.studentRemoved win event (rt, a)
                     end).2 = Completed (Done d))
            ∨ (∃ receiveMessage event data,
                 (match op with
                  | OpGetStudentList =>
                      AndroidBridge.getStudentList JSON_parse win (rt, a)
                  | OpStudentPicked event =>
                      AndroidBridge.studentPicked win event (rt, a)
                  | OpStudentRemoved event =>
                      AndroidBridge.studentRemoved win event (rt, a)
                  end)
                 = AndroidBridge.roundtrip receiveMessage event data (rt, a)))
      as [(what & Heq & Hnone)|[(d & Heq)|(rm & event & data & Heq)]].
    { destruct op as [|ev|ev];
        unfold AndroidBridge.getStudentList, AndroidBridge.studentPicked,
          AndroidBridge.studentRemoved;
        cbv zeta; repeat case_match; cbn [snd]; eauto 10. }
    + rewrite Heq. cbn [fst snd]. intros [= <-]. left. eauto.
    + rewrite Heq. discriminate.
    + rewrite Heq. intros _. right.
      pose proof (android_roundtrip_registered rm event data (rt, a)) as Hreg.
      cbv zeta in Hreg. cbn [fst snd] in Hreg.
      exact (Hlate _ (_, _) Hreg).
  - (* the simulation never fails *)
    destruct op; discriminate.
Qed.

(** The theorem at work: [getStudentList] of the desktop strategy on the
    shell whose receive-function throws. *)
Lemma failed_send_leaves_its_request_pending_witness :
  let r := BridgeService.strategy_call (λ _, None) broken_host
             OpGetStudentList (Runtime.start, OfWindows WindowsBridge.new) in
  r.2 = Completed (Failed (mkError "host is shutting down"))
  ∧ ((r.1 = (Runtime.start, OfWindows WindowsBridge.new)
      ∧ Android broken_host ≫= Android_receiveMessage = None
      ∧ ∃ what, mkError "host is shutting down"
                = mkError ("No method available to " +:+ what))
     ∨ (∃ messageId,
          let p := length (promises Runtime.start) in
          let tid := length (timers Runtime.start) in
          let late := BridgeStrategy.timer_fires tid
                        (r.1.1, strategy_base r.1.2) in
          pendingRequests (strategy_base r.1.2) !! messageId
          = Some {| pending_promise := p; pending_timeout := tid |}
          ∧ promises r.1.1 !! p = Some Unsettled
          ∧ timers r.1.1 !! tid
            = Some (Some {| due := (now Runtime.start + 5000)%N;
                            action := RequestTimeout messageId p 5000 |})
          ∧ promises late.1 !! p
            = Some (Rejected (mkError "Request timeout after 5000ms"))
          ∧ pendingRequests late.2 !! messageId = None)).
Proof.
  split; [by vm_compute|].
  apply (failed_send_leaves_its_request_pending (λ _, None) broken_host
           OpGetStudentList Runtime.start (OfWindows WindowsBridge.new)
           (mkError "host is shutting down")).
  by vm_compute.
Defined.

(** ** The roster as the native strategies read it *)

(** X17.  The two native strategies read the roster alike from the four
    shapes a host answers with (an array, an object with a [data] array,
    and the JSON text of either), and both yield the empty roster for a
    text that is not JSON and for a falsy value.  From a text the mobile
    strategy always yields an array. *)
Theorem native_roster_parsers_agree_on_the_known_shapes
    (JSON_parse : string → option JsVal) (items : list JsVal) :
  let both (result expected : JsVal) :=
    AndroidBridge.parseStudentListResponse JSON_parse result = expected
    ∧ WindowsBridge.parseStudentListResponse JSON_parse result = expected in
  both (JArr items) (JArr items)
  ∧ (∀ fields, assoc "data" fields = JArr items →
       both (JObj fields) (JArr items))
  ∧ (∀ text, JSON_parse text = Some (JArr items) →
       both (JStr text) (JArr items))
  ∧ (∀ text fields, JSON_parse text = Some (JObj fields) →
       assoc "data" fields = JArr items → both (JStr text) (JArr items))
  ∧ (∀ text, JSON_parse text = None → both (JStr text) (JArr []))
  ∧ (∀ result, truthy result = false → (∀ text, result ≠ JStr text) →
       both result (JArr []))
  ∧ (∀ text, ∃ roster,
       AndroidBridge.parseStudentListResponse JSON_parse (JStr text)
       = JArr roster).
Proof.
  cbv zeta. unfold AndroidBridge.parseStudentListResponse,
    WindowsBridge.parseStudentListResponse.
  split; [done|]. split.
  { intros fields Hd. cbn [truthy typeof_object andb get]. by rewrite Hd. }
  split.
  { intros text ->. done. }
  split.
  { intros text fields -> Hd. cbn [truthy get]. rewrite Hd. done. }
  split.
  { intros text ->. done. }
  split.
  { intros result Hf Hs.
    destruct result as [| |b|z| |text|l|fields|px settles];
      try discriminate Hf; try (by destruct (Hs text)); try done.
    all: by rewrite Hf. }
  intros text. destruct (JSON_parse text) as [parsed|]; [|by eexists].
  destruct parsed; try by eexists.
  all: cbn [truthy get].
  all: repeat case_match; by eexists.
Qed.

(** ** Correlation ids never repeat *)

Lemma pretty_N_go_plain (x : N) (s : string) :
  plain s = true → plain (pretty_N_go x s) = true.
Proof.
  revert s. induction (N.lt_wf_0 x) as [x _ IH]; intros s Hs.
  assert (x = 0 ∨ 0 < x)%N as [->|Hx] by lia.
  - by rewrite pretty_N_go_0.
  - rewrite pretty_N_go_step by done. apply IH.
    { by apply N.div_lt. }
    cbn [plain]. rewrite Hs, andb_true_r.
    unfold pretty_N_char. by repeat case_match.
Qed.

(** The decimal rendering of a number holds no underscore. *)
Lemma pretty_N_plain (x : N) : plain (pretty x) = true.
Proof.
  unfold pretty, pretty_N. case_decide; [done|]. by apply pretty_N_go_plain.
Qed.

(** Two texts without underscore, each followed by an underscore and a
    rest, are equal only if texts and rests are. *)
Lemma plain_split (s1 s2 r1 r2 : string) :
  plain s1 = true → plain s2 = true →
  s1 +:+ "_" +:+ r1 = s2 +:+ "_" +:+ r2 → s1 = s2 ∧ r1 = r2.
Proof.
  revert s2. induction s1 as [|c s1 IH]; intros [|c' s2] H1 H2 Heq;
    unfold String.append in Heq; fold String.append in Heq.
  - by injection Heq as ->.
  - injection Heq as <- _. by vm_compute in H2.
  - injection Heq as -> _. by vm_compute in H1.
  - injection Heq as -> Heq.
    cbn [plain] in H1, H2.
    apply andb_true_iff in H1 as [_ H1]. apply andb_true_iff in H2 as [_ H2].
    by destruct (IH s2 H1 H2 Heq) as [-> ->].
Qed.

(** An id determines the time and the counter it was made from. *)
Lemma message_id_inj (t1 t2 : N) (c1 c2 : nat) :
  BridgeStrategy.message_id t1 c1 = BridgeStrategy.message_id t2 c2 →
  t1 = t2 ∧ c1 = c2.
Proof.
  unfold BridgeStrategy.message_id. intros Heq.
  apply (inj (String.app "msg_")) in Heq.
  apply plain_split in Heq as [Ht Hc]; [|apply pretty_N_plain..].
  split; by apply (inj pretty).
Qed.

(** What happens to a strategy does not change its counter. *)
Lemma happens_counter (h : Happening) (st : Runtime * BridgeStrategy) :
  messageIdCounter (happens h st).2 = messageIdCounter st.2.
Proof.
  destruct st as [rt s]. destruct h as [data|tid|id timeout|t];
    cbn [happens fst snd].
  - destruct (handleMessage_cases data (rt, s))
      as [->|[(ev & pl & ->)|(ev & pl & m & pd & _ & Hpd & ->)]]; try done.
    cbn [fst snd] in *. unfold BridgeStrategy.resolvePendingRequest.
    by rewrite Hpd.
  - unfold BridgeStrategy.timer_fires.
    destruct (timers rt !! tid) as [[t|]|]; try done.
    by destruct (action t).
  - done.
  - done.
Qed.

(** Every id generated later carries a higher counter. *)
Lemma generated_counters (steps : list Step) (st : Runtime * BridgeStrategy) :
  ∀ id, id ∈ generated steps st →
    ∃ t c, id = BridgeStrategy.message_id t c
           ∧ (messageIdCounter st.2 < c)%nat.
Proof.
  revert st. induction steps as [|[h|] steps IH]; intros st id Hid.
  - by apply elem_of_nil in Hid.
  - cbn [generated] in Hid. apply IH in Hid as (t & c & -> & Hc).
    rewrite happens_counter in Hc. eauto.
  - cbn [generated] in Hid. destruct st as [rt s].
    cbn [BridgeStrategy.generateMessageId fst snd] in Hid.
    apply elem_of_cons in Hid as [->|Hid].
    + exists (now rt), (S (messageIdCounter s)). split; [done|]. cbn. lia.
    + apply IH in Hid as (t & c & -> & Hc). cbn in Hc.
      exists t, c. split; [done|]. cbn. lia.
Qed.

(** X18.  The ids a strategy generates along a run, whatever happens in
    between and whatever the clock shows, are pairwise different; an id
    determines the time and the counter value it was made from. *)
Theorem generated_ids_never_repeat
    (steps : list Step) (st : Runtime * BridgeStrategy) :
  NoDup (generated steps st)
  ∧ ∀ t1 t2 c1 c2,
      BridgeStrategy.message_id t1 c1 = BridgeStrategy.message_id t2 c2 →
      t1 = t2 ∧ c1 = c2.
Proof.
  split; [|apply message_id_inj].
  revert st. induction steps as [|[h|] steps IH]; intros st.
  - apply NoDup_nil_2.
  - cbn [generated]. apply IH.
  - cbn [generated]. destruct st as [rt s].
    cbn [BridgeStrategy.generateMessageId fst snd].
    apply NoDup_cons. split; [|apply IH].
    intros (t & c & Heq & Hc)%generated_counters.
    apply message_id_inj in Heq as [_ <-]. cbn in Hc. lia.
Qed.

(** ** A round trip of the mobile strategy, through the service *)

(** A round trip of the mobile strategy and its response: the message
    carries the id registered, the response fulfils the promise, clears
    the timer, deletes the request and is published. *)
Lemma android_roundtrip_answered
    (receiveMessage : BridgeMessage → HostReply) (event : string)
    (data payload : JsVal) (st : Runtime * AndroidBridge) (p : nat) :
  (AndroidBridge.roundtrip receiveMessage event data st).2 = Awaiting p →
  let st' := (AndroidBridge.roundtrip receiveMessage event data st).1 in
  let messageId := BridgeStrategy.message_id (now st.1)
                     (S (messageIdCounter (android_base st.2))) in
  let st'' := AndroidBridge.handleMessage
                (response_to event messageId payload) st' in
  wire_id st'.1 = Some messageId
  ∧ promises st'.1 !! p = Some Unsettled
  ∧ promises st''.1 !! p = Some (Fulfilled payload)
  ∧ timers st''.1 !! length (timers st.1) = Some None
  ∧ pendingRequests (android_base st''.2) !! messageId = None
  ∧ emitted st''.1 = (emitted st.1 ++ [(event +:+ "Response", payload)])%list.
Proof.
  destruct st as [rt [b cb]].
  unfold AndroidBridge.roundtrip, wire_id; simpl.
  destruct (receiveMessage _); simpl; [done|]. intros [= <-].
  rewrite last_snoc; simpl. split; [done|].
  split. { rewrite lookup_app_r by done. by rewrite Nat.sub_diag. }
  unfold AndroidBridge.handleMessage, AndroidBridge.lift.
  erewrite handleMessage_matched;
    [|apply message_id_nonempty|simpl; apply lookup_insert_eq].
  unfold BridgeStrategy.resolvePendingRequest; simpl.
  rewrite lookup_insert_eq; simpl.
  rewrite lookup_delete_eq.
  split.
  { apply settle_promises_eq; simpl.
    rewrite lookup_app_r by done. by rewrite Nat.sub_diag. }
  split; [|split; [done|]].
  - rewrite (proj1 (proj2 (settle_frame _ _ _))). simpl.
    apply list_lookup_insert_eq. rewrite length_app. simpl. lia.
  - by rewrite (proj1 (proj2 (proj2 (settle_frame _ _ _)))).
Qed.

(** A method run on a strategy object that exists. *)
Lemma on_instance_Some {A} (ref : nat)
    (f : Runtime * Strategy → (Runtime * Strategy) * A)
    (c : BridgeService) (s : Strategy) :
  instances c !! ref = Some s →
  BridgeService.on_instance ref f c
  = Some ({| runtime := (f (runtime c, s)).1.1;
             instances := <[ref := (f (runtime c, s)).1.2]> (instances c);
             strategy := strategy c;
             service_platform := service_platform c;
             connectionRetryCount := connectionRetryCount c;
             maxRetries := maxRetries c;
             retryTimeout := retryTimeout c |},
          (f (runtime c, s)).2).
Proof. unfold BridgeService.on_instance. by intros ->. Qed.

(** How a call of the mobile strategy ends within the call. *)
Lemma android_call_cases (JSON_parse : string → option JsVal)
    (win : WindowWithBridge) (op : Operation) (rt : Runtime)
    (a : AndroidBridge) :
  let r := BridgeService.strategy_call JSON_parse win op (rt, OfAndroid a) in
  (∃ e, r.2 = Completed (Failed e) ∧ r.1 = (rt, OfAndroid a))
  ∨ (∃ d, r.2 = Completed (Done d))
  ∨ (∃ receiveMessage data,
       let m := AndroidBridge.roundtrip receiveMessage
                  (BridgeService.operation_name op) data (rt, a) in
       r = ((m.1.1, OfAndroid m.1.2), m.2)).
Proof.
  cbv zeta. unfold BridgeService.strategy_call. cbn [fst snd].
  destruct op as [|ev|ev];
    unfold AndroidBridge.getStudentList, AndroidBridge.studentPicked,
      AndroidBridge.studentRemoved, BridgeService.operation_name;
    cbv zeta; repeat case_match; cbn [fst snd]; eauto 10.
Qed.

Lemma rpc_settled_is_settled (win : WindowWithBridge) (op : Operation)
    (r : Outcome JsVal) (c : BridgeService) :
  ∃ a, (BridgeService.rpc_settled win op r c).2 = RpcSettled r a.
Proof.
  unfold BridgeService.rpc_settled. destruct r as [v|e]; [by eexists|].
  destruct (BridgeService.handleError _ _ _ _). by eexists.
Qed.

(** The suspended method resumes when its promise is fulfilled, not
    before. *)
Lemma android_resume_spec (p : nat) (st : Runtime * AndroidBridge) :
  (AndroidBridge.resume p st).1.1 = st.1
  ∧ (promises st.1 !! p = Some Unsettled → (AndroidBridge.resume p st).2 = None)
  ∧ (∀ v, promises st.1 !! p = Some (Fulfilled v) →
       (AndroidBridge.resume p st).2 = Some (Done v)).
Proof.
  destruct st as [rt [b cb]]. unfold AndroidBridge.resume, await_roundtrip.
  cbn [fst snd android_base]. split; [|split].
  - by destruct (promises rt !! p) as [[]|].
  - by intros ->.
  - by intros v ->.
Qed.

(** X19.  A remote call of the service that the mobile strategy sends as a
    message: the message posted carries the id the request is registered
    under; the call stays suspended until the host answers; and when the
    host calls back with a response carrying that id, the call fulfils
    with the response's payload, the response and then the completion
    event are published, and the request's timer is cleared. *)
Theorem mobile_round_trip_through_the_service
    (JSON_parse : string → option JsVal) (win : WindowWithBridge)
    (op : Operation) (c c1 : BridgeService) (a : AndroidBridge)
    (ref p : nat) :
  BridgeService.current c = Some (OfAndroid a) →
  BridgeService.rpc_begin JSON_parse win op c = (c1, RpcAwaiting ref p) →
  let messageId := BridgeStrategy.message_id (now (runtime c))
                     (S (messageIdCounter (android_base a))) in
  strategy c = Some ref
  ∧ wire_id (runtime c1) = Some messageId
  ∧ BridgeService.rpc_resume win op ref p c1 = None
  ∧ ∀ text payload,
      JSON_parse text
      = Some (response_to (BridgeService.operation_name op) messageId payload) →
      ∃ c3,
        BridgeService.rpc_resume win op ref p
          (host_calls_back JSON_parse ref text c1)
        = Some (c3, RpcSettled (Done payload) None)
        ∧ emitted (runtime c3)
          = (emitted (runtime c)
             ++ [(BridgeService.operation_name op +:+ "Response", payload);
                 BridgeService.completion op payload])%list
        ∧ timers (runtime c3) !! length (timers (runtime c)) = Some None
        ∧ promises (runtime c3) !! p = Some (Fulfilled payload).
Proof.
  intros Hcur Hbegin. cbv zeta.
  pose proof Hcur as (ref0 & Href & Hinst)%current_Some.
  pose proof (lookup_lt_Some _ _ _ Hinst) as Hlt.
  revert Hbegin. unfold BridgeService.rpc_begin, BridgeService.ensureConnected.
  rewrite Hcur, Href. cbn [strategy_base].
  destruct (connectionStatus (android_base a)); try discriminate.
  rewrite (on_instance_Some _ _ _ _ Hinst).
  destruct (android_call_cases JSON_parse win op (runtime c) a)
    as [(e & H2 & H1)|[(d & H2)|(rm & data & Heq)]];
    cbv zeta in *.
  { rewrite H2.
    destruct (rpc_settled_is_settled win op (Failed e)
                {| runtime :=
                     (BridgeService.strategy_call JSON_parse win op
                        (runtime c, OfAndroid a)).1.1;
                   instances :=
                     <[ref0 := (BridgeService.strategy_call JSON_parse win op
                                  (runtime c, OfAndroid a)).1.2]> (instances c);
                   strategy := strategy c;
                   service_platform := service_platform c;
                   connectionRetryCount := connectionRetryCount c;
                   maxRetries := maxRetries c;
                   retryTimeout := retryTimeout c |}) as [x Hx].
    intros Hb. rewrite Hb in Hx. discriminate. }
  { rewrite H2.
    destruct (rpc_settled_is_settled win op (Done d)
                {| runtime :=
                     (BridgeService.strategy_call JSON_parse win op
                        (runtime c, OfAndroid a)).1.1;
                   instances :=
                     <[ref0 := (BridgeService.strategy_call JSON_parse win op
                                  (runtime c, OfAndroid a)).1.2]> (instances c);
                   strategy := strategy c;
                   service_platform := service_platform c;
                   connectionRetryCount := connectionRetryCount c;
                   maxRetries := maxRetries c;
                   retryTimeout := retryTimeout c |}) as [x Hx].
    intros Hb. rewrite Hb in Hx. discriminate. }
  rewrite Heq. cbn [fst snd].
  set (m := AndroidBridge.roundtrip rm (BridgeService.operation_name op) data
              (runtime c, a)) in *.
  destruct (m.2) as [r|p0] eqn:Hm.
  { match goal with
    | |- context [BridgeService.rpc_settled win op r ?x] =>
        destruct (rpc_settled_is_settled win op r x) as [y Hy]
    end.
    intros Hb. rewrite Hb in Hy. discriminate. }
  intros [= <- <- <-].
  pose proof (λ payload,
                android_roundtrip_answered rm
                  (BridgeService.operation_name op) data payload
                  (runtime c, a) p0 Hm) as Hans.
  cbv zeta in Hans. fold m in Hans. cbn [fst snd] in Hans.
  destruct (Hans JUndefined) as (Hwire & Hun & _).
  split; [done|]. split; [exact Hwire|].
  assert (∀ l (s : Strategy), (<[ref0 := s]> (<[ref0 := l]> (instances c)))
                              !! ref0 = Some s) as Hlook2.
  { intros l s. apply list_lookup_insert_eq. by rewrite length_insert. }
  assert (∀ s : Strategy, (<[ref0 := s]> (instances c)) !! ref0 = Some s)
    as Hlook1.
  { intros s. by apply list_lookup_insert_eq. }
  split.
  { unfold BridgeService.rpc_resume.
    erewrite on_instance_Some by (cbn [instances]; apply Hlook1).
    unfold BridgeService.strategy_resume. cbn [fst snd runtime].
    destruct (android_resume_spec p0 (m.1.1, m.1.2)) as (_ & Hnone & _).
    by rewrite (Hnone Hun). }
  intros text payload Hparse.
  destruct (Hans payload) as (_ & _ & Hful & Htimer & _ & Hem).
  unfold host_calls_back.
  erewrite on_instance_Some by (cbn [instances]; apply Hlook1).
  cbn [fst snd runtime instances strategy service_platform connectionRetryCount
       maxRetries retryTimeout].
  unfold AndroidBridge.onAndroidMessage_call. rewrite Hparse.
  rewrite <-(surjective_pairing m.1).
  set (h := AndroidBridge.handleMessage _ m.1) in *.
  unfold BridgeService.rpc_resume.
  erewrite on_instance_Some by (cbn [instances]; apply Hlook2).
  unfold BridgeService.strategy_resume.
  cbn [fst snd runtime instances strategy service_platform connectionRetryCount
       maxRetries retryTimeout].
  destruct (android_resume_spec p0 (h.1, h.2)) as (Hrt & _ & Hdone).
  cbn [fst snd] in Hrt, Hdone. rewrite (Hdone payload Hful).
  unfold BridgeService.rpc_settled, BridgeService.set_runtime.
  cbn [fst snd runtime instances strategy service_platform connectionRetryCount
       maxRetries retryTimeout].
  eexists. split; [reflexivity|].
  cbn [runtime Runtime.emit emitted timers promises]. rewrite Hrt.
  split; [|done]. rewrite Hem, <-app_assoc. cbn [app].
  by destruct (BridgeService.completion op payload).
Qed.

(** The theorem at work: [getStudentList] through a service connected to
    the mobile shell, which answers with an empty roster. *)
Lemma mobile_round_trip_through_the_service_witness :
  let begun := BridgeService.rpc_begin parse_one_response mobile_host
                 OpGetStudentList mobile_service in
  begun.2 = RpcAwaiting 0 0
  ∧ wire_id (runtime begun.1) = Some "msg_0_1"
  ∧ BridgeService.rpc_resume mobile_host OpGetStudentList 0 0 begun.1 = None
  ∧ ∃ c3,
      BridgeService.rpc_resume mobile_host OpGetStudentList 0 0
        (host_calls_back parse_one_response 0 "{response}" begun.1)
      = Some (c3, RpcSettled (Done (JArr [])) None)
      ∧ emitted (runtime c3)
        = (emitted (runtime mobile_service)
           ++ [("getStudentListResponse", JArr []);
               ("studentsLoaded", JArr [])])%list.
Proof.
  cbv zeta. split; [by vm_compute|].
  destruct (mobile_round_trip_through_the_service parse_one_response
              mobile_host OpGetStudentList mobile_service
              (BridgeService.rpc_begin parse_one_response mobile_host
                 OpGetStudentList mobile_service).1
              {| android_base :=
                   {| connectionStatus := connected;
                      lastActivity := Some 0%N;
                      messageIdCounter := 0;
                      pendingRequests := ∅ |};
                 onAndroidMessage := true |} 0 0)
    as (_ & Hwire & Hwait & Hback).
  - by vm_compute.
  - by vm_compute.
  - split; [exact Hwire|]. split; [exact Hwait|].
    destruct (Hback "{response}" (JArr []) eq_refl) as (c3 & Hc3 & Hem & _).
    exists c3. split; [exact Hc3|exact Hem].
Defined.

(** ** Messages of the host *)




(** ** Every pending request has a timer of its own *)

(** The invariant depends on the promises, the timers, the table and the
    counter only, and survives a growing counter. *)
Lemma well_timed_frame (st st' : Runtime * BridgeStrategy) :
  promises st'.1 = promises st.1 →
  timers st'.1 = timers st.1 →
  pendingRequests st'.2 = pendingRequests st.2 →
  (messageIdCounter st.2 ≤ messageIdCounter st'.2)%nat →
  well_timed st → well_timed st'.
Proof.
  intros Hp Ht Hpr Hc (H1 & H2 & H3 & H4). unfold well_timed.
  rewrite Hp, Ht, Hpr. split; [done|]. split; [done|]. split; [done|].
  intros id Hid. destruct (H4 id Hid) as (t & c & -> & Hle).
  exists t, c. split; [done|]. lia.
Qed.

Lemma well_timed_new : well_timed (Runtime.start, BridgeStrategy.new).
Proof.
  split; [|split; [|split]]; cbn.
  - intros id pd. by rewrite lookup_empty.
  - intros [|[|tid]] t id p ms; cbn; done.
  - intros id1 id2 pd1 pd2. by rewrite lookup_empty.
  - intros id [pd Hpd]. by rewrite lookup_empty in Hpd.
Qed.

(** Registering a request under an id that is new and was generated. *)
Lemma well_timed_created (messageId : string) (st : Runtime * BridgeStrategy) :
  pendingRequests st.2 !! messageId = None →
  (∃ t c, messageId = BridgeStrategy.message_id t c
          ∧ (c ≤ messageIdCounter st.2)%nat) →
  well_timed st →
  well_timed (BridgeStrategy.createPendingRequest messageId (Some 5000%N) st).2.
Proof.
  intros Hfresh Hgen (H1 & H2 & H3 & H4). destruct st as [rt s].
  cbn [fst snd] in *.
  unfold BridgeStrategy.createPendingRequest.
  cbn [Runtime.newPromise Runtime.setTimeout fst snd default from_option
       BridgeStrategy.set_pendingRequests promises timers pendingRequests
       messageIdCounter now].
  unfold Datatypes.id, well_timed.
  cbn [fst snd BridgeStrategy.set_pendingRequests promises timers
       pendingRequests messageIdCounter].
  split; [|split; [|split]].
  - intros id pd. destruct (decide (messageId = id)) as [<-|Hne].
    + rewrite lookup_insert_eq. intros [= <-]. cbn [pending_promise pending_timeout].
      rewrite !lookup_app_r by done. rewrite !Nat.sub_diag. cbn. eauto.
    + rewrite lookup_insert_ne by done. intros Hpd.
      destruct (H1 id pd Hpd) as (Hp & at_ & Ht).
      rewrite !lookup_app_l by (by eapply lookup_lt_Some). eauto.
  - intros tid t id p ms Ht Ha.
    destruct (decide (tid < length (timers rt))%nat) as [Hlt|Hge].
    + rewrite lookup_app_l in Ht by done.
      pose proof (H2 tid t id p ms Ht Ha) as Hpd.
      rewrite lookup_insert_ne; [done|]. intros <-. congruence.
    + rewrite lookup_app_r in Ht by lia.
      destruct (tid - length (timers rt))%nat as [|k] eqn:Hk; [|by destruct k].
      cbn in Ht. injection Ht as <-. cbn [action] in Ha.
      injection Ha as <- <- <-. rewrite lookup_insert_eq.
      do 2 f_equal. lia.
  - intros id1 id2 pd1 pd2.
    destruct (decide (messageId = id1)) as [<-|Hne1];
      destruct (decide (messageId = id2)) as [<-|Hne2];
      rewrite ?lookup_insert_eq, ?lookup_insert_ne by done; try done.
    + intros [= <-] Hpd2. cbn [pending_promise]. intros Heq.
      destruct (H1 id2 pd2 Hpd2) as [Hp%lookup_lt_Some _]. lia.
    + intros Hpd1 [= <-]. cbn [pending_promise]. intros Heq.
      destruct (H1 id1 pd1 Hpd1) as [Hp%lookup_lt_Some _]. lia.
    + apply H3.
  - intros id. destruct (decide (messageId = id)) as [<-|Hne].
    + intros _. exact Hgen.
    + rewrite lookup_insert_ne by done. apply H4.
Qed.

(** Settling a pending request's promise, clearing its timer and deleting
    it. *)
Lemma well_timed_settled (messageId : string) (pd : PendingRequest)
    (o : Settlement) (rt' : Runtime) (st : Runtime * BridgeStrategy) :
  well_timed st →
  pendingRequests st.2 !! messageId = Some pd →
  promises rt' = promises st.1 →
  timers rt' = timers st.1 →
  well_timed
    (Runtime.settle (pending_promise pd) o
       (Runtime.clearTimeout (pending_timeout pd) rt'),
     BridgeStrategy.set_pendingRequests
       (delete messageId (pendingRequests st.2)) st.2).
Proof.
  intros (H1 & H2 & H3 & H4) Hpd Hp Ht. destruct st as [rt s].
  cbn [fst snd] in *.
  destruct (H1 messageId pd Hpd) as (Hun & at_ & Harmed).
  assert (∀ id' pd', pendingRequests s !! id' = Some pd' → id' ≠ messageId →
            pending_promise pd' ≠ pending_promise pd
            ∧ pending_timeout pd' ≠ pending_timeout pd) as Hother.
  { intros id' pd' Hpd' Hne. split.
    - intros Heq. by apply Hne, (H3 id' messageId pd' pd).
    - intros Heq. destruct (H1 id' pd' Hpd') as (_ & at' & Harmed').
      rewrite Heq, Harmed in Harmed'. by injection Harmed' as _ ->. }
  destruct (settle_frame (pending_promise pd) o
              (Runtime.clearTimeout (pending_timeout pd) rt'))
    as (_ & Htm & _).
  unfold well_timed. cbn [fst snd BridgeStrategy.set_pendingRequests
                          pendingRequests messageIdCounter].
  rewrite Htm. cbn [Runtime.clearTimeout timers]. rewrite Ht.
  split; [|split; [|split]].
  - intros id' pd' [Hne Hpd']%lookup_delete_Some.
    destruct (Hother id' pd' Hpd') as [Hp' Ht']; [done|].
    destruct (H1 id' pd' Hpd') as (Hun' & at' & Harmed').
    rewrite settle_promises_ne by done. cbn [Runtime.clearTimeout promises].
    rewrite Hp. split; [done|]. exists at'.
    by rewrite list_lookup_insert_ne.
  - intros tid t id p ms Htid Ha.
    apply list_lookup_insert_Some in Htid as [(_ & ? & _)|[Hne Htid]];
      [done|].
    pose proof (H2 tid t id p ms Htid Ha) as Hpd'.
    rewrite lookup_delete_ne; [done|].
    intros <-. rewrite Hpd in Hpd'. injection Hpd' as ->. done.
  - intros id1 id2 pd1 pd2 [_ Hpd1]%lookup_delete_Some
      [_ Hpd2]%lookup_delete_Some.
    by apply H3.
  - intros id [pd' [_ Hpd']%lookup_delete_Some]. apply H4. by eexists.
Qed.

Lemma well_timed_resolved (messageId : string) (payload : JsVal)
    (st : Runtime * BridgeStrategy) :
  well_timed st →
  well_timed (BridgeStrategy.resolvePendingRequest messageId payload st).
Proof.
  intros Hwt. destruct st as [rt s].
  unfold BridgeStrategy.resolvePendingRequest.
  destruct (pendingRequests s !! messageId) as [pd|] eqn:Hpd; [|done].
  by apply (well_timed_settled messageId pd _ rt (rt, s)).
Qed.

Lemma well_timed_emit (event : string) (payload : JsVal)
    (st : Runtime * BridgeStrategy) :
  well_timed st → well_timed (Runtime.emit event payload st.1, st.2).
Proof. by apply well_timed_frame. Qed.

Lemma well_timed_handleMessage (data : JsVal) (st : Runtime * BridgeStrategy) :
  well_timed st → well_timed (handleMessage data st).
Proof.
  intros Hwt.
  destruct (handleMessage_cases data st)
    as [->|[(ev & pl & ->)|(ev & pl & m & pd & _ & _ & ->)]]; [done|..].
  - by apply well_timed_emit.
  - apply (well_timed_emit ev pl
             (BridgeStrategy.resolvePendingRequest m pl st)).
    by apply well_timed_resolved.
Qed.

(** A timer runs out. *)
Lemma well_timed_expired (tid : nat) (st : Runtime * BridgeStrategy) :
  well_timed st → well_timed (BridgeStrategy.timer_fires tid st).
Proof.
  intros Hwt. destruct st as [rt s]. unfold BridgeStrategy.timer_fires.
  destruct (timers rt !! tid) as [[t|]|] eqn:Ht; [|done..].
  destruct (action t) as [id p ms|ev pl|] eqn:Ha.
  - pose proof Hwt as (_ & H2 & _). cbn [fst snd] in H2.
    pose proof (H2 tid t id p ms Ht Ha) as Hpd.
    exact (well_timed_settled id _ _ (Runtime.advance (due t) rt) (rt, s)
             Hwt Hpd eq_refl eq_refl).
  - assert (well_timed (Runtime.clearTimeout tid (Runtime.advance (due t) rt), s))
      as Hwt'.
    2:{ by apply (well_timed_emit ev pl (_, s)). }
    destruct Hwt as (H1 & H2 & H3 & H4). cbn [fst snd] in *.
    split; [|split; [|split]]; cbn [fst snd Runtime.clearTimeout
      Runtime.advance promises timers]; [| |done..].
    + intros id pd Hpd. destruct (H1 id pd Hpd) as (Hun & at_ & Harmed).
      split; [done|]. exists at_. rewrite list_lookup_insert_ne; [done|].
      intros Heq. rewrite <-Heq, Ht in Harmed. injection Harmed as ->.
      cbn in Ha. done.
    + intros tid' t' id p ms Htid.
      apply list_lookup_insert_Some in Htid as [(_ & ? & _)|[Hne Htid]];
        [done|].
      by apply H2.
  - destruct Hwt as (H1 & H2 & H3 & H4). cbn [fst snd] in *.
    split; [|split; [|split]]; cbn [fst snd Runtime.clearTimeout
      Runtime.advance promises timers]; [| |done..].
    + intros id pd Hpd. destruct (H1 id pd Hpd) as (Hun & at_ & Harmed).
      split; [done|]. exists at_. rewrite list_lookup_insert_ne; [done|].
      intros Heq. rewrite <-Heq, Ht in Harmed. injection Harmed as ->.
      cbn in Ha. done.
    + intros tid' t' id p ms Htid.
      apply list_lookup_insert_Some in Htid as [(_ & ? & _)|[Hne Htid]];
        [done|].
      by apply H2.
Qed.

(** All pending requests are rejected and dropped. *)
Lemma well_timed_cleanup (st : Runtime * BridgeStrategy) :
  well_timed st → well_timed (BridgeStrategy.cleanup st).
Proof.
  intros (H1 & H2 & H3 & H4). destruct st as [rt s]. cbn [fst snd] in *.
  unfold BridgeStrategy.cleanup.
  destruct (cleanup_fold (map_to_list (pendingRequests s)) rt)
    as (_ & Hcleared & Hkept).
  cbv zeta in Hcleared, Hkept.
  split; [|split; [|split]];
    cbn [fst snd BridgeStrategy.set_pendingRequests pendingRequests].
  - intros id pd. by rewrite lookup_empty.
  - intros tid t id p ms Ht Ha. exfalso.
    pose proof (Hkept tid t Ht) as Ht0.
    pose proof (H2 tid t id p ms Ht0 Ha) as Hpd.
    apply elem_of_map_to_list in Hpd.
    exact (Hcleared _ t Hpd Ht).
  - intros id1 id2 pd1 pd2. by rewrite lookup_empty.
  - intros id [pd Hpd]. by rewrite lookup_empty in Hpd.
Qed.

Lemma well_timed_later (a : TimerAction) (ms : N) (rt' : Runtime)
    (st : Runtime * BridgeStrategy) :
  (∀ id p n, a ≠ RequestTimeout id p n) →
  promises rt' = promises st.1 →
  timers rt' = timers st.1 →
  well_timed st → well_timed ((Runtime.setTimeout a ms rt').2, st.2).
Proof.
  intros Ha Hp Ht (H1 & H2 & H3 & H4). destruct st as [rt s].
  cbn [fst snd] in *. unfold well_timed.
  cbn [fst snd Runtime.setTimeout promises timers]. rewrite Hp, Ht.
  split; [|split; [|done]].
  - intros id pd Hpd. destruct (H1 id pd Hpd) as (Hun & at_ & Harmed).
    split; [done|]. exists at_.
    rewrite lookup_app_l by (by eapply lookup_lt_Some). done.
  - intros tid t id p n Htid Hact.
    destruct (decide (tid < length (timers rt))%nat) as [Hlt|Hge].
    + rewrite lookup_app_l in Htid by done. by eapply H2.
    + rewrite lookup_app_r in Htid by lia.
      destruct (tid - length (timers rt))%nat as [|k]; [|by destruct k].
      cbn in Htid. injection Htid as <-. cbn in Hact. by destruct (Ha id p n).
Qed.

(** A round trip registered under a newly generated id. *)
Lemma well_timed_request (st st1 : Runtime * BridgeStrategy) :
  well_timed st →
  promises st1.1 = promises st.1 →
  timers st1.1 = timers st.1 →
  pendingRequests st1.2 = pendingRequests st.2 →
  (S (messageIdCounter st.2) ≤ messageIdCounter st1.2)%nat →
  well_timed
    (BridgeStrategy.createPendingRequest
       (BridgeStrategy.message_id (now st.1) (S (messageIdCounter st.2)))
       (Some 5000%N) st1).2.
Proof.
  intros Hwt Hp Ht Hpr Hc.
  apply well_timed_created.
  - rewrite Hpr. destruct (pendingRequests st.2 !! _) as [pd|] eqn:Hpd; [|done].
    destruct Hwt as (_ & _ & _ & H4).
    destruct (H4 _ (ex_intro _ pd Hpd)) as (t & c & Heq & Hle).
    apply message_id_inj in Heq as [_ <-]. lia.
  - eauto.
  - apply (well_timed_frame st); try done. lia.
Qed.

Lemma android_roundtrip_well_timed
    (receiveMessage : BridgeMessage → HostReply) (event : string)
    (data : JsVal) (rt : Runtime) (a : AndroidBridge) :
  well_timed (rt, android_base a) →
  let r := (AndroidBridge.roundtrip receiveMessage event data (rt, a)).1 in
  well_timed (r.1, android_base r.2).
Proof.
  intros Hwt. cbv zeta. destruct a as [b cb].
  set (st1 := (BridgeStrategy.generateMessageId (rt, b)).2).
  pose proof (well_timed_request (rt, b) st1 Hwt eq_refl eq_refl eq_refl)
    as Hreq.
  cbn [fst snd] in Hreq. specialize (Hreq (le_n _)).
  revert Hreq. apply well_timed_frame.
  all: unfold AndroidBridge.roundtrip; cbn; by destruct (receiveMessage _).
Qed.

Lemma windows_roundtrip_well_timed (win : WindowWithBridge) (event : string)
    (data : JsVal) (rt : Runtime) (w : WindowsBridge) :
  well_timed (rt, windows_base w) →
  let g := WindowsBridge.lift_with BridgeStrategy.generateMessageId (rt, w) in
  let r := (WindowsBridge.roundtrip win g.1 event data g.2).1 in
  well_timed (r.1, windows_base r.2).
Proof.
  intros Hwt. cbv zeta. destruct w as [b mh].
  set (st1 := (BridgeStrategy.generateMessageId
                 (BridgeStrategy.generateMessageId (rt, b)).2).2).
  pose proof (well_timed_request (rt, b) st1 Hwt eq_refl eq_refl eq_refl)
    as Hreq.
  cbn [fst snd] in Hreq. specialize (Hreq (Nat.le_succ_diag_r _)).
  revert Hreq. apply well_timed_frame.
  all: unfold WindowsBridge.roundtrip, WindowsBridge.sendMessage; cbn.
  all: destruct (Windows win) as [x|];
    [|destruct (chrome_webview win) as [wv|]]; cbn;
    try match goal with
        | |- context [reply_error ?x] => destruct (reply_error x)
        end; done.
Qed.

(** How a call of the desktop strategy ends within the call. *)
Lemma windows_call_cases (JSON_parse : string → option JsVal)
    (win : WindowWithBridge) (op : Operation) (rt : Runtime)
    (w : WindowsBridge) :
  let r := BridgeService.strategy_call JSON_parse win op (rt, OfWindows w) in
  let g := WindowsBridge.lift_with BridgeStrategy.generateMessageId (rt, w) in
  (∃ d, r = (((WindowsBridge.lift BridgeStrategy.updateLastActivity g.2).1,
              OfWindows
                (WindowsBridge.lift BridgeStrategy.updateLastActivity g.2).2),
             Completed (Done d)))
  ∨ (∃ event data,
       let m := WindowsBridge.roundtrip win g.1 event data g.2 in
       r = ((m.1.1, OfWindows m.1.2), m.2)).
Proof.
  cbv zeta. unfold BridgeService.strategy_call. cbn [fst snd].
  destruct op as [|ev|ev];
    unfold WindowsBridge.getStudentList, WindowsBridge.studentPicked,
      WindowsBridge.studentRemoved;
    destruct (WindowsBridge.lift_with BridgeStrategy.generateMessageId (rt, w))
      as [mid st1]; cbn [fst snd]; cbv zeta;
    repeat case_match; cbn [fst snd]; eauto 10.
Qed.

(** Timers that carry no request are set. *)
Lemma well_timed_appended (extra : list (option Timer))
    (st st' : Runtime * BridgeStrategy) :
  promises st'.1 = promises st.1 →
  timers st'.1 = (timers st.1 ++ extra)%list →
  Forall (λ o, ∀ t id p n, o = Some t → action t ≠ RequestTimeout id p n)
    extra →
  pendingRequests st'.2 = pendingRequests st.2 →
  (messageIdCounter st.2 ≤ messageIdCounter st'.2)%nat →
  well_timed st → well_timed st'.
Proof.
  intros Hp Ht Hextra Hpr Hc (H1 & H2 & H3 & H4). unfold well_timed.
  rewrite Hp, Ht, Hpr. split; [|split; [|split; [done|]]].
  - intros id pd Hpd. destruct (H1 id pd Hpd) as (Hun & at_ & Harmed).
    split; [done|]. exists at_.
    rewrite lookup_app_l by (by eapply lookup_lt_Some). done.
  - intros tid t id p n Htid Hact.
    apply lookup_app_Some in Htid as [Htid|[_ Htid]]; [by eapply H2|].
    apply list_elem_of_lookup_2 in Htid.
    rewrite Forall_forall in Hextra.
    by destruct (Hextra _ Htid t id p n eq_refl).
  - intros id Hid. destruct (H4 id Hid) as (t & c & -> & Hle).
    exists t, c. split; [done|]. lia.
Qed.

Lemma strategy_connect_well_timed (JSON_parse : string → option JsVal)
    (win : WindowWithBridge) (fault : option Error) (st : Runtime * Strategy) :
  well_timed (base_of st) →
  well_timed (base_of (strategy_step JSON_parse win (Connects fault) st)).
Proof.
  destruct st as [rt s]. unfold base_of, strategy_step.
  apply (well_timed_appended []); rewrite ?app_nil_r; try (by apply Forall_nil_2).
  - destruct s as [[b mh]|[b cb]|[b ms rs ss]];
      unfold BridgeService.strategy_connect_begin,
        BridgeService.strategy_connect_finish; cbn [fst snd settled].
    + unfold WindowsBridge.connect, WindowsBridge.setupListeners; simpl.
      destruct (chrome_webview win ≫= webview_addEventListener) as [[]|]; simpl;
        [|destruct (Windows win) as [w|]; simpl;
            [destruct (reply_error _); simpl
            |destruct (chrome_webview win) as [wv|]; simpl;
               [destruct (reply_error _); simpl
               |destruct (present (asyncBridge win)); simpl]]..]; done.
    + unfold AndroidBridge.connect; simpl. by destruct (_ || _).
    + by destruct fault.
  - destruct (strategy_connect_spec win fault rt s 0) as (_ & Ht & _).
    cbn [fst snd]. exact Ht.
  - cbn [fst snd]. apply (strategy_connect_pending win fault rt s 0).
  - destruct s as [[b mh]|[b cb]|[b ms rs ss]];
      unfold BridgeService.strategy_connect_begin,
        BridgeService.strategy_connect_finish; cbn [fst snd settled].
    + unfold WindowsBridge.connect, WindowsBridge.setupListeners; simpl.
      destruct (chrome_webview win ≫= webview_addEventListener) as [[]|]; simpl;
        [|destruct (Windows win) as [w|]; simpl;
            [destruct (reply_error _); simpl
            |destruct (chrome_webview win) as [wv|]; simpl;
               [destruct (reply_error _); simpl
               |destruct (present (asyncBridge win)); simpl]]..]; lia.
    + unfold AndroidBridge.connect; simpl. by destruct (_ || _).
    + by destruct fault.
Qed.

(** How a call of the mobile strategy leaves the strategy. *)
Lemma android_call_states (JSON_parse : string → option JsVal)
    (win : WindowWithBridge) (op : Operation) (rt : Runtime)
    (a : AndroidBridge) :
  let r := (BridgeService.strategy_call JSON_parse win op (rt, OfAndroid a)).1 in
  r = (rt, OfAndroid a)
  ∨ r = ((AndroidBridge.lift BridgeStrategy.updateLastActivity (rt, a)).1,
         OfAndroid
           (AndroidBridge.lift BridgeStrategy.updateLastActivity (rt, a)).2)
  ∨ (∃ receiveMessage event data,
       let m := AndroidBridge.roundtrip receiveMessage event data (rt, a) in
       r = (m.1.1, OfAndroid m.1.2)).
Proof.
  cbv zeta. unfold BridgeService.strategy_call. cbn [fst snd].
  destruct op as [|ev|ev];
    unfold AndroidBridge.getStudentList, AndroidBridge.studentPicked,
      AndroidBridge.studentRemoved;
    cbv zeta; repeat case_match; cbn [fst snd]; eauto 10.
Qed.

(** What a call of the simulation does to the runtime and the base-class
    state. *)
Lemma web_call_frame (JSON_parse : string → option JsVal)
    (win : WindowWithBridge) (op : Operation) (rt : Runtime) (w : WebBridge) :
  let r := base_of (BridgeService.strategy_call JSON_parse win op
                      (rt, OfWeb w)).1 in
  promises r.1 = promises rt
  ∧ pendingRequests r.2 = pendingRequests (web_base w)
  ∧ messageIdCounter r.2 = messageIdCounter (web_base w)
  ∧ ∃ extra, timers r.1 = (timers rt ++ extra)%list
             ∧ Forall (λ o, ∀ t id p n, o = Some t →
                              action t ≠ RequestTimeout id p n) extra.
Proof.
  cbv zeta. unfold BridgeService.strategy_call, base_of. cbn [fst snd].
  assert (∀ (due : N) ev data,
            Forall (λ o : option Timer, ∀ t id p n, o = Some t →
                      action t ≠ RequestTimeout id p n)
              [Some {| due := due; action := EmitLater ev data |}]) as Hlater.
  { intros due ev data. apply Forall_singleton. by intros t id p n [= <-]. }
  destruct w as [b ms rs ss]. destruct op as [|ev|ev].
  - unfold WebBridge.getStudentList, WebBridge.simulateDelay,
      WebBridge.emitLater, WebBridge.lift.
    cbn [fst snd strategy_base web_base Runtime.setTimeout Runtime.advance
         BridgeStrategy.updateLastActivity promises timers pendingRequests
         messageIdCounter mockStudents removedStudents selectedStudents].
    do 3 (split; [done|]). eexists. split; [done|]. apply Hlater.
  - unfold WebBridge.studentPicked, WebBridge.simulateDelay; cbn [fst snd].
    destruct (WebBridge.find_student _ _);
      [case_bool_decide|];
      cbn [fst snd strategy_base web_base Runtime.advance promises timers
           WebBridge.emitLater WebBridge.lift Runtime.setTimeout
           BridgeStrategy.updateLastActivity pendingRequests messageIdCounter
           mockStudents removedStudents selectedStudents].
    all: do 3 (split; [done|]).
    1,3: by exists []; rewrite app_nil_r.
    eexists. split; [done|]. apply Hlater.
  - unfold WebBridge.studentRemoved, WebBridge.simulateDelay; cbn [fst snd].
    destruct (WebBridge.find_student _ _);
      [case_bool_decide; [|destruct (_ <=? 2)%nat]|];
      cbn [fst snd strategy_base web_base Runtime.advance promises timers
           WebBridge.emitLater WebBridge.lift Runtime.setTimeout
           BridgeStrategy.updateLastActivity pendingRequests messageIdCounter
           mockStudents removedStudents selectedStudents].
    all: do 3 (split; [done|]).
    1,4: by exists []; rewrite app_nil_r.
    all: eexists; split; [done|]; apply Hlater.
Qed.

Lemma strategy_call_well_timed (JSON_parse : string → option JsVal)
    (win : WindowWithBridge) (op : Operation) (st : Runtime * Strategy) :
  well_timed (base_of st) →
  well_timed (base_of (strategy_step JSON_parse win (Calls op) st)).
Proof.
  destruct st as [rt [w|a|w]]; unfold strategy_step; intros Hwt.
  - destruct (windows_call_cases JSON_parse win op rt w)
      as [(d & ->)|(event & data & ->)]; cbv zeta; cbn [fst snd].
    + revert Hwt. unfold base_of. apply well_timed_frame; try done.
      destruct w as [b mh]. cbn. lia.
    + by apply windows_roundtrip_well_timed.
  - destruct (android_call_states JSON_parse win op rt a)
      as [->|[->|(rm & event & data & ->)]]; cbv zeta; cbn [fst snd].
    + done.
    + revert Hwt. unfold base_of. by apply well_timed_frame.
    + by apply android_roundtrip_well_timed.
  - destruct (web_call_frame JSON_parse win op rt w)
      as (Hp & Hpr & Hc & extra & Ht & Hextra).
    cbv zeta in *. revert Hwt.
    apply (well_timed_appended extra); try done. by rewrite Hc.
Qed.

(** Whatever a strategy goes through keeps the invariant. *)
Lemma strategy_step_well_timed (JSON_parse : string → option JsVal)
    (win : WindowWithBridge) (ev : StrategyEvent) (st : Runtime * Strategy) :
  well_timed (base_of st) →
  well_timed (base_of (strategy_step JSON_parse win ev st)).
Proof.
  destruct ev as [fault| |op|p|data|tid|t].
  - apply strategy_connect_well_timed.
  - intros Hwt. unfold strategy_step, base_of.
    rewrite strategy_disconnect_base.
    apply well_timed_cleanup. revert Hwt. by apply well_timed_frame.
  - apply strategy_call_well_timed.
  - destruct st as [rt [[b mh]|[b cb]|w]];
      unfold strategy_step, base_of, BridgeService.strategy_resume,
        WindowsBridge.resume, AndroidBridge.resume, await_roundtrip;
      cbn [fst snd windows_base android_base strategy_base]; try done.
    all: destruct (promises rt !! p) as [[]|]; cbn [fst snd strategy_base
           windows_base android_base]; try done.
    all: by apply well_timed_frame.
  - destruct st as [rt [[b mh]|[b cb]|w]]; unfold strategy_step, base_of;
      cbn [fst snd]; try done.
    all: apply well_timed_handleMessage.
  - destruct st as [rt [[b mh]|[b cb]|[b ms rs ss]]];
      unfold strategy_step, base_of; cbn [fst snd].
    all: apply well_timed_expired.
  - by apply well_timed_frame.
Qed.

Lemma timer_runs_base (JSON_parse : string → option JsVal)
    (win : WindowWithBridge) (tid : nat) (st : Runtime * Strategy) :
  base_of (strategy_step JSON_parse win (TimerRuns tid) st)
  = BridgeStrategy.timer_fires tid (base_of st).
Proof.
  destruct st as [rt [[b mh]|[b cb]|[b ms rs ss]]];
    unfold base_of, strategy_step, WindowsBridge.timer_fires,
      AndroidBridge.timer_fires, WebBridge.timer_fires, WindowsBridge.lift,
      AndroidBridge.lift, WebBridge.lift;
    cbn [fst snd strategy_base windows_base android_base web_base];
    by destruct (BridgeStrategy.timer_fires _ _).
Qed.

(** X21.  Whatever a strategy object of any platform goes through from its
    construction (its methods called, calls resumed, messages of the host,
    timers running out, time passing), every pending request waits on a
    promise that is not settled and has a timer of its own set, which
    carries its id: when that timer runs out the promise is rejected with
    the timeout error and the request is no longer pending. *)
Theorem every_pending_request_has_a_timer_of_its_own
    (JSON_parse : string → option JsVal) (win : WindowWithBridge)
    (p : PlatformType) (evs : list StrategyEvent) :
  let st := strategy_run JSON_parse win evs
              (Runtime.start, BridgeService.createStrategy p) in
  well_timed (base_of st)
  ∧ ∀ id pd, pendingRequests (strategy_base st.2) !! id = Some pd →
      promises st.1 !! pending_promise pd = Some Unsettled
      ∧ (∃ at_, timers st.1 !! pending_timeout pd
                = Some (Some {| due := at_;
                                action := RequestTimeout id (pending_promise pd)
                                            5000 |}))
      ∧ let late := strategy_step JSON_parse win
                      (TimerRuns (pending_timeout pd)) st in
        promises late.1 !! pending_promise pd
        = Some (Rejected (mkError "Request timeout after 5000ms"))
        ∧ pendingRequests (strategy_base late.2) !! id = None.
Proof.
  cbv zeta.
  assert (well_timed
            (base_of (strategy_run JSON_parse win evs
                        (Runtime.start, BridgeService.createStrategy p))))
    as Hwt.
  { unfold strategy_run. induction evs as [|ev evs IH] using rev_ind.
    - destruct p; apply well_timed_new.
    - rewrite foldl_app. cbn [foldl]. by apply strategy_step_well_timed. }
  split; [exact Hwt|].
  set (st := strategy_run JSON_parse win evs _) in *.
  intros id pd Hpd. destruct Hwt as (H1 & _).
  destruct (H1 id pd Hpd) as (Hun & at_ & Harmed).
  split; [exact Hun|]. split; [by exists at_|].
  destruct (expiry_rejects id _ _ _ _ (base_of st) Harmed Hun) as [Hrej Hgone].
  cbv zeta in Hrej, Hgone.
  rewrite <-(timer_runs_base JSON_parse win) in Hrej, Hgone.
  unfold base_of in Hrej, Hgone. cbn [fst snd] in Hrej, Hgone.
  split; [|exact Hgone]. rewrite Hrej. f_equal.
Qed.

(** The theorem at work: a mobile strategy connects, sends two requests,
    receives the answer to the first; the second is pending, and is
    rejected when its timer runs out. *)
Lemma every_pending_request_has_a_timer_of_its_own_witness :
  let evs := [Connects None; Calls OpGetStudentList;
              Calls (OpStudentPicked {| eventStudentId := "4" |});
              HostSends (response_to "getStudentList" "msg_0_1" (JArr []));
              TimePasses 1200] in
  let st := strategy_run (λ _, None) mobile_host evs
              (Runtime.start, BridgeService.createStrategy android) in
  let late := strategy_step (λ _, None) mobile_host (TimerRuns 2) st in
  pendingRequests (strategy_base st.2) !! "msg_0_2"
  = Some {| pending_promise := 1; pending_timeout := 2 |}
  ∧ promises st.1 = [Fulfilled (JArr []); Unsettled]
  ∧ promises late.1 !! 1
    = Some (Rejected (mkError "Request timeout after 5000ms"))
  ∧ pendingRequests (strategy_base late.2) !! "msg_0_2" = None.
Proof.
  cbv zeta.
  assert (pendingRequests
            (strategy_base
               (strategy_run (λ _, None) mobile_host
                  [Connects None; Calls OpGetStudentList;
                   Calls (OpStudentPicked {| eventStudentId := "4" |});
                   HostSends (response_to "getStudentList" "msg_0_1" (JArr []));
                   TimePasses 1200]
                  (Runtime.start, BridgeService.createStrategy android)).2)
          !! "msg_0_2"
          = Some {| pending_promise := 1; pending_timeout := 2 |}) as Hpd
    by (by vm_compute).
  split; [exact Hpd|]. split; [by vm_compute|].
  destruct (proj2 (every_pending_request_has_a_timer_of_its_own
                     (λ _, None) mobile_host android
                     [Connects None; Calls OpGetStudentList;
                      Calls (OpStudentPicked {| eventStudentId := "4" |});
                      HostSends (response_to "getStudentList" "msg_0_1"
                                   (JArr []));
                      TimePasses 1200])
              "msg_0_2" _ Hpd) as (_ & _ & Hlate).
  exact Hlate.
Defined.

(** ** Failures of remote calls *)

(** The remote calls of the native strategies publish nothing and leave the
    clock alone within the call. *)
Lemma native_call_frame (JSON_parse : string → option JsVal)
    (win : WindowWithBridge) (op : Operation) (rt : Runtime) (s : Strategy) :
  (∀ w, s ≠ OfWeb w) →
  let r := (BridgeService.strategy_call JSON_parse win op (rt, s)).1 in
  emitted r.1 = emitted rt ∧ now r.1 = now rt.
Proof.
  intros Hs. cbv zeta. destruct s as [w|a|w]; [| |by destruct (Hs w)].
  - destruct (windows_call_cases JSON_parse win op rt w)
      as [(d & ->)|(event & data & ->)]; cbv zeta; cbn [fst snd].
    + by destruct w.
    + destruct w as [b mh].
      unfold WindowsBridge.roundtrip, WindowsBridge.sendMessage; cbn.
      destruct (Windows win) as [x|];
        [|destruct (chrome_webview win) as [wv|]]; cbn;
        try match goal with
            | |- context [reply_error ?x] => destruct (reply_error x)
            end; done.
  - destruct (android_call_states JSON_parse win op rt a)
      as [->|[->|(rm & event & data & ->)]]; cbv zeta; cbn [fst snd].
    + done.
    + by destruct a.
    + destruct a as [b cb]. unfold AndroidBridge.roundtrip; cbn.
      by destruct (rm _).
Qed.

(** [connect()] publishes nothing but status changes up to its [await]. *)
Lemma connect_begin_published (win : WindowWithBridge) (c : BridgeService) :
  ∃ evs, emitted (runtime (BridgeService.connect_begin win c).1)
         = (emitted (runtime c) ++ evs)%list
         ∧ Forall (λ ev, ev.1 = "connectionStatusChanged") evs.
Proof.
  rewrite connect_begin_spec. cbn [fst runtime].
  unfold BridgeService.strategy_connect_begin.
  destruct (platform (PlatformDetector.detect win));
    cbn [BridgeService.createStrategy fst snd].
  - by destruct (windows_connect_spec win (runtime c, WindowsBridge.new))
      as (Hev & _).
  - by destruct (android_connect_spec win (runtime c, AndroidBridge.new))
      as (Hev & _).
  - eexists. split; [reflexivity|]. by repeat constructor.
  - eexists. split; [reflexivity|]. by repeat constructor.
Qed.

(** X22.  When a remote call of a connected service fails before its
    [await], the service publishes one [error] event carrying the
    operation's name, the error's message ([Unknown error] for an empty
    one), the time and the platform, and the call fails with that same
    error.  Nothing else is published and the strategy in use is kept,
    unless the message contains [not connected]: then [connect()] is begun
    on a new strategy object, which publishes status changes only. *)
Theorem failed_remote_call_is_announced_and_rethrown
    (JSON_parse : string → option JsVal) (win : WindowWithBridge)
    (op : Operation) (c c1 : BridgeService) (e : Error)
    (reconnect : option InFlight) :
  BridgeService.ensureConnected c = None →
  BridgeService.rpc_begin JSON_parse win op c
  = (c1, RpcSettled (Failed e) reconnect) →
  let info :=
    JObj [("operation", JStr (BridgeService.operation_name op));
          ("message",
           JStr (if String.eqb (message e) "" then "Unknown error"
                 else message e));
          ("timestamp", JNum (Z.of_N (now (runtime c))));
          ("platform", JStr (platform_name (service_platform c)))] in
  let reconnects :=
    negb (String.eqb (message e) "")
    && includes "not connected" (message e) in
  (∃ rest, published_since (runtime c) (runtime c1) = ("error", info) :: rest
           ∧ Forall (λ ev, ev.1 = "connectionStatusChanged") rest)
  ∧ (reconnects = false →
     reconnect = None ∧ strategy c1 = strategy c
     ∧ length (instances c1) = length (instances c))
  ∧ (reconnects = true →
     ∃ a, reconnect = Some a
          ∧ awaited a = length (instances c)
          ∧ strategy c1 = Some (length (instances c))
          ∧ length (instances c1) = S (length (instances c))).
Proof.
  intros Hok Hbegin. cbv zeta.
  unfold BridgeService.rpc_begin in Hbegin. rewrite Hok in Hbegin.
  assert (∃ ref s, strategy c = Some ref ∧ instances c !! ref = Some s)
    as (ref & s & Href & Hinst).
  { unfold BridgeService.ensureConnected in Hok.
    destruct (BridgeService.current c) as [s|] eqn:Hcur; [|discriminate].
    apply current_Some in Hcur as (ref & ? & ?). eauto. }
  rewrite Href, (on_instance_Some _ _ _ _ Hinst) in Hbegin.
  assert (∀ w, s ≠ OfWeb w) as Hnative.
  { intros w ->. destruct op; discriminate Hbegin. }
  destruct (native_call_frame JSON_parse win op (runtime c) s Hnative)
    as [Hem Hnow]. cbv zeta in Hem, Hnow.
  set (r := BridgeService.strategy_call JSON_parse win op (runtime c, s)) in *.
  revert Hbegin.
  destruct (r.2) as [[v|e0]|p]; [discriminate| |discriminate].
  unfold BridgeService.rpc_settled, BridgeService.handleError,
    BridgeService.set_runtime.
  cbn [runtime instances strategy service_platform connectionRetryCount
       maxRetries retryTimeout].
  destruct (negb (String.eqb (message e0) "")
            && includes "not connected" (message e0)) eqn:Hwants.
  - match goal with
    | |- context [BridgeService.connect_begin win ?x] =>
        pose proof (connect_begin_published win x) as (evs & Hev & Hst);
        pose proof (C := connect_begin_spec win x);
        destruct (BridgeService.connect_begin win x) as [c2 a] eqn:Hcb
    end.
    cbn [fst snd runtime emitted Runtime.emit] in Hev.
    intros [= <- <- <-]. rewrite Hwants.
    injection C as -> ->.
    split; [|split; [done|]].
    + exists evs. split; [|done].
      rewrite Hem, <-app_assoc in Hev. cbn [app] in Hev.
      erewrite published_since_app by exact Hev. by rewrite Hnow.
    + intros _. eexists. split; [done|].
      cbn [awaited strategy instances]. rewrite length_app, length_insert.
      cbn [length]. split; [done|]. split; [done|]. lia.
  - intros [= <- <- <-]. rewrite Hwants. split; [|split; [|done]].
    + exists []. split; [|done].
      erewrite published_since_app;
        [|cbn [runtime emitted Runtime.emit]; rewrite Hem; reflexivity].
      by rewrite Hnow.
    + intros _. cbn [strategy instances]. rewrite length_insert. done.
Qed.

(** The theorem at work: a remote call on a mobile strategy whose host
    offers no way to fetch the roster. *)
Lemma failed_remote_call_is_announced_and_rethrown_witness :
  let host := acknowledging_host [] in
  let silent :=
    {| Windows := None; chrome := None; Android := Android host;
       asyncBridge := None; electronAPI := None;
       userAgent := userAgent host |} in
  let c := (BridgeService.connect silent None BridgeService.new).1 in
  let r := BridgeService.rpc_begin (λ _, None) silent OpGetStudentList c in
  r.2 = RpcSettled
          (Failed (mkError "No method available to get student list")) None
  ∧ published_since (runtime c) (runtime r.1)
    = [("error",
        JObj [("operation", JStr "getStudentList");
              ("message", JStr "No method available to get student list");
              ("timestamp", JNum 0);
              ("platform", JStr "android")])].
Proof.
  cbv zeta. split; [by vm_compute|].
  destruct (failed_remote_call_is_announced_and_rethrown (λ _, None)
              {| Windows := None; chrome := None;
                 Android := Android (acknowledging_host []);
                 asyncBridge := None; electronAPI := None;
                 userAgent := userAgent (acknowledging_host []) |}
              OpGetStudentList
              (BridgeService.connect
                 {| Windows := None; chrome := None;
                    Android := Android (acknowledging_host []);
                    asyncBridge := None; electronAPI := None;
                    userAgent := userAgent (acknowledging_host []) |}
                 None BridgeService.new).1
              (BridgeService.rpc_begin (λ _, None)
                 {| Windows := None; chrome := None;
                    Android := Android (acknowledging_host []);
                    asyncBridge := None; electronAPI := None;
                    userAgent := userAgent (acknowledging_host []) |}
                 OpGetStudentList
                 (BridgeService.connect
                    {| Windows := None; chrome := None;
                       Android := Android (acknowledging_host []);
                       asyncBridge := None; electronAPI := None;
                       userAgent := userAgent (acknowledging_host []) |}
                    None BridgeService.new).1).1
              (mkError "No method available to get student list") None)
    as ((rest & Hpub & _) & _ & _).
  - by vm_compute.
  - by vm_compute.
  - cbv zeta in Hpub. rewrite Hpub. by vm_compute.
Defined.
